(** * LendPro admin portal: deployment orchestration, ledger and secrets codec

    A shallow embedding of the deployment subsystem of the admin portal:
    - [scripts/railway-api.ts]   the remote platform client,
    - [scripts/deploy-client.ts] the [ClientDeployer] orchestrator,
    - [server/crypto.ts]         the password codec,
    - [database/schema.ts], [database/db.ts] the ledger,
    - the application router (the second half of [server/trpc.ts]), with
      its procedures [clients.deploy] and [clients.delete].

    Asynchronous code is embedded in a state-and-exception monad over an
    explicit world: process environment, clock, random generator, console,
    remote platform and database.  A thrown JavaScript [Error] is
    represented by its message.  The clock is in milliseconds and only
    moves forward: [sleep(ms)] moves it by [ms], a status query by the
    latency of its answer. *)

From Stdlib Require Import ZArith List Bool Ascii String Lia.
From Stdlib Require Import Strings.Byte.
From stdpp Require Import base gmap strings pretty.
Import ListNotations.

Local Open Scope string_scope.
Local Open Scope Z_scope.

(* ===================================================================== *)
(** * JavaScript values used by the code *)
(* ===================================================================== *)

Module Js.

(** Truthiness of an optional string: [undefined], [null] and the empty
    string are falsy. *)
Definition truthy (o : option string) : bool :=
  match o with
  | Some s => negb (String.eqb s "")
  | None => false
  end.

(** [a || b] on strings. *)
Definition or_else (a : option string) (b : string) : string :=
  match a with
  | Some s => if String.eqb s "" then b else s
  | None => b
  end.

(** [a || undefined] *)
Definition or_undefined (a : option string) : option string :=
  if truthy a then a else None.

Definition code (c : ascii) : nat := nat_of_ascii c.

(** [String.prototype.toLowerCase] on the ASCII range; characters outside
    [A-Z] are left as they are.  This is the JavaScript function on
    text of the ASCII range ([is_ascii] below), to which the statements
    that name its result are restricted. *)
Definition lower_char (c : ascii) : ascii :=
  if (65 <=? code c)%nat && (code c <=? 90)%nat
  then ascii_of_nat (code c + 32)
  else c.

Fixpoint toLowerCase (s : string) : string :=
  match s with
  | EmptyString => EmptyString
  | String c r => String (lower_char c) (toLowerCase r)
  end.

(** The regular-expression class [\s] on the ASCII range:
    tab, line feed, vertical tab, form feed, carriage return, space.
    Beyond that range the class has other members (the no-break space
    and the like), which are not white space here. *)
Definition is_space (c : ascii) : bool :=
  ((9 <=? code c)%nat && (code c <=? 13)%nat) || (code c =? 32)%nat.

(** [s.replace(/\s+/g, by)]: every maximal run of white space becomes one
    copy of [by].  [in_run] tells whether the previous character was
    white space. *)
Fixpoint replace_ws_runs (in_run : bool) (by_ : string) (s : string) : string :=
  match s with
  | EmptyString => EmptyString
  | String c r =>
      if is_space c
      then (if in_run then replace_ws_runs true by_ r
            else by_ ++ replace_ws_runs true by_ r)
      else String c (replace_ws_runs false by_ r)
  end.

Definition replace_whitespace (by_ s : string) : string :=
  replace_ws_runs false by_ s.

(** A number in a template literal; the numbers here are integers. *)
Definition show (z : Z) : string := pretty z.

(** [s.split(sep)] for a separator of one character. *)
Fixpoint split (sep : ascii) (s : string) : list string :=
  match s with
  | EmptyString => [EmptyString]
  | String c r =>
      if Ascii.eqb c sep then EmptyString :: split sep r
      else match split sep r with
           | h :: t => String c h :: t
           | [] => [String c EmptyString]
           end
  end.

(** [s.substring(n)] *)
Fixpoint substring_from (n : nat) (s : string) : string :=
  match n, s with
  | O, _ => s
  | S n', String _ r => substring_from n' r
  | S _, EmptyString => EmptyString
  end.

(** [s.startsWith(p)] *)
Definition startsWith (p s : string) : bool := String.prefix p s.

(** ** Text and its bytes

    A JavaScript string is a sequence of UTF-16 code units.  It is held
    here as the bytes of its UTF-8 encoding, so that an ASCII string is
    the string itself; a lone surrogate, which UTF-8 leaves out, is held
    as the three bytes [ED A0..BF 80..BF] that its code point would take
    (the generalized encoding). *)

(** A continuation byte, [80..BF]. *)
Definition continuation (c : ascii) : bool :=
  (128 <=? code c)%nat && (code c <=? 191)%nat.

(** The range of the second byte of a sequence of three, after the lead
    byte of code [x]: [E0] excludes overlong forms, [ED] the surrogates. *)
Definition second_of_three (x : nat) (b : ascii) : bool :=
  ((if (x =? 224)%nat then 160 else 128) <=? code b)%nat &&
  (code b <=? (if (x =? 237)%nat then 159 else 191))%nat.

(** The range of the second byte of a sequence of four: [F0] excludes
    overlong forms, [F4] code points above U+10FFFF. *)
Definition second_of_four (x : nat) (b : ascii) : bool :=
  ((if (x =? 240)%nat then 144 else 128) <=? code b)%nat &&
  (code b <=? (if (x =? 244)%nat then 143 else 191))%nat.

(** U+FFFD, the replacement character: [EF BF BD]. *)
Definition replacement : string :=
  String (ascii_of_nat 239) (String (ascii_of_nat 191)
    (String (ascii_of_nat 189) EmptyString)).

(** [String.prototype.isWellFormed]: the string has no lone surrogate,
    which is to say that its bytes are UTF-8. *)
Fixpoint isWellFormed (s : string) : bool :=
  match s with
  | EmptyString => true
  | String a r =>
      let x := code a in
      if (x <=? 127)%nat then isWellFormed r
      else if (194 <=? x)%nat && (x <=? 223)%nat then
        match r with
        | String b r1 => continuation b && isWellFormed r1
        | _ => false
        end
      else if (224 <=? x)%nat && (x <=? 239)%nat then
        match r with
        | String b (String c r2) =>
            second_of_three x b && continuation c && isWellFormed r2
        | _ => false
        end
      else if (240 <=? x)%nat && (x <=? 244)%nat then
        match r with
        | String b (String c (String d r3)) =>
            second_of_four x b && continuation c && continuation d &&
            isWellFormed r3
        | _ => false
        end
      else false
  end.

(** [String.prototype.toWellFormed]: every lone surrogate becomes U+FFFD.
    This is also what the UTF-8 encoder does with one. *)
Fixpoint toWellFormed (s : string) : string :=
  match s with
  | EmptyString => EmptyString
  | String a r =>
      match r with
      | String b (String c r2) =>
          if (code a =? 237)%nat && (160 <=? code b)%nat && continuation b &&
             continuation c
          then replacement ++ toWellFormed r2
          else String a (toWellFormed r)
      | _ => String a (toWellFormed r)
      end
  end.

(** The strings that stand for a JavaScript string: once the lone
    surrogates are replaced, the text is well formed. *)
Definition is_string (s : string) : bool := isWellFormed (toWellFormed s).

(** Text of the ASCII range only. *)
Fixpoint is_ascii (s : string) : bool :=
  match s with
  | EmptyString => true
  | String c r => (code c <=? 127)%nat && is_ascii r
  end.

End Js.

(* ===================================================================== *)
(** * Outcomes and the monad of effectful code *)
(* ===================================================================== *)

(** The result of running a piece of code: a value, or a thrown [Error]
    given by its message ([error instanceof Error ? error.message :
    String(error)]). *)
Inductive Outcome (A : Type) : Type :=
| Return (a : A)
| Throw (message : string).
Arguments Return {A} a.
Arguments Throw {A} message.

Definition M (S A : Type) : Type := S -> Outcome A * S.

Definition ret {S A} (a : A) : M S A := fun s => (Return a, s).

Definition throw {S A} (message : string) : M S A := fun s => (Throw message, s).

Definition bind {S A B} (m : M S A) (k : A -> M S B) : M S B :=
  fun s =>
    match m s with
    | (Return a, s') => k a s'
    | (Throw e, s') => (Throw e, s')
    end.

(** [try { body } catch (error) { handler(error) }] *)
Definition try_catch {S A} (body : M S A) (handler : string -> M S A) : M S A :=
  fun s =>
    match body s with
    | (Return a, s') => (Return a, s')
    | (Throw e, s') => handler e s'
    end.

Definition gets {S A} (f : S -> A) : M S A := fun s => (Return (f s), s).

Definition modify {S} (f : S -> S) : M S unit := fun s => (Return tt, f s).

(** Code of an inner state run inside a larger one. *)
Definition lift {S T A} (get : T -> S) (set : S -> T -> T) (m : M S A) : M T A :=
  fun t => let (r, s') := m (get t) in (r, set s' t).

Declare Scope js_scope.
Delimit Scope js_scope with js.
Notation "'let!' x ':=' m 'in' k" := (bind m (fun x => k))
  (at level 10, x pattern, m at level 100, k at level 200,
   format "'[v' 'let!'  x  ':='  m  'in' '/' k ']'") : js_scope.
Notation "m ';;' k" := (bind m (fun _ => k))
  (at level 100, k at level 200, right associativity,
   format "'[v' m ';;' '/' k ']'") : js_scope.

Local Open Scope js_scope.

(* ===================================================================== *)
(** * The process and the remote platform *)
(* ===================================================================== *)

(** [process.env]: the two variables the deployment code reads. *)
Record Env : Type := {
  ENCRYPTION_KEY : option string;
  RAILWAY_API_TOKEN : option string;
}.

(** The interfaces of [railway-api.ts]. *)
Module EnvironmentVariable.
Record t : Type := { key : string; value : string }.
End EnvironmentVariable.

Module CreateProjectResponse.
Record t : Type := { projectId : string; projectName : string }.
End CreateProjectResponse.

Module CreateServiceResponse.
Record t : Type := { serviceId : string; serviceName : string }.
End CreateServiceResponse.

Module DeploymentResponse.
Record t : Type := { deploymentId : string; status : string }.
End DeploymentResponse.

(** What [getDeploymentStatus] returns. *)
Module DeploymentStatus.
Record t : Type := { status : string; url : option string }.
End DeploymentStatus.

(** The [source] of a [serviceCreate] mutation. *)
Inductive ServiceSource : Type :=
| SourceRepo (repo branch : string)
| SourceImage (image : string).

(** A GraphQL request sent to the platform, with its variables. *)
Inductive Request : Type :=
| ProjectCreate (name : string)
| ServiceCreate (project name : string) (source : option ServiceSource)
| VariableCollectionUpsert (project service : string)
    (variables : list (string * string))
| ServiceInstanceRedeploy (service : string)
| DeploymentQuery (deployment : string)
| ServiceQuery (service : string)
| CustomDomainCreate (service domain : string)
| ProjectDelete (project : string).

(** The remote platform: what it answers to each request.  A rejected or
    failed request is a [Throw].  The answer to a deployment query depends
    on how many such queries came before, and takes some time. *)
Record Platform : Type := {
  projectCreate : string -> Outcome (string * string);
  serviceCreate : string -> string -> option ServiceSource ->
                  Outcome (string * string);
  variableCollectionUpsert : string -> string -> list (string * string) ->
                  Outcome unit;
  serviceInstanceRedeploy : string -> Outcome (string * string);
  deployment : string -> nat -> N * Outcome DeploymentStatus.t;
  service_domains : string -> Outcome (list string);
  customDomainCreate : string -> string -> Outcome unit;
  projectDelete : string -> Outcome unit;
}.

(** The state of the Node.js process and of what it talks to, apart from
    the database. *)
Record Node : Type := {
  env : Env;
  platform : Platform;
  clock : Z;                    (* [Date.now()], in milliseconds *)
  entropy : nat -> byte;        (* the bytes the random generator will give *)
  drawn : nat;                  (* how many of them were taken *)
  console : list string;        (* lines written, oldest first *)
  requests : list Request;      (* requests sent, oldest first *)
  sleeps : list Z;              (* arguments of [sleep], oldest first *)
  polls : nat;                  (* deployment queries sent *)
}.

Definition with_clock (t : Z) (n : Node) : Node :=
  {| env := env n; platform := platform n; clock := t; entropy := entropy n;
     drawn := drawn n; console := console n; requests := requests n;
     sleeps := sleeps n; polls := polls n |}.

Definition with_drawn (d : nat) (n : Node) : Node :=
  {| env := env n; platform := platform n; clock := clock n;
     entropy := entropy n; drawn := d; console := console n;
     requests := requests n; sleeps := sleeps n; polls := polls n |}.

Definition with_console (c : list string) (n : Node) : Node :=
  {| env := env n; platform := platform n; clock := clock n;
     entropy := entropy n; drawn := drawn n; console := c;
     requests := requests n; sleeps := sleeps n; polls := polls n |}.

Definition with_requests (r : list Request) (n : Node) : Node :=
  {| env := env n; platform := platform n; clock := clock n;
     entropy := entropy n; drawn := drawn n; console := console n;
     requests := r; sleeps := sleeps n; polls := polls n |}.

Definition with_sleeps (l : list Z) (n : Node) : Node :=
  {| env := env n; platform := platform n; clock := clock n;
     entropy := entropy n; drawn := drawn n; console := console n;
     requests := requests n; sleeps := l; polls := polls n |}.

Definition with_polls (p : nat) (n : Node) : Node :=
  {| env := env n; platform := platform n; clock := clock n;
     entropy := entropy n; drawn := drawn n; console := console n;
     requests := requests n; sleeps := sleeps n; polls := p |}.

(** [console.log], [console.warn], [console.error]: one line each; an
    error argument is printed as its message, and what the console adds
    to it from the error object (the stack, the fields of an HTTP error)
    is left out. *)
Definition console_write (line : string) : M Node unit :=
  modify (fun n => with_console (console n ++ [line]) n).

(** [Date.now()] *)
Definition Date_now : M Node Z := gets clock.

(** [crypto.randomBytes(n)] and [crypto.getRandomValues]: the next [n]
    bytes of the generator. *)
Definition randomBytes (n : nat) : M Node (list byte) :=
  fun w => (Return (map (entropy w) (seq (drawn w) n)),
            with_drawn (drawn w + n)%nat w).

(** [setTimeout]-based [sleep(ms)]: the clock moves on by [ms]. *)
Definition sleep (ms : Z) : M Node unit :=
  modify (fun n => with_clock (clock n + ms) (with_sleeps (sleeps n ++ [ms]) n)).

(* ===================================================================== *)
(** * [scripts/railway-api.ts] *)
(* ===================================================================== *)

Module RailwayApi.

Record RailwayApiClient : Type := { apiToken : string }.

(** [query]: send the request; a failure is written to the console and
    thrown again. *)
Definition query {A} (request : Request) (answer : Platform -> Outcome A)
  : M Node A :=
  try_catch
    (modify (fun n => with_requests (requests n ++ [request]) n) ;;
     (fun n => (answer (platform n), n)))
    (fun error =>
       console_write ("[Railway API] Query failed: " ++ error) ;;
       throw error).

Definition createProject (c : RailwayApiClient) (name : string)
  : M Node CreateProjectResponse.t :=
  let! result := query (ProjectCreate name)
                   (fun p => projectCreate p name) in
  ret {| CreateProjectResponse.projectId := fst result;
         CreateProjectResponse.projectName := snd result |}.

Definition createService (c : RailwayApiClient) (projectId name : string)
    (source : option (string * string)) : M Node CreateServiceResponse.t :=
  let src := option_map (fun s => SourceRepo (fst s) (snd s)) source in
  let! result := query (ServiceCreate projectId name src)
                   (fun p => serviceCreate p projectId name src) in
  ret {| CreateServiceResponse.serviceId := fst result;
         CreateServiceResponse.serviceName := snd result |}.

Definition setEnvironmentVariables (c : RailwayApiClient)
    (projectId serviceId : string) (variables : list EnvironmentVariable.t)
  : M Node unit :=
  let vars := map (fun v => (EnvironmentVariable.key v,
                             EnvironmentVariable.value v)) variables in
  query (VariableCollectionUpsert projectId serviceId vars)
    (fun p => variableCollectionUpsert p projectId serviceId vars).

Definition charset : string :=
  "abcdefghijklmnopqrstuvwxyzABCDEFGHIJKLMNOPQRSTUVWXYZ0123456789!@#$%^&*".

(** [crypto.getRandomValues(array)] for an array of [length] bytes: the
    call is refused above 65536 bytes. *)
Definition getRandomValues (length : nat) : M Node (list byte) :=
  if (65536 <? N.of_nat length)%N
  then throw "The requested length exceeds 65,536 bytes"
  else randomBytes length.

Definition generatePassword (length : nat) : M Node string :=
  let! array := getRandomValues length in
  ret (string_of_list_ascii
         (map (fun b => nth (N.to_nat (Byte.to_N b) mod String.length charset)
                          (list_ascii_of_string charset) " "%char)
              array)).

Definition createMySQLService (c : RailwayApiClient) (projectId name : string)
  : M Node CreateServiceResponse.t :=
  let src := Some (SourceImage "mysql:8.0") in
  let! result := query (ServiceCreate projectId name src)
                   (fun p => serviceCreate p projectId name src) in
  let! password := generatePassword 32 in
  setEnvironmentVariables c projectId (fst result)
    [ {| EnvironmentVariable.key := "MYSQL_ROOT_PASSWORD";
         EnvironmentVariable.value := password |};
      {| EnvironmentVariable.key := "MYSQL_DATABASE";
         EnvironmentVariable.value := "lendpro" |} ] ;;
  ret {| CreateServiceResponse.serviceId := fst result;
         CreateServiceResponse.serviceName := snd result |}.

Definition triggerDeployment (c : RailwayApiClient)
    (projectId serviceId : string) : M Node DeploymentResponse.t :=
  let! result := query (ServiceInstanceRedeploy serviceId)
                   (fun p => serviceInstanceRedeploy p serviceId) in
  ret {| DeploymentResponse.deploymentId := fst result;
         DeploymentResponse.status := snd result |}.

(** The deployment query: the platform's answer to the next poll arrives
    after its latency. *)
Definition getDeploymentStatus (c : RailwayApiClient) (deploymentId : string)
  : M Node DeploymentStatus.t :=
  try_catch
    (modify (fun n => with_requests
                        (requests n ++ [DeploymentQuery deploymentId]) n) ;;
     (fun n =>
        let (latency, answer) := deployment (platform n) deploymentId (polls n) in
        (answer, with_clock (clock n + Z.of_N latency)
                   (with_polls (S (polls n)) n))))
    (fun error =>
       console_write ("[Railway API] Query failed: " ++ error) ;;
       throw error).

Definition deleteProject (c : RailwayApiClient) (projectId : string)
  : M Node unit :=
  query (ProjectDelete projectId) (fun p => projectDelete p projectId).

(** [result.service.domains.serviceDomains[0] || null] *)
Definition getServiceDomain (c : RailwayApiClient) (serviceId : string)
  : M Node (option string) :=
  let! serviceDomains := query (ServiceQuery serviceId)
                           (fun p => service_domains p serviceId) in
  ret (Js.or_undefined (head serviceDomains)).

Definition addCustomDomain (c : RailwayApiClient) (serviceId domain : string)
  : M Node unit :=
  query (CustomDomainCreate serviceId domain)
    (fun p => customDomainCreate p serviceId domain).

Definition createRailwayApiClient : M Node RailwayApiClient :=
  let! token := gets (fun n => RAILWAY_API_TOKEN (env n)) in
  if Js.truthy token
  then ret {| apiToken := default "" token |}
  else throw ("RAILWAY_API_TOKEN environment variable is required. " ++
              "Get your token from https://railway.app/account/tokens").

End RailwayApi.

(* ===================================================================== *)
(** * [scripts/deploy-client.ts] *)
(* ===================================================================== *)

(** [ClientConfig], as the deployer reads it. *)
Module ClientConfig.

Record Lendpro : Type := {
  apiUrl : string;
  username : string;
  password : string;
  storeId : string;
  salesId : string;
  salesName : string;
}.

Record Branding : Type := {
  logoUrl : option string;
  primaryColor : option string;
  secondaryColor : option string;
  companyName : option string;
}.

Record Features : Type := { cartOnly : bool }.

Record Visualizer : Type := {
  enabled : bool;
  embedCode : option string;
  autoSyncApiKey : option string;
}.

Record t : Type := {
  id : string;
  name : string;
  domain : string;
  lendpro : Lendpro;
  branding : option Branding;
  features : option Features;
  visualizer : option Visualizer;
}.

End ClientConfig.

Module DeploymentResult.
Record t : Type := {
  success : bool;
  clientId : string;
  projectId : option string;
  projectUrl : option string;
  serviceUrl : option string;
  error : option string;
}.
End DeploymentResult.

Module ClientDeployer.

Import RailwayApi.

Record ClientDeployer : Type := {
  railwayClient : RailwayApiClient;
  githubRepo : string;
  githubBranch : string;
}.

(** The constructor, with its defaults. *)
Definition new (railwayClient : RailwayApiClient)
    (githubRepo githubBranch : option string) : ClientDeployer :=
  {| railwayClient := railwayClient;
     githubRepo := Js.or_else githubRepo "AudienceActivatorAI/lendpro-ecommerce";
     githubBranch := Js.or_else githubBranch "main" |}.

Definition var (k v : string) : EnvironmentVariable.t :=
  {| EnvironmentVariable.key := k; EnvironmentVariable.value := v |}.

(** [vars.push(...)] under a condition. *)
Definition push_if (b : bool) (v : EnvironmentVariable.t)
    (vars : list EnvironmentVariable.t) : list EnvironmentVariable.t :=
  if b then (vars ++ [v])%list else vars.

(** [buildEnvironmentVariables] ([deploy-client.ts], lines 137-194). *)
Definition buildEnvironmentVariables (config : ClientConfig.t)
    (mysqlServiceId : string) : list EnvironmentVariable.t :=
  let lendpro := ClientConfig.lendpro config in
  let vars :=
    [ var "NODE_ENV" "production";
      var "PORT" "3000";
      var "LENDPRO_API_URL" (ClientConfig.apiUrl lendpro);
      var "LENDPRO_USERNAME" (ClientConfig.username lendpro);
      var "LENDPRO_PASSWORD" (ClientConfig.password lendpro);
      var "LENDPRO_STORE_ID" (ClientConfig.storeId lendpro);
      var "LENDPRO_SALES_ID" (ClientConfig.salesId lendpro);
      var "LENDPRO_SALES_NAME" (ClientConfig.salesName lendpro);
      var "DATABASE_URL" ("${{" ++ mysqlServiceId ++ ".MYSQL_URL}}");
      var "OAUTH_SERVER_URL" "http://localhost:3000" ] in
  let vars :=
    match ClientConfig.visualizer config with
    | Some visualizer =>
        let vars := push_if true
                      (var "VISUALIZER_ENABLED"
                         (if ClientConfig.enabled visualizer
                          then "true" else "false")) vars in
        let vars := push_if (Js.truthy (ClientConfig.embedCode visualizer))
                      (var "VISUALIZER_EMBED_CODE"
                         (default "" (ClientConfig.embedCode visualizer))) vars in
        push_if (Js.truthy (ClientConfig.autoSyncApiKey visualizer))
          (var "AUTOSYNC_API_KEY"
             (default "" (ClientConfig.autoSyncApiKey visualizer))) vars
    | None => vars
    end in
  let vars :=
    push_if (match ClientConfig.features config with
             | Some features => ClientConfig.cartOnly features
             | None => false
             end)
      (var "CART_ONLY_MODE" "true") vars in
  match ClientConfig.branding config with
  | Some branding =>
      let vars := push_if (Js.truthy (ClientConfig.primaryColor branding))
                    (var "VITE_PRIMARY_COLOR"
                       (default "" (ClientConfig.primaryColor branding))) vars in
      let vars := push_if (Js.truthy (ClientConfig.secondaryColor branding))
                    (var "VITE_SECONDARY_COLOR"
                       (default "" (ClientConfig.secondaryColor branding))) vars in
      let vars := push_if (Js.truthy (ClientConfig.companyName branding))
                    (var "VITE_COMPANY_NAME"
                       (default "" (ClientConfig.companyName branding))) vars in
      push_if (Js.truthy (ClientConfig.logoUrl branding))
        (var "VITE_LOGO_URL" (default "" (ClientConfig.logoUrl branding))) vars
  | None => vars
  end.

Definition pollInterval : Z := 5000.

(** The two errors [waitForDeployment] throws. *)
Definition timed_out (timeout : Z) : string :=
  "Deployment timed out after " ++ Js.show timeout ++ "ms".

Definition failed_with (status : string) : string :=
  "Deployment failed with status: " ++ status.

(** The [while] loop of [waitForDeployment] ([deploy-client.ts], lines
    206-220), followed by the [throw] of line 222.  [fuel] bounds the
    number of times the body is entered; [None] means the bound was too
    small. *)
Fixpoint wait_loop (fuel : nat) (d : ClientDeployer) (deploymentId : string)
    (startTime timeout : Z) (n : Node)
  : option (Outcome DeploymentStatus.t * Node) :=
  if clock n - startTime <? timeout then
    match fuel with
    | O => None
    | S fuel' =>
        match getDeploymentStatus (railwayClient d) deploymentId n with
        | (Throw e, n1) => Some (Throw e, n1)
        | (Return status, n1) =>
            let (_, n2) :=
              console_write ("[Deployer] Deployment status: " ++
                             DeploymentStatus.status status) n1 in
            if String.eqb (DeploymentStatus.status status) "SUCCESS"
               || String.eqb (DeploymentStatus.status status) "ACTIVE"
            then Some (Return status, n2)
            else if String.eqb (DeploymentStatus.status status) "FAILED"
                    || String.eqb (DeploymentStatus.status status) "CRASHED"
            then Some (Throw (failed_with (DeploymentStatus.status status)), n2)
            else
              let (_, n3) := sleep pollInterval n2 in
              wait_loop fuel' d deploymentId startTime timeout n3
        end
    end
  else Some (Throw (timed_out timeout), n).

(** The body is entered at most this many times: the clock moves on by
    at least [pollInterval] each time round. *)
Definition enough_fuel (timeout : Z) : nat :=
  S (Z.to_nat (timeout / pollInterval)).

Definition waitForDeployment (d : ClientDeployer) (deploymentId : string)
    (timeout : Z) : M Node DeploymentStatus.t :=
  fun n =>
    let startTime := clock n in
    match wait_loop (enough_fuel timeout) d deploymentId startTime timeout n with
    | Some r => r
    | None => (Throw "unreachable", n)
    end.

(** The argument of [createProject] in step 1 ([deploy-client.ts], line 47):
    [`lendpro-${config.name.toLowerCase().replace(/\s+/g, "-")}`]. *)
Definition project_name (name : string) : string :=
  "lendpro-" ++ Js.replace_whitespace "-" (Js.toLowerCase name).

(** [deployClient] ([deploy-client.ts], lines 40-132). *)

Definition deployClient (d : ClientDeployer) (config : ClientConfig.t)
  : M Node DeploymentResult.t :=
  console_write ("[Deployer] Starting deployment for client: " ++
                 ClientConfig.name config) ;;
  try_catch
    (console_write "[Deployer] Creating Railway project..." ;;
     let! project := createProject (railwayClient d)
                       (project_name (ClientConfig.name config)) in
     let projectId := CreateProjectResponse.projectId project in
     console_write ("[Deployer] Project created: " ++ projectId) ;;
     console_write "[Deployer] Creating MySQL database service..." ;;
     let! mysqlService := createMySQLService (railwayClient d) projectId "mysql" in
     console_write ("[Deployer] MySQL service created: " ++
                    CreateServiceResponse.serviceId mysqlService) ;;
     sleep 5000 ;;
     console_write "[Deployer] Creating web application service..." ;;
     let! webService := createService (railwayClient d) projectId "web"
                          (Some (githubRepo d, githubBranch d)) in
     let webId := CreateServiceResponse.serviceId webService in
     console_write ("[Deployer] Web service created: " ++ webId) ;;
     console_write "[Deployer] Configuring environment variables..." ;;
     let envVars := buildEnvironmentVariables config
                      (CreateServiceResponse.serviceId mysqlService) in
     setEnvironmentVariables (railwayClient d) projectId webId envVars ;;
     console_write "[Deployer] Environment variables configured" ;;
     console_write "[Deployer] Triggering initial deployment..." ;;
     let! deployment := triggerDeployment (railwayClient d) projectId webId in
     console_write ("[Deployer] Deployment triggered: " ++
                    DeploymentResponse.deploymentId deployment) ;;
     console_write "[Deployer] Waiting for deployment to complete..." ;;
     let! deploymentStatus :=
       waitForDeployment d (DeploymentResponse.deploymentId deployment) 300000 in
     let! serviceUrl := getServiceDomain (railwayClient d) webId in
     console_write ("[Deployer] Service URL: " ++ default "null" serviceUrl) ;;
     (if Js.truthy (Some (ClientConfig.domain config)) then
        console_write ("[Deployer] Adding custom domain: " ++
                       ClientConfig.domain config) ;;
        try_catch
          (addCustomDomain (railwayClient d) webId (ClientConfig.domain config) ;;
           console_write "[Deployer] Custom domain added successfully")
          (fun error =>
             console_write ("[Deployer] Failed to add custom domain: " ++ error))
      else ret tt) ;;
     console_write ("[Deployer] Deployment completed successfully for " ++
                    ClientConfig.name config) ;;
     ret {| DeploymentResult.success := true;
            DeploymentResult.clientId := ClientConfig.id config;
            DeploymentResult.projectId := Some projectId;
            DeploymentResult.projectUrl :=
              Some ("https://railway.app/project/" ++ projectId);
            DeploymentResult.serviceUrl := Js.or_undefined serviceUrl;
            DeploymentResult.error := None |})
    (fun error =>
       console_write ("[Deployer] Deployment failed: " ++ error) ;;
       ret {| DeploymentResult.success := false;
              DeploymentResult.clientId := ClientConfig.id config;
              DeploymentResult.projectId := None;
              DeploymentResult.projectUrl := None;
              DeploymentResult.serviceUrl := None;
              DeploymentResult.error := Some error |}).

(** [deleteClient(projectId)]: no handler here, a failure of the remote
    deletion is thrown to the caller. *)
Definition deleteClient (d : ClientDeployer) (projectId : string)
  : M Node unit :=
  console_write ("[Deployer] Deleting project: " ++ projectId) ;;
  deleteProject (railwayClient d) projectId ;;
  console_write "[Deployer] Project deleted successfully".

(** [updateClient] ([deploy-client.ts], lines 228-267): the variables are
    set again and a new build is triggered and awaited, with the default
    timeout of [waitForDeployment]. *)
Definition updateClient (d : ClientDeployer) (config : ClientConfig.t)
    (projectId serviceId : string) : M Node DeploymentResult.t :=
  console_write ("[Deployer] Updating deployment for client: " ++
                 ClientConfig.name config) ;;
  try_catch
    (console_write "[Deployer] Updating environment variables..." ;;
     let envVars := buildEnvironmentVariables config "mysql" in
     setEnvironmentVariables (railwayClient d) projectId serviceId envVars ;;
     console_write "[Deployer] Triggering redeployment..." ;;
     let! deployment := triggerDeployment (railwayClient d) projectId serviceId in
     waitForDeployment d (DeploymentResponse.deploymentId deployment) 300000 ;;
     console_write ("[Deployer] Update completed successfully for " ++
                    ClientConfig.name config) ;;
     ret {| DeploymentResult.success := true;
            DeploymentResult.clientId := ClientConfig.id config;
            DeploymentResult.projectId := Some projectId;
            DeploymentResult.projectUrl := None;
            DeploymentResult.serviceUrl := None;
            DeploymentResult.error := None |})
    (fun error =>
       console_write ("[Deployer] Update failed: " ++ error) ;;
       ret {| DeploymentResult.success := false;
              DeploymentResult.clientId := ClientConfig.id config;
              DeploymentResult.projectId := None;
              DeploymentResult.projectUrl := None;
              DeploymentResult.serviceUrl := None;
              DeploymentResult.error := Some error |}).

End ClientDeployer.

(* ===================================================================== *)
(** * [server/crypto.ts] *)
(* ===================================================================== *)

(** Buffers are lists of bytes. *)
Module Buffer.

Definition t : Type := list byte.

(** [buf.slice(start, end)] for [0 <= start <= end]. *)
Definition slice (start end_ : nat) (b : t) : t :=
  firstn (end_ - start) (skipn start b).

(** [buf.slice(start)] *)
Definition slice_from (start : nat) (b : t) : t := skipn start b.

(** [Buffer.concat] *)
Definition concat (parts : list t) : t := List.concat parts.

Definition hex_char (n : N) : ascii :=
  ascii_of_N (if (n <? 10)%N then 48 + n else 87 + n)%N.

(** [buf.toString("hex")]: two lower-case digits for each byte. *)
Fixpoint to_hex (b : t) : string :=
  match b with
  | [] => EmptyString
  | x :: r =>
      String (hex_char (Byte.to_N x / 16))
        (String (hex_char (Byte.to_N x mod 16)) (to_hex r))
  end.

Definition hex_digit (c : ascii) : option N :=
  let n := N_of_ascii c in
  if ((48 <=? n) && (n <=? 57))%N then Some (n - 48)%N
  else if ((97 <=? n) && (n <=? 102))%N then Some (n - 87)%N
  else if ((65 <=? n) && (n <=? 70))%N then Some (n - 55)%N
  else None.

(** [Buffer.from(s, "hex")]: a byte for each pair of hexadecimal digits,
    of either case; decoding stops at the first pair that is not one,
    and a trailing single character is dropped. *)
Fixpoint from_hex (s : string) : t :=
  match s with
  | String a (String b r) =>
      match hex_digit a, hex_digit b with
      | Some h, Some l =>
          match Byte.of_N (16 * h + l) with
          | Some x => x :: from_hex r
          | None => []
          end
      | _, _ => []
      end
  | _ => []
  end.

(** The UTF-8 decoder: a sequence that is not the encoding of a code
    point gives U+FFFD, and decoding goes on at the first byte that did
    not fit. *)
Fixpoint decode_utf8 (s : string) : string :=
  match s with
  | EmptyString => EmptyString
  | String a r =>
      let x := Js.code a in
      if (x <=? 127)%nat then String a (decode_utf8 r)
      else if (194 <=? x)%nat && (x <=? 223)%nat then
        match r with
        | String b r1 =>
            if Js.continuation b
            then String a (String b (decode_utf8 r1))
            else Js.replacement ++ decode_utf8 r
        | EmptyString => Js.replacement
        end
      else if (224 <=? x)%nat && (x <=? 239)%nat then
        match r with
        | String b r1 =>
            if Js.second_of_three x b then
              match r1 with
              | String c r2 =>
                  if Js.continuation c
                  then String a (String b (String c (decode_utf8 r2)))
                  else Js.replacement ++ decode_utf8 r1
              | EmptyString => Js.replacement
              end
            else Js.replacement ++ decode_utf8 r
        | EmptyString => Js.replacement
        end
      else if (240 <=? x)%nat && (x <=? 244)%nat then
        match r with
        | String b r1 =>
            if Js.second_of_four x b then
              match r1 with
              | String c r2 =>
                  if Js.continuation c then
                    match r2 with
                    | String d r3 =>
                        if Js.continuation d
                        then String a (String b (String c
                               (String d (decode_utf8 r3))))
                        else Js.replacement ++ decode_utf8 r2
                    | EmptyString => Js.replacement
                    end
                  else Js.replacement ++ decode_utf8 r1
              | EmptyString => Js.replacement
              end
            else Js.replacement ++ decode_utf8 r
        | EmptyString => Js.replacement
        end
      else Js.replacement ++ decode_utf8 r
  end.

(** [Buffer.from(s, "utf8")]: the UTF-8 bytes of the string, with U+FFFD
    for a lone surrogate. *)
Definition from_utf8 (s : string) : t := list_byte_of_string (Js.toWellFormed s).

(** [buf.toString("utf8")] *)
Definition to_utf8 (b : t) : string := decode_utf8 (string_of_list_byte b).

End Buffer.

(** The primitives of Node's [crypto] module and the base64 codec of
    [Buffer], which the codec calls. *)
Class NodeCrypto : Type := {
  (** [pbkdf2Sync(password, salt, iterations, keylen, "sha512")] *)
  pbkdf2Sync : Buffer.t -> Buffer.t -> N -> nat -> Buffer.t;
  (** [createCipheriv("aes-256-gcm", key, iv)], [update], [final],
      [getAuthTag]: the ciphertext and the tag. *)
  gcm_encrypt : Buffer.t -> Buffer.t -> Buffer.t -> Buffer.t * Buffer.t;
  (** [createDecipheriv("aes-256-gcm", key, iv)], [setAuthTag(tag)],
      [update], [final]: the plaintext, or [None] where a call throws (the
      tag does not verify, or the key, iv or tag is not accepted). *)
  gcm_decrypt : Buffer.t -> Buffer.t -> Buffer.t -> Buffer.t -> option Buffer.t;
  (** [buf.toString("base64")] and [Buffer.from(s, "base64")] *)
  to_base64 : Buffer.t -> string;
  from_base64 : string -> Buffer.t;
}.

(** What the codec relies on: derived keys have the length asked for; what
    was encrypted decrypts under the same key and iv with its tag; the tag
    is 16 bytes; a 16-byte tag that decryption accepts for a ciphertext is
    the tag that encryption computes with that ciphertext; base64 decodes
    what it encoded. *)
Record NodeCryptoLaws (L : NodeCrypto) : Prop := {
  pbkdf2Sync_length : forall password salt iterations keylen,
    length (pbkdf2Sync password salt iterations keylen) = keylen;
  gcm_decrypt_encrypt : forall key iv plaintext,
    length key = 32%nat -> length iv = 16%nat ->
    gcm_decrypt key iv (snd (gcm_encrypt key iv plaintext))
      (fst (gcm_encrypt key iv plaintext)) = Some plaintext;
  gcm_tag_length : forall key iv plaintext,
    length (snd (gcm_encrypt key iv plaintext)) = 16%nat;
  gcm_tag_verified : forall key iv tag ciphertext decrypted plaintext,
    gcm_decrypt key iv tag ciphertext = Some decrypted ->
    length tag = 16%nat ->
    fst (gcm_encrypt key iv plaintext) = ciphertext ->
    snd (gcm_encrypt key iv plaintext) = tag;
  from_to_base64 : forall b, from_base64 (to_base64 b) = b;
}.

(** What rejection relies on.  Decryption returns a plaintext only for a
    ciphertext and a 16-byte tag that encryption gives for that
    plaintext under the key and iv.  A ciphertext with one byte changed
    is not accepted with the tag of the ciphertext it was: the hash of
    AES-GCM tells the two apart under every key whose hash subkey is not
    zero. *)
Record NodeCryptoAuthenticates (L : NodeCrypto) : Prop := {
  gcm_decrypt_sound : forall key iv tag ciphertext decrypted,
    gcm_decrypt key iv tag ciphertext = Some decrypted ->
    length tag = 16%nat ->
    gcm_encrypt key iv decrypted = (ciphertext, tag);
  gcm_change_detected : forall key iv plaintext (f : byte -> byte) pos old,
    fst (gcm_encrypt key iv plaintext) !! pos = Some old ->
    f old <> old ->
    gcm_decrypt key iv (snd (gcm_encrypt key iv plaintext))
      (alter f pos (fst (gcm_encrypt key iv plaintext))) = None;
}.

Module Crypto.
Section WithNodeCrypto.

Context {L : NodeCrypto}.

Definition IV_LENGTH : nat := 16.
Definition SALT_LENGTH : nat := 64.
Definition TAG_LENGTH : nat := 16.
Definition KEY_LENGTH : nat := 32.
Definition ITERATIONS : N := 100000.

Definition getEncryptionKey : M Node string :=
  let! key := gets (fun n => ENCRYPTION_KEY (env n)) in
  if Js.truthy key
  then ret (default "" key)
  else throw ("ENCRYPTION_KEY environment variable is required for " ++
              "encrypting sensitive data.").

Definition deriveKey (salt : Buffer.t) (masterKey : string) : Buffer.t :=
  pbkdf2Sync (Buffer.from_hex masterKey) salt ITERATIONS KEY_LENGTH.

(** [encryptPassword] ([crypto.ts], lines 44-78); [update] and [final]
    give the ciphertext in hexadecimal, which is decoded again for the
    buffer. *)
Definition encryptPassword (plaintext : string) : M Node string :=
  try_catch
    (let! masterKey := getEncryptionKey in
     let! salt := randomBytes SALT_LENGTH in
     let! iv := randomBytes IV_LENGTH in
     let key := deriveKey salt masterKey in
     let sealed := gcm_encrypt key iv (Buffer.from_utf8 plaintext) in
     let encrypted := Buffer.to_hex (fst sealed) in
     let tag := snd sealed in
     let result := Buffer.concat [salt; iv; tag; Buffer.from_hex encrypted] in
     ret (to_base64 result))
    (fun error =>
       console_write ("[Crypto] Encryption failed: " ++ error) ;;
       throw "Failed to encrypt password").

(** [decryptPassword] ([crypto.ts], lines 83-115). *)
Definition decryptPassword (encrypted : string) : M Node string :=
  try_catch
    (let! masterKey := getEncryptionKey in
     let buffer := from_base64 encrypted in
     let salt := Buffer.slice 0 SALT_LENGTH buffer in
     let iv := Buffer.slice SALT_LENGTH (SALT_LENGTH + IV_LENGTH) buffer in
     let tag := Buffer.slice (SALT_LENGTH + IV_LENGTH)
                  (SALT_LENGTH + IV_LENGTH + TAG_LENGTH) buffer in
     let encryptedData :=
       Buffer.slice_from (SALT_LENGTH + IV_LENGTH + TAG_LENGTH) buffer in
     let key := deriveKey salt masterKey in
     match gcm_decrypt key iv tag
             (Buffer.from_hex (Buffer.to_hex encryptedData)) with
     | Some decrypted => ret (Buffer.to_utf8 decrypted)
     | None => throw "Unsupported state or unable to authenticate data"
     end)
    (fun error =>
       console_write ("[Crypto] Decryption failed: " ++ error) ;;
       throw "Failed to decrypt password").

(** [hashPassword] ([crypto.ts], lines 120-126): the salt is the
    hexadecimal text of 16 random bytes, and it is this text that is
    given to the key derivation. *)
Definition hashPassword (password : string) : M Node string :=
  let! bytes := randomBytes 16 in
  let salt := Buffer.to_hex bytes in
  let hash := Buffer.to_hex
                (pbkdf2Sync (Buffer.from_utf8 password) (Buffer.from_utf8 salt)
                   100000 64) in
  ret (salt ++ ":" ++ hash).

(** [verifyPassword] ([crypto.ts], lines 131-141).  [[salt, hash] =
    storedHash.split(":")] takes the first two parts; without a colon
    [hash] is [undefined], which equals no string.  Nothing in the body
    throws, so the handler of the [try] is never entered. *)
Definition verifyPassword (password storedHash : string) : bool :=
  match Js.split ":" storedHash with
  | salt :: rest =>
      let verifyHash :=
        Buffer.to_hex
          (pbkdf2Sync (Buffer.from_utf8 password) (Buffer.from_utf8 salt)
             100000 64) in
      match rest with
      | hash :: _ => String.eqb hash verifyHash
      | [] => false
      end
  | [] => false
  end.



End WithNodeCrypto.
End Crypto.

(* ===================================================================== *)
(** * [database/schema.ts] *)
(* ===================================================================== *)

(** The columns are those of the tables; the bookkeeping columns
    [createdAt], [updatedAt] and [createdBy] of the client tables, which
    no code here reads, are left out.  A nullable column is an [option];
    a timestamp is a clock value. *)
Module Client.

Inductive status : Type := active | inactive | deploying | failed.

Record row : Type := {
  id : string;
  name : string;
  domain : option string;
  railwayProjectId : option string;
  railwayProjectUrl : option string;
  railwayEnvironmentId : option string;
  railwayServiceId : option string;
  serviceUrl : option string;
  status_ : status;
  lastDeployedAt : option Z;
}.

(** [Partial<InsertClient>] as the router passes it: an absent or
    [undefined] field leaves its column as it is. *)
Record updates : Type := {
  set_name : option string;
  set_domain : option string;
  set_status : option status;
  set_railwayProjectId : option string;
  set_railwayProjectUrl : option string;
  set_serviceUrl : option string;
  set_lastDeployedAt : option Z;
}.

Definition no_updates : updates :=
  {| set_name := None; set_domain := None; set_status := None;
     set_railwayProjectId := None; set_railwayProjectUrl := None;
     set_serviceUrl := None; set_lastDeployedAt := None |}.

Definition only_status (s : status) : updates :=
  {| set_name := None; set_domain := None; set_status := Some s;
     set_railwayProjectId := None; set_railwayProjectUrl := None;
     set_serviceUrl := None; set_lastDeployedAt := None |}.

(** No field is given. *)
Definition no_values (u : updates) : bool :=
  match set_status u, set_name u, set_domain u, set_railwayProjectId u,
        set_railwayProjectUrl u, set_serviceUrl u, set_lastDeployedAt u with
  | None, None, None, None, None, None, None => true
  | _, _, _, _, _, _, _ => false
  end.

Definition keep {A} (new : option A) (old : option A) : option A :=
  match new with Some _ => new | None => old end.

Definition apply (u : updates) (r : row) : row :=
  {| id := id r;
     name := default (name r) (set_name u);
     domain := keep (set_domain u) (domain r);
     railwayProjectId := keep (set_railwayProjectId u) (railwayProjectId r);
     railwayProjectUrl := keep (set_railwayProjectUrl u) (railwayProjectUrl r);
     railwayEnvironmentId := railwayEnvironmentId r;
     railwayServiceId := railwayServiceId r;
     serviceUrl := keep (set_serviceUrl u) (serviceUrl r);
     status_ := default (status_ r) (set_status u);
     lastDeployedAt := keep (set_lastDeployedAt u) (lastDeployedAt r) |}.

End Client.

Module ClientLendproConfig.
Record row : Type := {
  clientId : string;
  apiUrl : string;
  username : string;
  password : string;      (* encrypted *)
  storeId : string;
  salesId : string;
  salesName : string;
}.
End ClientLendproConfig.

Module ClientBranding.
Record row : Type := {
  clientId : string;
  logoUrl : option string;
  faviconUrl : option string;
  primaryColor : option string;
  secondaryColor : option string;
  companyName : option string;
}.
End ClientBranding.

Module ClientFeatures.
Record row : Type := {
  clientId : string;
  preApproval : bool;
  cartFinancing : bool;
  orderTracking : bool;
  customerAccounts : bool;
  productComparison : bool;
  cartOnly : bool;
}.
End ClientFeatures.

Module ClientVisualizer.
Record row : Type := {
  clientId : string;
  enabled : bool;
  embedCode : option string;
  autoSyncApiKey : option string;
}.
End ClientVisualizer.

Module ClientAnalytics.
Record row : Type := {
  clientId : string;
  date : Z;
  totalOrders : Z;
  lendproApplications : Z;
}.
End ClientAnalytics.

Module Deployment.

Inductive status : Type :=
  pending | building | deploying | success | failed | cancelled.

Inductive deploymentType : Type := initial | update | redeploy | rollback.

Record row : Type := {
  id : string;
  clientId : string;
  status_ : status;
  deploymentType_ : deploymentType;
  railwayDeploymentId : option string;
  logs : option string;
  errorMessage : option string;
  startedAt : Z;
  completedAt : option Z;
  deployedBy : option string;
}.

(** [Partial<InsertDeployment>] as the router passes it. *)
Record updates : Type := {
  set_status : option status;
  set_errorMessage : option string;
  set_completedAt : option Z;
}.

(** No field is given. *)
Definition no_values (u : updates) : bool :=
  match set_status u, set_errorMessage u, set_completedAt u with
  | None, None, None => true
  | _, _, _ => false
  end.

Definition apply (u : updates) (r : row) : row :=
  {| id := id r;
     clientId := clientId r;
     status_ := default (status_ r) (set_status u);
     deploymentType_ := deploymentType_ r;
     railwayDeploymentId := railwayDeploymentId r;
     logs := logs r;
     errorMessage := Client.keep (set_errorMessage u) (errorMessage r);
     startedAt := startedAt r;
     completedAt := Client.keep (set_completedAt u) (completedAt r);
     deployedBy := deployedBy r |}.

(** The statuses after which an attempt is over. *)
Definition terminal (s : status) : bool :=
  match s with
  | success | failed | cancelled => true
  | pending | building | deploying => false
  end.

End Deployment.

Module AuditLog.
(** [details] is the object given to [JSON.stringify], field by field. *)
Record row : Type := {
  action : string;
  resourceType : string;
  resourceId : option string;
  details : list (string * string);
}.
End AuditLog.

(** The tables.  [clients] and [deployments] have their [id] as primary
    key; the other tables have an auto-increment key and are kept in
    insertion order. *)
Record Db : Type := {
  clients : gmap string Client.row;
  clientLendproConfig : list ClientLendproConfig.row;
  clientBranding : list ClientBranding.row;
  clientFeatures : list ClientFeatures.row;
  clientVisualizer : list ClientVisualizer.row;
  deployments : gmap string Deployment.row;
  clientAnalytics : list ClientAnalytics.row;
  auditLog : list AuditLog.row;
}.

(** The whole world: the process, the database, and the states the
    database went through (one entry after each write, oldest first). *)
Record World : Type := {
  node : Node;
  db : Db;
  history : list Db;
}.

Definition with_node (n : Node) (w : World) : World :=
  {| node := n; db := db w; history := history w |}.

(** Code of the process run in the world. *)
Definition in_node {A} (m : M Node A) : M World A := lift node with_node m.

(* ===================================================================== *)
(** * [database/db.ts] *)
(* ===================================================================== *)

(** The database handle is taken as connected ([getAdminDb] returns it),
    and a statement on one row is atomic. *)
Module Database.

(** A statement that changes the tables. *)
Definition wrote (f : Db -> Db) (w : World) : World :=
  {| node := node w; db := f (db w); history := history w ++ [f (db w)] |}.

Definition write (f : Db -> Db) : M World unit := modify (wrote f).

Definition with_clients (c : gmap string Client.row) (d : Db) : Db :=
  {| clients := c;
     clientLendproConfig := clientLendproConfig d;
     clientBranding := clientBranding d;
     clientFeatures := clientFeatures d;
     clientVisualizer := clientVisualizer d;
     deployments := deployments d;
     clientAnalytics := clientAnalytics d;
     auditLog := auditLog d |}.

Definition with_deployments (l : gmap string Deployment.row) (d : Db) : Db :=
  {| clients := clients d;
     clientLendproConfig := clientLendproConfig d;
     clientBranding := clientBranding d;
     clientFeatures := clientFeatures d;
     clientVisualizer := clientVisualizer d;
     deployments := l;
     clientAnalytics := clientAnalytics d;
     auditLog := auditLog d |}.

Definition with_auditLog (l : list AuditLog.row) (d : Db) : Db :=
  {| clients := clients d;
     clientLendproConfig := clientLendproConfig d;
     clientBranding := clientBranding d;
     clientFeatures := clientFeatures d;
     clientVisualizer := clientVisualizer d;
     deployments := deployments d;
     clientAnalytics := clientAnalytics d;
     auditLog := l |}.

(** What [getClient] returns for a client that exists. *)
Record ClientWithConfig : Type := {
  client : Client.row;
  lendpro : option ClientLendproConfig.row;
  branding : option ClientBranding.row;
  features : option ClientFeatures.row;
  visualizer : option ClientVisualizer.row;
}.

(** [const [row] = await db.select().from(table).where(eq(table.clientId, id))] *)
Definition first_of {R} (clientId_of : R -> string) (id : string)
    (table : list R) : option R :=
  List.find (fun r => String.eqb (clientId_of r) id) table.

Definition with_config (c : Client.row) (clientId : string) (d : Db)
  : ClientWithConfig :=
  {| client := c;
     lendpro := first_of ClientLendproConfig.clientId clientId
                  (clientLendproConfig d);
     branding := first_of ClientBranding.clientId clientId (clientBranding d);
     features := first_of ClientFeatures.clientId clientId (clientFeatures d);
     visualizer := first_of ClientVisualizer.clientId clientId
                     (clientVisualizer d) |}.

Definition getClient (clientId : string) : M World (option ClientWithConfig) :=
  let! d := gets db in
  match clients d !! clientId with
  | None => ret None
  | Some c => ret (Some (with_config c clientId d))
  end.

(** [UPDATE clients SET ... WHERE id = clientId]: no row, no change. *)
Definition client_set (clientId : string) (updates : Client.updates) (d : Db) : Db :=
  with_clients (alter (Client.apply updates) clientId (clients d)) d.

(** [updateClient] ([db.ts], lines 137-143).  The query builder refuses
    an update that sets no column ([.set(updates)] throws) before any
    statement is sent; so do the other updates below. *)
Definition updateClient (clientId : string) (updates : Client.updates)
  : M World unit :=
  if Client.no_values updates then throw "No values to set"
  else write (client_set clientId updates).

(** Rows of a child table that do not belong to the client: what is left
    of the table after [ON DELETE CASCADE]. *)
Definition not_of {R} (clientId_of : R -> string) (id : string)
    (table : list R) : list R :=
  List.filter (fun r => negb (String.eqb (clientId_of r) id)) table.

(** [DELETE FROM clients WHERE id = clientId], with the cascade of the
    foreign keys declared in the schema. *)
Definition without_client (clientId : string) (d : Db) : Db :=
  {| clients := delete clientId (clients d);
     clientLendproConfig :=
       not_of ClientLendproConfig.clientId clientId (clientLendproConfig d);
     clientBranding := not_of ClientBranding.clientId clientId (clientBranding d);
     clientFeatures := not_of ClientFeatures.clientId clientId (clientFeatures d);
     clientVisualizer :=
       not_of ClientVisualizer.clientId clientId (clientVisualizer d);
     deployments :=
       filter (fun kv => Deployment.clientId (snd kv) <> clientId) (deployments d);
     clientAnalytics :=
       not_of ClientAnalytics.clientId clientId (clientAnalytics d);
     auditLog := auditLog d |}.

Definition deleteClient (clientId : string) : M World unit :=
  write (without_client clientId).

(** [InsertDeployment] as the router passes it. *)
Record InsertDeployment : Type := {
  id : string;
  clientId : string;
  status : Deployment.status;
  deploymentType : Deployment.deploymentType;
}.

(** The row that an insert makes: the columns not given take their
    defaults. *)
Definition new_row (deployment : InsertDeployment) (now : Z) : Deployment.row :=
  {| Deployment.id := id deployment;
     Deployment.clientId := clientId deployment;
     Deployment.status_ := status deployment;
     Deployment.deploymentType_ := deploymentType deployment;
     Deployment.railwayDeploymentId := None;
     Deployment.logs := None;
     Deployment.errorMessage := None;
     Deployment.startedAt := now;
     Deployment.completedAt := None;
     Deployment.deployedBy := None |}.

Definition inserted (r : Deployment.row) (d : Db) : Db :=
  with_deployments (<[Deployment.id r := r]> (deployments d)) d.

(** [INSERT INTO deployments]: the primary key must be new and the client
    must exist. *)
Definition createDeployment (deployment : InsertDeployment)
  : M World Deployment.row :=
  let! d := gets db in
  let! now := in_node Date_now in
  match deployments d !! id deployment, clients d !! clientId deployment with
  | Some _, _ =>
      throw ("Duplicate entry '" ++ id deployment ++ "' for key 'PRIMARY'")
  | None, None =>
      throw "Cannot add or update a child row: a foreign key constraint fails"
  | None, Some _ =>
      let created := new_row deployment now in
      write (inserted created) ;;
      ret created
  end.

(** [UPDATE deployments SET ... WHERE id = deploymentId] *)
Definition deployment_set (deploymentId : string) (updates : Deployment.updates)
    (d : Db) : Db :=
  with_deployments (alter (Deployment.apply updates) deploymentId (deployments d)) d.

Definition updateDeployment (deploymentId : string)
    (updates : Deployment.updates) : M World unit :=
  if Deployment.no_values updates then throw "No values to set"
  else write (deployment_set deploymentId updates).

Definition logged (log : AuditLog.row) (d : Db) : Db :=
  with_auditLog (auditLog d ++ [log]) d.

Definition logAdminAction (log : AuditLog.row) : M World unit :=
  write (logged log).

Definition with_clientLendproConfig (l : list ClientLendproConfig.row) (d : Db)
  : Db :=
  {| clients := clients d;
     clientLendproConfig := l;
     clientBranding := clientBranding d;
     clientFeatures := clientFeatures d;
     clientVisualizer := clientVisualizer d;
     deployments := deployments d;
     clientAnalytics := clientAnalytics d;
     auditLog := auditLog d |}.

Definition with_clientBranding (l : list ClientBranding.row) (d : Db) : Db :=
  {| clients := clients d;
     clientLendproConfig := clientLendproConfig d;
     clientBranding := l;
     clientFeatures := clientFeatures d;
     clientVisualizer := clientVisualizer d;
     deployments := deployments d;
     clientAnalytics := clientAnalytics d;
     auditLog := auditLog d |}.

Definition with_clientFeatures (l : list ClientFeatures.row) (d : Db) : Db :=
  {| clients := clients d;
     clientLendproConfig := clientLendproConfig d;
     clientBranding := clientBranding d;
     clientFeatures := l;
     clientVisualizer := clientVisualizer d;
     deployments := deployments d;
     clientAnalytics := clientAnalytics d;
     auditLog := auditLog d |}.

Definition with_clientVisualizer (l : list ClientVisualizer.row) (d : Db) : Db :=
  {| clients := clients d;
     clientLendproConfig := clientLendproConfig d;
     clientBranding := clientBranding d;
     clientFeatures := clientFeatures d;
     clientVisualizer := l;
     deployments := deployments d;
     clientAnalytics := clientAnalytics d;
     auditLog := auditLog d |}.

(** [InsertClient] as the router passes it; the other columns take their
    defaults, which are null. *)
Record InsertClient : Type := {
  new_id : string;
  new_name : string;
  new_domain : option string;
  new_status : Client.status;
}.

Definition client_row (c : InsertClient) : Client.row :=
  {| Client.id := new_id c;
     Client.name := new_name c;
     Client.domain := new_domain c;
     Client.railwayProjectId := None;
     Client.railwayProjectUrl := None;
     Client.railwayEnvironmentId := None;
     Client.railwayServiceId := None;
     Client.serviceUrl := None;
     Client.status_ := new_status c;
     Client.lastDeployedAt := None |}.

(** [{ ...row, clientId: client.id }] *)
Definition lendpro_for (clientId : string) (r : ClientLendproConfig.row)
  : ClientLendproConfig.row :=
  {| ClientLendproConfig.clientId := clientId;
     ClientLendproConfig.apiUrl := ClientLendproConfig.apiUrl r;
     ClientLendproConfig.username := ClientLendproConfig.username r;
     ClientLendproConfig.password := ClientLendproConfig.password r;
     ClientLendproConfig.storeId := ClientLendproConfig.storeId r;
     ClientLendproConfig.salesId := ClientLendproConfig.salesId r;
     ClientLendproConfig.salesName := ClientLendproConfig.salesName r |}.

Definition branding_for (clientId : string) (r : ClientBranding.row)
  : ClientBranding.row :=
  {| ClientBranding.clientId := clientId;
     ClientBranding.logoUrl := ClientBranding.logoUrl r;
     ClientBranding.faviconUrl := ClientBranding.faviconUrl r;
     ClientBranding.primaryColor := ClientBranding.primaryColor r;
     ClientBranding.secondaryColor := ClientBranding.secondaryColor r;
     ClientBranding.companyName := ClientBranding.companyName r |}.

Definition features_for (clientId : string) (r : ClientFeatures.row)
  : ClientFeatures.row :=
  {| ClientFeatures.clientId := clientId;
     ClientFeatures.preApproval := ClientFeatures.preApproval r;
     ClientFeatures.cartFinancing := ClientFeatures.cartFinancing r;
     ClientFeatures.orderTracking := ClientFeatures.orderTracking r;
     ClientFeatures.customerAccounts := ClientFeatures.customerAccounts r;
     ClientFeatures.productComparison := ClientFeatures.productComparison r;
     ClientFeatures.cartOnly := ClientFeatures.cartOnly r |}.

Definition visualizer_for (clientId : string) (r : ClientVisualizer.row)
  : ClientVisualizer.row :=
  {| ClientVisualizer.clientId := clientId;
     ClientVisualizer.enabled := ClientVisualizer.enabled r;
     ClientVisualizer.embedCode := ClientVisualizer.embedCode r;
     ClientVisualizer.autoSyncApiKey := ClientVisualizer.autoSyncApiKey r |}.

(** The inserts of [createClient], as changes of the tables. *)
Definition client_added (c : Client.row) (d : Db) : Db :=
  with_clients (<[Client.id c := c]> (clients d)) d.

Definition lendpro_added (r : ClientLendproConfig.row) (d : Db) : Db :=
  with_clientLendproConfig (clientLendproConfig d ++ [r]) d.

Definition branding_added (r : ClientBranding.row) (d : Db) : Db :=
  with_clientBranding (clientBranding d ++ [r]) d.

Definition features_added (r : ClientFeatures.row) (d : Db) : Db :=
  with_clientFeatures (clientFeatures d ++ [r]) d.

Definition visualizer_added (r : ClientVisualizer.row) (d : Db) : Db :=
  with_clientVisualizer (clientVisualizer d ++ [r]) d.

(** An insert that is made only if the row is provided. *)
Definition write_if {R} (row : option R) (f : R -> Db -> Db) : M World unit :=
  match row with
  | Some r => write (f r)
  | None => ret tt
  end.

(** [createClient] ([db.ts], lines 59-104): one insert per table, no
    transaction around them; the primary key of the client must be new.
    The result is the row read back. *)
Definition createClient (client : InsertClient)
    (lendpro : ClientLendproConfig.row)
    (branding : option ClientBranding.row)
    (features : option ClientFeatures.row)
    (visualizer : option ClientVisualizer.row) : M World (option Client.row) :=
  let! d := gets db in
  match clients d !! new_id client with
  | Some _ =>
      throw ("Duplicate entry '" ++ new_id client ++ "' for key 'PRIMARY'")
  | None =>
      write (client_added (client_row client)) ;;
      write (lendpro_added (lendpro_for (new_id client) lendpro)) ;;
      write_if branding (fun r => branding_added (branding_for (new_id client) r)) ;;
      write_if features (fun r => features_added (features_for (new_id client) r)) ;;
      write_if visualizer
        (fun r => visualizer_added (visualizer_for (new_id client) r)) ;;
      let! d := gets db in
      ret (clients d !! new_id client)
  end.

(** [Partial<InsertClientLendproConfig>] as the router passes it. *)
Record LendproUpdates : Type := {
  set_username : option string;
  set_password : option string;
  set_storeId : option string;
  set_salesId : option string;
  set_salesName : option string;
  set_apiUrl : option string;
}.

Definition apply_lendpro (u : LendproUpdates) (r : ClientLendproConfig.row)
  : ClientLendproConfig.row :=
  {| ClientLendproConfig.clientId := ClientLendproConfig.clientId r;
     ClientLendproConfig.apiUrl :=
       default (ClientLendproConfig.apiUrl r) (set_apiUrl u);
     ClientLendproConfig.username :=
       default (ClientLendproConfig.username r) (set_username u);
     ClientLendproConfig.password :=
       default (ClientLendproConfig.password r) (set_password u);
     ClientLendproConfig.storeId :=
       default (ClientLendproConfig.storeId r) (set_storeId u);
     ClientLendproConfig.salesId :=
       default (ClientLendproConfig.salesId r) (set_salesId u);
     ClientLendproConfig.salesName :=
       default (ClientLendproConfig.salesName r) (set_salesName u) |}.

(** [UPDATE client_lendpro_config SET ... WHERE client_id = clientId]:
    every row of the client is changed. *)
Definition lendpro_set (clientId : string) (u : LendproUpdates) (d : Db) : Db :=
  with_clientLendproConfig
    (map (fun r => if String.eqb (ClientLendproConfig.clientId r) clientId
                   then apply_lendpro u r else r)
       (clientLendproConfig d)) d.

Definition lendpro_no_values (u : LendproUpdates) : bool :=
  match set_password u, set_username u, set_storeId u, set_salesId u,
        set_salesName u, set_apiUrl u with
  | None, None, None, None, None, None => true
  | _, _, _, _, _, _ => false
  end.

(** [updateClientLendpro] ([db.ts], lines 145-151). *)
Definition updateClientLendpro (clientId : string) (updates : LendproUpdates)
  : M World unit :=
  if lendpro_no_values updates then throw "No values to set"
  else write (lendpro_set clientId updates).







End Database.

(* ===================================================================== *)
(** * [server/router.ts]: [clients.deploy] and [clients.delete] *)
(* ===================================================================== *)

Module Router.
Section WithNodeCrypto.

Context {L : NodeCrypto}.

Definition branding_of (b : ClientBranding.row) : ClientConfig.Branding :=
  {| ClientConfig.logoUrl := ClientBranding.logoUrl b;
     ClientConfig.primaryColor := ClientBranding.primaryColor b;
     ClientConfig.secondaryColor := ClientBranding.secondaryColor b;
     ClientConfig.companyName := ClientBranding.companyName b |}.

Definition features_of (f : ClientFeatures.row) : ClientConfig.Features :=
  {| ClientConfig.cartOnly := ClientFeatures.cartOnly f |}.

(** The [clientConfig] object literal of [deploy]; reading the password of
    a missing [lendpro] row is a [TypeError]. *)
Definition clientConfig_of (client : Database.ClientWithConfig)
  : M World ClientConfig.t :=
  match Database.lendpro client with
  | None =>
      throw "Cannot read properties of undefined (reading 'password')"
  | Some lendpro =>
      let! password :=
        in_node (Crypto.decryptPassword (ClientLendproConfig.password lendpro)) in
      ret {| ClientConfig.id := Client.id (Database.client client);
             ClientConfig.name := Client.name (Database.client client);
             ClientConfig.domain :=
               Js.or_else (Client.domain (Database.client client)) "";
             ClientConfig.lendpro :=
               {| ClientConfig.apiUrl := ClientLendproConfig.apiUrl lendpro;
                  ClientConfig.username := ClientLendproConfig.username lendpro;
                  ClientConfig.password := password;
                  ClientConfig.storeId := ClientLendproConfig.storeId lendpro;
                  ClientConfig.salesId := ClientLendproConfig.salesId lendpro;
                  ClientConfig.salesName := ClientLendproConfig.salesName lendpro |};
             ClientConfig.branding := option_map branding_of (Database.branding client);
             ClientConfig.features := option_map features_of (Database.features client);
             ClientConfig.visualizer := None |}
  end.

(** The fields of a result that [JSON.stringify] prints. *)
Definition json_of_result (r : DeploymentResult.t) : list (string * string) :=
  ([("success", if DeploymentResult.success r then "true" else "false");
    ("clientId", DeploymentResult.clientId r)]
   ++ match DeploymentResult.projectId r with
      | Some v => [("projectId", v)] | None => [] end
   ++ match DeploymentResult.projectUrl r with
      | Some v => [("projectUrl", v)] | None => [] end
   ++ match DeploymentResult.serviceUrl r with
      | Some v => [("serviceUrl", v)] | None => [] end
   ++ match DeploymentResult.error r with
      | Some v => [("error", v)] | None => [] end)%list.

(** The object literals of [deploy]. *)
Definition new_attempt (deploymentId clientId : string) (client : Client.row)
  : Database.InsertDeployment :=
  {| Database.id := deploymentId;
     Database.clientId := clientId;
     Database.status := Deployment.pending;
     Database.deploymentType :=
       if Js.truthy (Client.railwayProjectId client)
       then Deployment.redeploy else Deployment.initial |}.

Definition mark_building : Deployment.updates :=
  {| Deployment.set_status := Some Deployment.building;
     Deployment.set_errorMessage := None;
     Deployment.set_completedAt := None |}.

Definition mark_active (result : DeploymentResult.t) (now : Z) : Client.updates :=
  {| Client.set_name := None;
     Client.set_domain := None;
     Client.set_status := Some Client.active;
     Client.set_railwayProjectId :=
       Js.or_undefined (DeploymentResult.projectId result);
     Client.set_railwayProjectUrl :=
       Js.or_undefined (DeploymentResult.projectUrl result);
     Client.set_serviceUrl :=
       Js.or_undefined (DeploymentResult.serviceUrl result);
     Client.set_lastDeployedAt := Some now |}.

Definition mark_success (now : Z) : Deployment.updates :=
  {| Deployment.set_status := Some Deployment.success;
     Deployment.set_errorMessage := None;
     Deployment.set_completedAt := Some now |}.

Definition deploy_log (deploymentId : string) (result : DeploymentResult.t)
  : AuditLog.row :=
  {| AuditLog.action := "deploy_client";
     AuditLog.resourceType := "deployment";
     AuditLog.resourceId := Some deploymentId;
     AuditLog.details := json_of_result result |}.

Definition mark_failed (message : option string) (now : Z) : Deployment.updates :=
  {| Deployment.set_status := Some Deployment.failed;
     Deployment.set_errorMessage := message;
     Deployment.set_completedAt := Some now |}.

(** [clients.deploy] ([trpc.ts], lines 254-342); [nanoid] is the
    identifier the generator gives for the new ledger row. *)
Definition deploy (clientId : string) (nanoid : string)
  : M World DeploymentResult.t :=
  let! client := Database.getClient clientId in
  match client with
  | None => throw ("Client not found: " ++ clientId)
  | Some client =>
      let deploymentId := nanoid in
      Database.createDeployment
        (new_attempt deploymentId clientId (Database.client client)) ;;
      try_catch
        (Database.updateClient clientId (Client.only_status Client.deploying) ;;
         Database.updateDeployment deploymentId mark_building ;;
         let! railwayClient := in_node RailwayApi.createRailwayApiClient in
         let deployer := ClientDeployer.new railwayClient None None in
         let! clientConfig := clientConfig_of client in
         let! result := in_node (ClientDeployer.deployClient deployer clientConfig) in
         if DeploymentResult.success result then
           let! now := in_node Date_now in
           Database.updateClient clientId (mark_active result now) ;;
           let! now := in_node Date_now in
           Database.updateDeployment deploymentId (mark_success now) ;;
           Database.logAdminAction (deploy_log deploymentId result) ;;
           ret result
         else
           Database.updateClient clientId (Client.only_status Client.failed) ;;
           let! now := in_node Date_now in
           Database.updateDeployment deploymentId
             (mark_failed (DeploymentResult.error result) now) ;;
           throw (Js.or_else (DeploymentResult.error result) "Deployment failed"))
        (fun error =>
           Database.updateClient clientId (Client.only_status Client.failed) ;;
           let! now := in_node Date_now in
           Database.updateDeployment deploymentId (mark_failed (Some error) now) ;;
           throw error)
  end.

Definition delete_log (clientId : string) (client : Client.row) : AuditLog.row :=
  {| AuditLog.action := "delete_client";
     AuditLog.resourceType := "client";
     AuditLog.resourceId := Some clientId;
     AuditLog.details := [("name", Client.name client)] |}.

(** [clients.delete] ([trpc.ts], lines 463-494); returns
    [{ success: true }]. *)
Definition delete (clientId : string) : M World bool :=
  let! client := Database.getClient clientId in
  match client with
  | None => throw "Client not found"
  | Some client =>
      (if Js.truthy (Client.railwayProjectId (Database.client client)) then
         try_catch
           (let! railwayClient := in_node RailwayApi.createRailwayApiClient in
            let deployer := ClientDeployer.new railwayClient None None in
            in_node (ClientDeployer.deleteClient deployer
                       (default "" (Client.railwayProjectId (Database.client client)))))
           (fun error =>
              in_node (console_write ("Failed to delete Railway project: " ++ error)))
       else ret tt) ;;
      Database.deleteClient clientId ;;
      Database.logAdminAction (delete_log clientId (Database.client client)) ;;
      ret true
  end.

(** [clients.get] ([trpc.ts], lines 152-166): the object read from the
    database, with the password decrypted in place. *)
Definition with_password (password : string) (client : Database.ClientWithConfig)
  : Database.ClientWithConfig :=
  {| Database.client := Database.client client;
     Database.lendpro :=
       option_map
         (fun l =>
            {| ClientLendproConfig.clientId := ClientLendproConfig.clientId l;
               ClientLendproConfig.apiUrl := ClientLendproConfig.apiUrl l;
               ClientLendproConfig.username := ClientLendproConfig.username l;
               ClientLendproConfig.password := password;
               ClientLendproConfig.storeId := ClientLendproConfig.storeId l;
               ClientLendproConfig.salesId := ClientLendproConfig.salesId l;
               ClientLendproConfig.salesName := ClientLendproConfig.salesName l |})
         (Database.lendpro client);
     Database.branding := Database.branding client;
     Database.features := Database.features client;
     Database.visualizer := Database.visualizer client |}.

Definition get (id : string) : M World Database.ClientWithConfig :=
  let! client := Database.getClient id in
  match client with
  | None => throw ("Client not found: " ++ id)
  | Some client =>
      match Database.lendpro client with
      | Some lendpro =>
          let! password :=
            in_node (Crypto.decryptPassword (ClientLendproConfig.password lendpro)) in
          ret (with_password password client)
      | None => ret client
      end
  end.

(** The input of [clients.create], after validation (the default of
    [apiUrl] is filled in). *)
Record LendproInput : Type := {
  in_username : string;
  in_password : string;
  in_storeId : string;
  in_salesId : string;
  in_salesName : string;
  in_apiUrl : string;
}.

Record BrandingInput : Type := {
  in_logoUrl : option string;
  in_primaryColor : option string;
  in_secondaryColor : option string;
  in_companyName : option string;
}.

Record FeaturesInput : Type := {
  in_preApproval : bool;
  in_cartFinancing : bool;
  in_orderTracking : bool;
  in_customerAccounts : bool;
  in_productComparison : bool;
  in_visualizer3D : bool;
}.

Record CreateInput : Type := {
  in_name : string;
  in_domain : string;
  in_lendpro : LendproInput;
  in_branding : option BrandingInput;
  in_features : option FeaturesInput;
}.

Record CreateOutput : Type := {
  out_clientId : string;
  out_message : string;
}.

(** [lendproData]: the input with the password replaced by its token. *)
Definition lendproData (clientId encryptedPassword : string) (l : LendproInput)
  : ClientLendproConfig.row :=
  {| ClientLendproConfig.clientId := clientId;
     ClientLendproConfig.apiUrl := in_apiUrl l;
     ClientLendproConfig.username := in_username l;
     ClientLendproConfig.password := encryptedPassword;
     ClientLendproConfig.storeId := in_storeId l;
     ClientLendproConfig.salesId := in_salesId l;
     ClientLendproConfig.salesName := in_salesName l |}.

Definition brandingData (clientId : string) (b : BrandingInput)
  : ClientBranding.row :=
  {| ClientBranding.clientId := clientId;
     ClientBranding.logoUrl := in_logoUrl b;
     ClientBranding.faviconUrl := None;
     ClientBranding.primaryColor := in_primaryColor b;
     ClientBranding.secondaryColor := in_secondaryColor b;
     ClientBranding.companyName := in_companyName b |}.

(** [featuresData]: the table has no column for [visualizer3D], and
    [cartOnly], which the input does not have, takes its default. *)
Definition featuresData (clientId : string) (f : FeaturesInput)
  : ClientFeatures.row :=
  {| ClientFeatures.clientId := clientId;
     ClientFeatures.preApproval := in_preApproval f;
     ClientFeatures.cartFinancing := in_cartFinancing f;
     ClientFeatures.orderTracking := in_orderTracking f;
     ClientFeatures.customerAccounts := in_customerAccounts f;
     ClientFeatures.productComparison := in_productComparison f;
     ClientFeatures.cartOnly := false |}.

Definition create_log (clientId : string) (input : CreateInput) : AuditLog.row :=
  {| AuditLog.action := "create_client";
     AuditLog.resourceType := "client";
     AuditLog.resourceId := Some clientId;
     AuditLog.details := [("name", in_name input); ("domain", in_domain input)] |}.

(** [clients.create] ([trpc.ts], lines 171-249); [nanoid] is the
    identifier the generator gives for the client. *)
Definition create (input : CreateInput) (nanoid : string) : M World CreateOutput :=
  let clientId := nanoid in
  let! encryptedPassword :=
    in_node (Crypto.encryptPassword (in_password (in_lendpro input))) in
  Database.createClient
    {| Database.new_id := clientId;
       Database.new_name := in_name input;
       Database.new_domain := Some (in_domain input);
       Database.new_status := Client.inactive |}
    (lendproData clientId encryptedPassword (in_lendpro input))
    (option_map (brandingData clientId) (in_branding input))
    (option_map (featuresData clientId) (in_features input))
    None ;;
  Database.logAdminAction (create_log clientId input) ;;
  ret {| out_clientId := clientId;
         out_message := "Client created successfully. Deploy to activate." |}.

(** The input of [clients.updateLendpro]. *)
Record UpdateLendproInput : Type := {
  up_clientId : string;
  up_username : option string;
  up_password : option string;
  up_storeId : option string;
  up_salesId : option string;
  up_salesName : option string;
  up_apiUrl : option string;
}.

Definition updateLendpro_log (input : UpdateLendproInput) : AuditLog.row :=
  {| AuditLog.action := "update_client_lendpro";
     AuditLog.resourceType := "client";
     AuditLog.resourceId := Some (up_clientId input);
     AuditLog.details :=
       (match up_username input with Some v => [("username", v)] | None => [] end
        ++ match up_storeId input with Some v => [("storeId", v)] | None => [] end
        ++ match up_salesId input with Some v => [("salesId", v)] | None => [] end
        ++ match up_salesName input with Some v => [("salesName", v)] | None => [] end
        ++ match up_apiUrl input with Some v => [("apiUrl", v)] | None => [] end
        ++ [("passwordUpdated",
             if Js.truthy (up_password input) then "true" else "false")])%list |}.

(** [clients.updateLendpro] ([trpc.ts], lines 372-402): a password is
    encrypted and stored only if it is given and not empty. *)
Definition updateLendpro (input : UpdateLendproInput) : M World bool :=
  let! password :=
    (if Js.truthy (up_password input)
     then let! token :=
            in_node (Crypto.encryptPassword (default "" (up_password input))) in
          ret (Some token)
     else ret None) in
  Database.updateClientLendpro (up_clientId input)
    {| Database.set_username := up_username input;
       Database.set_password := password;
       Database.set_storeId := up_storeId input;
       Database.set_salesId := up_salesId input;
       Database.set_salesName := up_salesName input;
       Database.set_apiUrl := up_apiUrl input |} ;;
  Database.logAdminAction (updateLendpro_log input) ;;
  ret true.

End WithNodeCrypto.
End Router.

(* ===================================================================== *)
(** * [server/auth.ts] and the procedures of [server/trpc.ts] *)
(* ===================================================================== *)

Module AdminUser.

Inductive role : Type := super_admin | admin | viewer.

(** The user without its password hash. *)
Record t : Type := {
  id : string;
  name : string;
  email : string;
  role_ : role;
  emailVerified : bool;
  isActive : bool;
}.

End AdminUser.

Module Auth.

(** [roleHierarchy] *)
Definition roleHierarchy (r : AdminUser.role) : nat :=
  match r with
  | AdminUser.super_admin => 3
  | AdminUser.admin => 2
  | AdminUser.viewer => 1
  end.

(** [hasRole] ([auth.ts], lines 314-325). *)
Definition hasRole (user : AdminUser.t) (requiredRole : AdminUser.role) : bool :=
  (roleHierarchy requiredRole <=? roleHierarchy (AdminUser.role_ user))%nat.

End Auth.

Module Trpc.

(** [Context] *)
Record Context : Type := {
  user : option AdminUser.t;
  token : option string;
}.

Inductive code : Type := UNAUTHORIZED | FORBIDDEN.

Record TRPCError : Type := {
  code_ : code;
  message : string;
}.

(** The context after [protectedProcedure]: the user is not null. *)
Record Authenticated : Type := {
  auth_user : AdminUser.t;
  auth_token : option string;
}.

(** What a middleware does with a request: it throws, or it calls [next]
    with a context. *)
Inductive Verdict (C : Type) : Type :=
| Rejected (e : TRPCError)
| Next (ctx : C).
Arguments Rejected {C} e.
Arguments Next {C} ctx.

(** The token of an [Authorization] header:
    [authHeader?.startsWith("Bearer ") ? authHeader.substring(7) : null]. *)
Definition bearer (authHeader : option string) : option string :=
  match authHeader with
  | Some h => if Js.startsWith "Bearer " h then Some (Js.substring_from 7 h)
              else None
  | None => None
  end.

Section WithAuth.

(** [getCurrentUser] of [auth.ts], which verifies the token and reads the
    session and the user. *)
Variable getCurrentUser : string -> M World (option AdminUser.t).

(** [createContext] ([trpc.ts], lines 19-37). *)
Definition createContext (authorization : option string) : M World Context :=
  let token := bearer authorization in
  let! user :=
    (if Js.truthy token then
       try_catch (getCurrentUser (default "" token))
         (fun error =>
            in_node (console_write ("[tRPC] Auth error: " ++ error)) ;;
            ret None)
     else ret None) in
  ret {| user := user; token := token |}.

End WithAuth.

(** [protectedProcedure] ([trpc.ts], lines 52-66). *)
Definition protectedProcedure (ctx : Context) : Verdict Authenticated :=
  match user ctx with
  | None =>
      Rejected {| code_ := UNAUTHORIZED;
                  message := "You must be logged in to access this resource" |}
  | Some u => Next {| auth_user := u; auth_token := token ctx |}
  end.

(** A middleware after another: [first.use(second)]. *)
Definition use {A B C} (first : A -> Verdict B) (second : B -> Verdict C)
    (ctx : A) : Verdict C :=
  match first ctx with
  | Rejected e => Rejected e
  | Next ctx' => second ctx'
  end.

(** [adminProcedure] ([trpc.ts], lines 71-82). *)
Definition adminProcedure : Context -> Verdict Authenticated :=
  use protectedProcedure
    (fun ctx =>
       match AdminUser.role_ (auth_user ctx) with
       | AdminUser.viewer =>
           Rejected {| code_ := FORBIDDEN;
                       message := "You do not have permission to perform this action" |}
       | _ => Next ctx
       end).

(** [superAdminProcedure] ([trpc.ts], lines 87-98). *)
Definition superAdminProcedure : Context -> Verdict Authenticated :=
  use protectedProcedure
    (fun ctx =>
       match AdminUser.role_ (auth_user ctx) with
       | AdminUser.super_admin => Next ctx
       | _ =>
           Rejected {| code_ := FORBIDDEN;
                       message := "You must be a super admin to perform this action" |}
       end).

End Trpc.

(* ===================================================================== *)
(** * Stand-ins used to run the code on examples *)
(* ===================================================================== *)

(** A stand-in for the [crypto] primitives that satisfies
    [NodeCryptoLaws] and [NodeCryptoAuthenticates]: the cipher reverses
    the bytes, the tag is a check byte of the ciphertext followed by bytes
    of the key and the iv, and the text codec of the token is
    hexadecimal.  It is used to run the codec on examples only. *)
Module Fake.

Fixpoint buffer_eqb (a b : Buffer.t) : bool :=
  match a, b with
  | [], [] => true
  | x :: a', y :: b' => Byte.eqb x y && buffer_eqb a' b'
  | _, _ => false
  end.

Definition derive (password salt : Buffer.t) (iterations : N)
    (keylen : nat) : Buffer.t :=
  firstn keylen (password ++ salt ++ repeat x00 keylen)%list.

Definition byte_sum (b : Buffer.t) : N :=
  fold_right (fun x acc => Byte.to_N x + acc)%N 0%N b.

(** A check byte over the ciphertext: the sum of its bytes modulo 256. *)
Definition checksum (b : Buffer.t) : byte :=
  default x00 (Byte.of_N (byte_sum b mod 256)).

Definition tag_of (key iv ciphertext : Buffer.t) : Buffer.t :=
  checksum ciphertext :: firstn 15 (key ++ iv ++ repeat x00 15)%list.

Definition seal (key iv plaintext : Buffer.t) : Buffer.t * Buffer.t :=
  (rev plaintext, tag_of key iv (rev plaintext)).

Definition unseal (key iv tag ciphertext : Buffer.t) : option Buffer.t :=
  if buffer_eqb tag (tag_of key iv ciphertext)
  then Some (rev ciphertext) else None.

Definition crypto : NodeCrypto :=
  {| pbkdf2Sync := derive;
     gcm_encrypt := seal;
     gcm_decrypt := unseal;
     to_base64 := Buffer.to_hex;
     from_base64 := Buffer.from_hex |}.

End Fake.

(** A small world: one platform whose answers are given, one client. *)
Module Sample.

Definition railway (created : Outcome (string * string))
    (statuses : list string) (deleted : Outcome unit) : Platform :=
  {| projectCreate := fun _ => created;
     serviceCreate := fun _ name _ => Return ("svc-" ++ name, name);
     variableCollectionUpsert := fun _ _ _ => Return tt;
     serviceInstanceRedeploy := fun _ => Return ("dep-1", "QUEUED");
     deployment := fun _ k =>
       (1000%N, Return {| DeploymentStatus.status := nth k statuses "BUILDING";
                          DeploymentStatus.url := None |});
     service_domains := fun _ => Return ["acme.up.railway.app"];
     customDomainCreate := fun _ _ => Return tt;
     projectDelete := fun _ => deleted |}.

Definition dice (i : nat) : byte :=
  default x00 (Byte.of_N (N.of_nat i mod 256)).

Definition process (key : option string) (p : Platform) : Node :=
  {| env := {| ENCRYPTION_KEY := key; RAILWAY_API_TOKEN := Some "token" |};
     platform := p;
     clock := 1000000;
     entropy := dice;
     drawn := 0;
     console := [];
     requests := [];
     sleeps := [];
     polls := 0 |}.

Definition master_key : string := "00112233445566778899aabbccddeeff".

(** The client of scenario A of the specification. *)
Definition acme_config : ClientConfig.t :=
  {| ClientConfig.id := "c1";
     ClientConfig.name := "Acme";
     ClientConfig.domain := "acme.test";
     ClientConfig.lendpro :=
       {| ClientConfig.apiUrl := "https://apisg.mylendpro.com";
          ClientConfig.username := "u";
          ClientConfig.password := "p";
          ClientConfig.storeId := "S1";
          ClientConfig.salesId := "X1";
          ClientConfig.salesName := "Jane" |};
     ClientConfig.branding := None;
     ClientConfig.features := None;
     ClientConfig.visualizer := None |}.

Definition acme (status : Client.status) (project : option string) : Client.row :=
  {| Client.id := "c1";
     Client.name := "Acme";
     Client.domain := Some "acme.test";
     Client.railwayProjectId := project;
     Client.railwayProjectUrl := None;
     Client.railwayEnvironmentId := None;
     Client.railwayServiceId := None;
     Client.serviceUrl := None;
     Client.status_ := status;
     Client.lastDeployedAt := None |}.

(** The stored password of the client: ["p"] encrypted under
    [master_key] with the stand-in primitives. *)
Definition stored_password : string :=
  match fst (Crypto.encryptPassword (L := Fake.crypto) "p"
               (process (Some master_key)
                  (railway (Return ("prj-1", "lendpro-acme")) [] (Return tt)))) with
  | Return token => token
  | Throw _ => ""
  end.

Definition acme_lendpro : ClientLendproConfig.row :=
  {| ClientLendproConfig.clientId := "c1";
     ClientLendproConfig.apiUrl := "https://apisg.mylendpro.com";
     ClientLendproConfig.username := "u";
     ClientLendproConfig.password := stored_password;
     ClientLendproConfig.storeId := "S1";
     ClientLendproConfig.salesId := "X1";
     ClientLendproConfig.salesName := "Jane" |}.

(** An earlier attempt for the client that is still building. *)
Definition first_attempt : Deployment.row :=
  {| Deployment.id := "d1";
     Deployment.clientId := "c1";
     Deployment.status_ := Deployment.building;
     Deployment.deploymentType_ := Deployment.initial;
     Deployment.railwayDeploymentId := None;
     Deployment.logs := None;
     Deployment.errorMessage := None;
     Deployment.startedAt := 990000;
     Deployment.completedAt := None;
     Deployment.deployedBy := None |}.

Definition database (c : Client.row) (attempts : gmap string Deployment.row) : Db :=
  {| clients := {[ "c1" := c ]};
     clientLendproConfig := [acme_lendpro];
     clientBranding := [];
     clientFeatures := [];
     clientVisualizer := [];
     deployments := attempts;
     clientAnalytics :=
       [ {| ClientAnalytics.clientId := "c1"; ClientAnalytics.date := 0;
            ClientAnalytics.totalOrders := 3;
            ClientAnalytics.lendproApplications := 1 |} ];
     auditLog := [] |}.

Definition world (p : Platform) (d : Db) : World :=
  {| node := process (Some master_key) p; db := d; history := [] |}.

(** The platform builds and succeeds at the third poll. *)
Definition succeeding : Platform :=
  railway (Return ("prj-1", "lendpro-acme"))
    ["BUILDING"; "DEPLOYING"; "SUCCESS"] (Return tt).

(** The platform rejects the project. *)
Definition rejecting : Platform :=
  railway (Throw "Railway API Error: name rejected") [] (Return tt).

(** The ledger holds an earlier attempt of the client, still building. *)
Definition busy : Db :=
  database (acme Client.deploying None) {[ "d1" := first_attempt ]}.

Definition idle : Db := database (acme Client.inactive None) ∅.

End Sample.

(* ===================================================================== *)
(** * Notions used in the statements *)
(* ===================================================================== *)

(** The entries of a variable list under a key. *)
Definition entries_for (k : string) (vars : list EnvironmentVariable.t)
  : list EnvironmentVariable.t :=
  List.filter (fun v => String.eqb (EnvironmentVariable.key v) k) vars.

(** The keys that [buildEnvironmentVariables] appends under a condition:
    visualizer, cart-only mode, branding. *)
Definition conditional_keys : list string :=
  [ "VISUALIZER_ENABLED"; "VISUALIZER_EMBED_CODE"; "AUTOSYNC_API_KEY";
    "CART_ONLY_MODE";
    "VITE_PRIMARY_COLOR"; "VITE_SECONDARY_COLOR"; "VITE_COMPANY_NAME";
    "VITE_LOGO_URL" ].

(** The configuration asks for cart-only mode. *)
Definition cart_only (config : ClientConfig.t) : bool :=
  match ClientConfig.features config with
  | Some f => ClientConfig.cartOnly f
  | None => false
  end.

(** The configuration gives some branding field. *)
Definition has_branding (config : ClientConfig.t) : bool :=
  match ClientConfig.branding config with
  | Some b =>
      Js.truthy (ClientConfig.primaryColor b)
      || Js.truthy (ClientConfig.secondaryColor b)
      || Js.truthy (ClientConfig.companyName b)
      || Js.truthy (ClientConfig.logoUrl b)
  | None => false
  end.




(** The characters of a string. *)
Definition chars (s : string) : list ascii := list_ascii_of_string s.


(** The statuses of a deployment query that end the wait, and the others. *)
Definition ends_in_success (s : string) : Prop := s = "SUCCESS" \/ s = "ACTIVE".
Definition ends_in_failure (s : string) : Prop := s = "FAILED" \/ s = "CRASHED".
Definition in_progress (s : string) : Prop :=
  ~ ends_in_success s /\ ~ ends_in_failure s.

(** The four fields of the buffer of a token, as [decryptPassword] cuts
    them. *)
Definition salt_of (b : Buffer.t) : Buffer.t := Buffer.slice 0 Crypto.SALT_LENGTH b.
Definition iv_of (b : Buffer.t) : Buffer.t :=
  Buffer.slice Crypto.SALT_LENGTH (Crypto.SALT_LENGTH + Crypto.IV_LENGTH) b.
Definition tag_of (b : Buffer.t) : Buffer.t :=
  Buffer.slice (Crypto.SALT_LENGTH + Crypto.IV_LENGTH)
    (Crypto.SALT_LENGTH + Crypto.IV_LENGTH + Crypto.TAG_LENGTH) b.
Definition data_of (b : Buffer.t) : Buffer.t :=
  Buffer.slice_from (Crypto.SALT_LENGTH + Crypto.IV_LENGTH + Crypto.TAG_LENGTH) b.

(** A byte with one of its eight bits flipped, and a buffer with one bit
    of its byte at [pos] flipped. *)
Definition flip_byte (bit : nat) (x : byte) : byte :=
  default x (Byte.of_N (N.lxor (Byte.to_N x) (2 ^ N.of_nat bit))).

Definition flip_bit (pos bit : nat) (b : list byte) : list byte :=
  alter (flip_byte bit) pos b.


(** The state of the process after a poll that was answered [reply] after
    [latency], and after the status line is written. *)
Definition polled (deploymentId : string) (latency : N)
    (reply : DeploymentStatus.t) (n : Node) : Node :=
  with_console
    (console n ++ ["[Deployer] Deployment status: " ++ DeploymentStatus.status reply])
    (with_clock (clock n + Z.of_N latency)
       (with_polls (S (polls n))
          (with_requests (requests n ++ [DeploymentQuery deploymentId]) n))).

(** ... and after the [sleep] that follows an in-progress status. *)
Definition slept (n : Node) : Node :=
  with_clock (clock n + ClientDeployer.pollInterval)
    (with_sleeps (sleeps n ++ [ClientDeployer.pollInterval]) n).

#[global] Instance deployment_status_eq_dec : EqDecision Deployment.status.
Proof. solve_decision. Defined.

(** The status of a ledger row in each of a list of database states. *)
Definition statuses_of (deploymentId : string) (states : list Db)
  : list (option Deployment.status) :=
  map (fun d => Deployment.status_ <$> deployments d !! deploymentId) states.

(** A sequence without its immediate repetitions: the values taken. *)
Fixpoint values_taken {A} `{EqDecision A} (l : list A) : list A :=
  match l with
  | [] => []
  | x :: r =>
      match r with
      | y :: _ => if decide (x = y) then values_taken r else x :: values_taken r
      | [] => [x]
      end
  end.

(** The ledger after [deploy] has inserted the row of the attempt, set
    the client to [deploying] and the row to [building]. *)
Definition attempt_started (clientId deploymentId : string) (c : Client.row)
    (w : World) : World :=
  Database.wrote (Database.deployment_set deploymentId Router.mark_building)
    (Database.wrote
       (Database.client_set clientId (Client.only_status Client.deploying))
       (Database.wrote
          (Database.inserted
             (Database.new_row (Router.new_attempt deploymentId clientId c)
                (clock (node w))))
          w)).

(** The three ways an attempt that has started ends, with the outcome of
    [deploy] and the world it leaves; [n] is the process at the end.
    - The deployer reports success: client and row are marked, the action
      is logged, the result is returned.
    - The deployer reports failure: client and row are marked failed, the
      error is thrown, and the handler marks both again and throws on.
    - An error before the deployer is called (no API token, no readable
      password): no request was sent; the handler marks client and row
      failed and throws the error on. *)
Inductive attempt_ends (clientId deploymentId : string) (w3 : World)
  : Outcome DeploymentResult.t -> World -> Prop :=
| ends_succeeded deployer config n0 n result :
    ClientDeployer.deployClient deployer config n0 = (Return result, n) ->
    DeploymentResult.success result = true ->
    attempt_ends clientId deploymentId w3 (Return result)
      (Database.wrote (Database.logged (Router.deploy_log deploymentId result))
         (Database.wrote
            (Database.deployment_set deploymentId (Router.mark_success (clock n)))
            (Database.wrote
               (Database.client_set clientId (Router.mark_active result (clock n)))
               (with_node n w3))))
| ends_failed deployer config n0 n result :
    ClientDeployer.deployClient deployer config n0 = (Return result, n) ->
    DeploymentResult.success result = false ->
    let message := Js.or_else (DeploymentResult.error result) "Deployment failed" in
    attempt_ends clientId deploymentId w3 (Throw message)
      (Database.wrote
         (Database.deployment_set deploymentId
            (Router.mark_failed (Some message) (clock n)))
         (Database.wrote
            (Database.client_set clientId (Client.only_status Client.failed))
            (Database.wrote
               (Database.deployment_set deploymentId
                  (Router.mark_failed (DeploymentResult.error result) (clock n)))
               (Database.wrote
                  (Database.client_set clientId (Client.only_status Client.failed))
                  (with_node n w3)))))
| ends_aborted n message :
    requests n = requests (node w3) ->
    clock n = clock (node w3) ->
    attempt_ends clientId deploymentId w3 (Throw message)
      (Database.wrote
         (Database.deployment_set deploymentId
            (Router.mark_failed (Some message) (clock n)))
         (Database.wrote
            (Database.client_set clientId (Client.only_status Client.failed))
            (with_node n w3))).

(** The sequences of status values that the specification allows a
    ledger row to take. *)
Definition spec_sequences : list (list (option Deployment.status)) :=
  [ [Some Deployment.pending; Some Deployment.building;
     Some Deployment.deploying; Some Deployment.success];
    [Some Deployment.pending; Some Deployment.building;
     Some Deployment.deploying; Some Deployment.failed] ].

(** [completedAt] is null exactly when the status is not terminal. *)
Definition completion_consistent (r : Deployment.row) : Prop :=
  Deployment.completedAt r = None <-> Deployment.terminal (Deployment.status_ r) = false.

(** The rows of every child table that belong to a client. *)
Definition related_rows (clientId : string) (d : Db) : nat :=
  (length (List.filter (fun r => String.eqb (ClientLendproConfig.clientId r) clientId)
             (clientLendproConfig d))
   + length (List.filter (fun r => String.eqb (ClientBranding.clientId r) clientId)
               (clientBranding d))
   + length (List.filter (fun r => String.eqb (ClientFeatures.clientId r) clientId)
               (clientFeatures d))
   + length (List.filter (fun r => String.eqb (ClientVisualizer.clientId r) clientId)
               (clientVisualizer d))
   + length (List.filter (fun r => String.eqb (ClientAnalytics.clientId r) clientId)
               (clientAnalytics d))
   + size (filter (fun kv => Deployment.clientId (snd kv) = clientId) (deployments d)))%nat.

(** [grows m]: running [m] only adds requests at the end of the log. *)
Definition grows {A} (m : M Node A) : Prop :=
  forall n, requests n `prefix_of` requests (snd (m n)).

(** [silent m]: [m] returns and sends nothing. *)
Definition silent {A} (m : M Node A) : Prop :=
  forall n, (exists a, fst (m n) = Return a) /\ requests (snd (m n)) = requests n.

(** [starts_with r m]: the first request [m] sends is [r]. *)
Definition starts_with {A} (r : Request) (m : M Node A) : Prop :=
  forall n, (requests n ++ [r])%list `prefix_of` requests (snd (m n)).

(** [returns_with P m]: whatever [m] returns satisfies [P]. *)
Definition returns_with {S A} (P : A -> Prop) (m : M S A) : Prop :=
  forall s a s', m s = (Return a, s') -> P a.

(** The keys of a variable list. *)
Definition keys (vars : list EnvironmentVariable.t) : list string :=
  map EnvironmentVariable.key vars.

(** The ten entries that every variable list starts with. *)
Definition base_entries (config : ClientConfig.t) (mysqlServiceId : string)
  : list EnvironmentVariable.t :=
  let lendpro := ClientConfig.lendpro config in
  [ ClientDeployer.var "NODE_ENV" "production";
    ClientDeployer.var "PORT" "3000";
    ClientDeployer.var "LENDPRO_API_URL" (ClientConfig.apiUrl lendpro);
    ClientDeployer.var "LENDPRO_USERNAME" (ClientConfig.username lendpro);
    ClientDeployer.var "LENDPRO_PASSWORD" (ClientConfig.password lendpro);
    ClientDeployer.var "LENDPRO_STORE_ID" (ClientConfig.storeId lendpro);
    ClientDeployer.var "LENDPRO_SALES_ID" (ClientConfig.salesId lendpro);
    ClientDeployer.var "LENDPRO_SALES_NAME" (ClientConfig.salesName lendpro);
    ClientDeployer.var "DATABASE_URL" ("${{" ++ mysqlServiceId ++ ".MYSQL_URL}}");
    ClientDeployer.var "OAUTH_SERVER_URL" "http://localhost:3000" ].

(** No string occurs twice. *)
Fixpoint distinct (l : list string) : bool :=
  match l with
  | [] => true
  | x :: r => negb (existsb (String.eqb x) r) && distinct r
  end.

(** The entry, if any, that a setting gives under a key. *)
Definition entry_if (k : string) (setting : option string)
  : list EnvironmentVariable.t :=
  if Js.truthy setting then [ClientDeployer.var k (default "" setting)] else [].

(** The three groups of entries appended under a condition. *)
Definition visualizer_entries (config : ClientConfig.t) : list EnvironmentVariable.t :=
  match ClientConfig.visualizer config with
  | Some v =>
      ([ClientDeployer.var "VISUALIZER_ENABLED"
          (if ClientConfig.enabled v then "true" else "false")]
       ++ entry_if "VISUALIZER_EMBED_CODE" (ClientConfig.embedCode v)
       ++ entry_if "AUTOSYNC_API_KEY" (ClientConfig.autoSyncApiKey v))%list
  | None => []
  end.

Definition cart_entries (config : ClientConfig.t) : list EnvironmentVariable.t :=
  if cart_only config then [ClientDeployer.var "CART_ONLY_MODE" "true"] else [].

Definition branding_entries (config : ClientConfig.t) : list EnvironmentVariable.t :=
  match ClientConfig.branding config with
  | Some b =>
      (entry_if "VITE_PRIMARY_COLOR" (ClientConfig.primaryColor b)
       ++ entry_if "VITE_SECONDARY_COLOR" (ClientConfig.secondaryColor b)
       ++ entry_if "VITE_COMPANY_NAME" (ClientConfig.companyName b)
       ++ entry_if "VITE_LOGO_URL" (ClientConfig.logoUrl b))%list
  | None => []
  end.

(** All the keys, in the order in which they can occur. *)
Definition all_keys : list string :=
  ([ "NODE_ENV"; "PORT"; "LENDPRO_API_URL"; "LENDPRO_USERNAME";
     "LENDPRO_PASSWORD"; "LENDPRO_STORE_ID"; "LENDPRO_SALES_ID";
     "LENDPRO_SALES_NAME"; "DATABASE_URL"; "OAUTH_SERVER_URL" ]
   ++ conditional_keys)%list.

(** [sends P m]: every request that [m] sends satisfies [P]. *)
Definition sends {A} (P : Request -> Prop) (m : M Node A) : Prop :=
  forall n, exists l,
    requests (snd (m n)) = (requests n ++ l)%list /\ Forall P l.

(** The requests of an update of a deployed service: its variables, a new
    build, and the queries for the status of a build. *)
Definition update_request (projectId serviceId : string) (r : Request) : Prop :=
  match r with
  | VariableCollectionUpsert p s _ => p = projectId /\ s = serviceId
  | ServiceInstanceRedeploy s => s = serviceId
  | DeploymentQuery _ => True
  | _ => False
  end.

(** The request deletes something on the platform. *)
Definition is_delete (r : Request) : bool :=
  match r with
  | ProjectDelete _ => true
  | _ => false
  end.

(** The variables of a request, if it sets any. *)
Definition variables_of (r : Request) : list (string * string) :=
  match r with
  | VariableCollectionUpsert _ _ variables => variables
  | _ => []
  end.

(** The process talking to another platform. *)
Definition with_platform (p : Platform) (n : Node) : Node :=
  {| env := env n; platform := p; clock := clock n; entropy := entropy n;
     drawn := drawn n; console := console n; requests := requests n;
     sleeps := sleeps n; polls := polls n |}.

(** More platforms for the examples. *)
Module Scenario.

(** The status of a build cannot be queried. *)
Definition unreachable (e : string) : Platform :=
  {| projectCreate := projectCreate Sample.succeeding;
     serviceCreate := serviceCreate Sample.succeeding;
     variableCollectionUpsert := variableCollectionUpsert Sample.succeeding;
     serviceInstanceRedeploy := serviceInstanceRedeploy Sample.succeeding;
     deployment := fun _ _ => (30000%N, Throw e);
     service_domains := service_domains Sample.succeeding;
     customDomainCreate := customDomainCreate Sample.succeeding;
     projectDelete := projectDelete Sample.succeeding |}.

(** Variables cannot be set. *)
Definition read_only (e : string) : Platform :=
  {| projectCreate := projectCreate Sample.succeeding;
     serviceCreate := serviceCreate Sample.succeeding;
     variableCollectionUpsert := fun _ _ _ => Throw e;
     serviceInstanceRedeploy := serviceInstanceRedeploy Sample.succeeding;
     deployment := deployment Sample.succeeding;
     service_domains := service_domains Sample.succeeding;
     customDomainCreate := customDomainCreate Sample.succeeding;
     projectDelete := projectDelete Sample.succeeding |}.

(** The answer to [customDomainCreate] is replaced. *)
Definition with_customDomainCreate (f : string -> string -> Outcome unit)
    (p : Platform) : Platform :=
  {| projectCreate := projectCreate p;
     serviceCreate := serviceCreate p;
     variableCollectionUpsert := variableCollectionUpsert p;
     serviceInstanceRedeploy := serviceInstanceRedeploy p;
     deployment := deployment p;
     service_domains := service_domains p;
     customDomainCreate := f;
     projectDelete := projectDelete p |}.

Definition deployer : ClientDeployer.ClientDeployer :=
  ClientDeployer.new {| RailwayApi.apiToken := "token" |} None None.

End Scenario.

(** Two platforms that answer alike, the requests for a custom domain
    apart. *)
Definition same_platform_but_domains (p1 p2 : Platform) : Prop :=
  projectCreate p1 = projectCreate p2 /\
  serviceCreate p1 = serviceCreate p2 /\
  variableCollectionUpsert p1 = variableCollectionUpsert p2 /\
  serviceInstanceRedeploy p1 = serviceInstanceRedeploy p2 /\
  deployment p1 = deployment p2 /\
  service_domains p1 = service_domains p2 /\
  projectDelete p1 = projectDelete p2.

(** Two states of the process that differ at most in the console and in
    what the platform answers to the requests for a custom domain. *)
Definition same_but_domains (n1 n2 : Node) : Prop :=
  env n1 = env n2 /\
  same_platform_but_domains (platform n1) (platform n2) /\
  clock n1 = clock n2 /\ entropy n1 = entropy n2 /\ drawn n1 = drawn n2 /\
  requests n1 = requests n2 /\ sleeps n1 = sleeps n2 /\ polls n1 = polls n2.

(** [agree m]: run in two such states, [m] has the same outcome and leaves
    two such states. *)
Definition agree {A} (m : M Node A) : Prop :=
  forall n1 n2, same_but_domains n1 n2 ->
    fst (m n1) = fst (m n2) /\ same_but_domains (snd (m n1)) (snd (m n2)).

(** The keys of the visualizer. *)
Definition visualizer_keys : list string :=
  ["VISUALIZER_ENABLED"; "VISUALIZER_EMBED_CODE"; "AUTOSYNC_API_KEY"].

(** The request sets no variable of the visualizer. *)
Definition sets_no_visualizer (r : Request) : Prop :=
  Forall (fun kv => ~ In (fst kv) visualizer_keys) (variables_of r).

(** [sends_in_world P m]: every request that [m] sends satisfies [P]. *)
Definition sends_in_world {A} (P : Request -> Prop) (m : M World A) : Prop :=
  forall w, exists l,
    requests (node (snd (m w))) = (requests (node w) ++ l)%list /\ Forall P l.

(** The password that [generatePassword] makes in a state of the
    process. *)
Definition generated (len : nat) (n : Node) : string :=
  match fst (RailwayApi.generatePassword len n) with
  | Return password => password
  | Throw _ => ""
  end.

(** No row of a table of settings belongs to the client. *)
Definition childless (clientId : string) (d : Db) : Prop :=
  Database.first_of ClientLendproConfig.clientId clientId (clientLendproConfig d) = None /\
  Database.first_of ClientBranding.clientId clientId (clientBranding d) = None /\
  Database.first_of ClientFeatures.clientId clientId (clientFeatures d) = None /\
  Database.first_of ClientVisualizer.clientId clientId (clientVisualizer d) = None.


(** The string of the single code unit U+D800, a lone surrogate. *)
Definition lone_surrogate : string :=
  String (ascii_of_nat 237) (String (ascii_of_nat 160)
    (String (ascii_of_nat 128) EmptyString)).

Section ProvisioningSteps.

Import RailwayApi ClientDeployer.



End ProvisioningSteps.

(* ===================================================================== *)
(** * Environment variable construction *)
(* ===================================================================== *)

Section BuildEnvironmentVariables.

Import ClientDeployer.

Lemma base_variables config mysqlServiceId :
  ClientConfig.visualizer config = None ->
  cart_only config = false ->
  has_branding config = false ->
  buildEnvironmentVariables config mysqlServiceId =
  [ var "NODE_ENV" "production";
    var "PORT" "3000";
    var "LENDPRO_API_URL" (ClientConfig.apiUrl (ClientConfig.lendpro config));
    var "LENDPRO_USERNAME" (ClientConfig.username (ClientConfig.lendpro config));
    var "LENDPRO_PASSWORD" (ClientConfig.password (ClientConfig.lendpro config));
    var "LENDPRO_STORE_ID" (ClientConfig.storeId (ClientConfig.lendpro config));
    var "LENDPRO_SALES_ID" (ClientConfig.salesId (ClientConfig.lendpro config));
    var "LENDPRO_SALES_NAME" (ClientConfig.salesName (ClientConfig.lendpro config));
    var "DATABASE_URL" ("${{" ++ mysqlServiceId ++ ".MYSQL_URL}}");
    var "OAUTH_SERVER_URL" "http://localhost:3000" ].
Proof.
  intros Hvis Hcart Hbrand.
  unfold buildEnvironmentVariables, cart_only, has_branding in *.
  rewrite Hvis.
  destruct (ClientConfig.features config) as [f|];
    [rewrite Hcart|]; unfold push_if at 1;
    (destruct (ClientConfig.branding config) as [b|]; [|reflexivity]);
    apply orb_false_elim in Hbrand as [Hbrand Hlogo];
    apply orb_false_elim in Hbrand as [Hbrand Hname];
    apply orb_false_elim in Hbrand as [Hprim Hsec];
    rewrite Hprim, Hsec, Hname, Hlogo; reflexivity.
Qed.

(** C7. A configuration with credentials but no visualizer, no cart-only
    mode and no branding gives exactly one entry for [NODE_ENV], with value
    [production], exactly one entry for each credential field, with the
    field's value, and no entry under a visualizer, cart-only or branding
    key. *)
Theorem buildEnvironmentVariables_credentials_only config mysqlServiceId :
  ClientConfig.visualizer config = None ->
  cart_only config = false ->
  has_branding config = false ->
  let vars := buildEnvironmentVariables config mysqlServiceId in
  let lendpro := ClientConfig.lendpro config in
  entries_for "NODE_ENV" vars = [var "NODE_ENV" "production"] /\
  entries_for "LENDPRO_API_URL" vars =
    [var "LENDPRO_API_URL" (ClientConfig.apiUrl lendpro)] /\
  entries_for "LENDPRO_USERNAME" vars =
    [var "LENDPRO_USERNAME" (ClientConfig.username lendpro)] /\
  entries_for "LENDPRO_PASSWORD" vars =
    [var "LENDPRO_PASSWORD" (ClientConfig.password lendpro)] /\
  entries_for "LENDPRO_STORE_ID" vars =
    [var "LENDPRO_STORE_ID" (ClientConfig.storeId lendpro)] /\
  entries_for "LENDPRO_SALES_ID" vars =
    [var "LENDPRO_SALES_ID" (ClientConfig.salesId lendpro)] /\
  entries_for "LENDPRO_SALES_NAME" vars =
    [var "LENDPRO_SALES_NAME" (ClientConfig.salesName lendpro)] /\
  Forall (fun k => entries_for k vars = []) conditional_keys.
Proof.
  intros Hvis Hcart Hbrand vars lendpro. subst vars.
  rewrite (base_variables _ _ Hvis Hcart Hbrand).
  repeat split; try reflexivity.
  unfold conditional_keys. repeat constructor.
Qed.

(** Scenario A of the specification. *)
Lemma buildEnvironmentVariables_scenario_A :
  ClientConfig.visualizer Sample.acme_config = None /\
  cart_only Sample.acme_config = false /\
  has_branding Sample.acme_config = false /\
  entries_for "NODE_ENV" (buildEnvironmentVariables Sample.acme_config "mysql-1")
  = [var "NODE_ENV" "production"].
Proof.
  split; [reflexivity|]. split; [reflexivity|]. split; [reflexivity|].
  apply (buildEnvironmentVariables_credentials_only Sample.acme_config "mysql-1");
    reflexivity.
Defined.

End BuildEnvironmentVariables.

(* ===================================================================== *)
(** * The request log *)
(* ===================================================================== *)

Create HintDb requests discriminated.

Section RequestLog.

Import RailwayApi ClientDeployer.

Lemma silent_grows {A} (m : M Node A) : silent m -> grows m.
Proof. intros H n. destruct (H n) as [_ ->]. reflexivity. Qed.

Lemma grows_ret {A} (a : A) : grows (ret a).
Proof. intros n. reflexivity. Qed.

Lemma grows_throw {A} e : grows (@throw Node A e).
Proof. intros n. reflexivity. Qed.

Lemma grows_bind {A B} (m : M Node A) (k : A -> M Node B) :
  grows m -> (forall a, grows (k a)) -> grows (bind m k).
Proof.
  intros Hm Hk n. unfold bind. specialize (Hm n).
  destruct (m n) as [[a|e] n1]; simpl in *; [|exact Hm].
  etransitivity; [exact Hm | apply Hk].
Qed.

Lemma grows_try_catch {A} (body : M Node A) handler :
  grows body -> (forall e, grows (handler e)) -> grows (try_catch body handler).
Proof.
  intros Hb Hh n. unfold try_catch. specialize (Hb n).
  destruct (body n) as [[a|e] n1]; simpl in *; [exact Hb|].
  etransitivity; [exact Hb | apply Hh].
Qed.

Lemma grows_if {A} (b : bool) (m1 m2 : M Node A) :
  grows m1 -> grows m2 -> grows (if b then m1 else m2).
Proof. destruct b; auto. Qed.

Lemma silent_console_write line : silent (console_write line).
Proof. intros n. split; [exists tt|]; reflexivity. Qed.

Lemma silent_sleep ms : silent (sleep ms).
Proof. intros n. split; [exists tt|]; reflexivity. Qed.

Lemma silent_randomBytes k : silent (randomBytes k).
Proof. intros n. split; [eexists|]; reflexivity. Qed.

Lemma starts_with_query {A} r (answer : Platform -> Outcome A) :
  starts_with r (query r answer).
Proof.
  intros n. unfold query, try_catch, bind, modify, console_write, throw. simpl.
  destruct (answer (platform n)); reflexivity.
Qed.

Lemma starts_with_grows {A} r (m : M Node A) : starts_with r m -> grows m.
Proof.
  intros H n. etransitivity; [|apply H]. by apply prefix_app_r.
Qed.

Lemma grows_getDeploymentStatus c deploymentId :
  grows (getDeploymentStatus c deploymentId).
Proof.
  intros n. unfold getDeploymentStatus, try_catch, bind, modify, console_write,
    throw. simpl.
  destruct (deployment (platform n) deploymentId (polls n)) as [lat [a|e]];
    simpl; by apply prefix_app_r.
Qed.

Lemma grows_wait_loop fuel d deploymentId startTime timeout n r n' :
  wait_loop fuel d deploymentId startTime timeout n = Some (r, n') ->
  requests n `prefix_of` requests n'.
Proof.
  revert n. induction fuel as [|fuel IH]; intros n; simpl.
  - destruct (clock n - startTime <? timeout); [discriminate|].
    intros [= _ <-]. reflexivity.
  - destruct (clock n - startTime <? timeout); [|intros [= _ <-]; reflexivity].
    pose proof (grows_getDeploymentStatus (railwayClient d) deploymentId n) as Hp.
    destruct (getDeploymentStatus (railwayClient d) deploymentId n)
      as [[status|e] n1]; simpl in Hp; [|intros [= _ <-]; exact Hp].
    destruct (_ || _); [intros [= _ <-]; exact Hp|].
    destruct (_ || _); [intros [= _ <-]; exact Hp|].
    intros H. apply IH in H. etransitivity; [exact Hp | exact H].
Qed.

Lemma grows_waitForDeployment d deploymentId timeout :
  grows (waitForDeployment d deploymentId timeout).
Proof.
  intros n. unfold waitForDeployment.
  destruct (wait_loop _ _ _ _ _ n) as [[r n']|] eqn:H; [|reflexivity].
  simpl. eapply grows_wait_loop, H.
Qed.

Lemma starts_with_bind {A B} r (m : M Node A) (k : A -> M Node B) :
  starts_with r m -> (forall a, grows (k a)) -> starts_with r (bind m k).
Proof.
  intros Hm Hk n. unfold bind. specialize (Hm n).
  destruct (m n) as [[a|e] n1]; simpl in *; [|exact Hm].
  etransitivity; [exact Hm | apply Hk].
Qed.

Lemma starts_with_after_silent {A B} r (m : M Node A) (k : A -> M Node B) :
  silent m -> (forall a, starts_with r (k a)) -> starts_with r (bind m k).
Proof.
  intros Hm Hk n. unfold bind. destruct (Hm n) as [[a Ha] Hreq].
  destruct (m n) as [[a'|e] n1]; simpl in *; [|discriminate].
  rewrite <- Hreq. apply Hk.
Qed.

Lemma starts_with_try_catch {A} r (body : M Node A) handler :
  starts_with r body -> (forall e, grows (handler e)) ->
  starts_with r (try_catch body handler).
Proof.
  intros Hb Hh n. unfold try_catch. specialize (Hb n).
  destruct (body n) as [[a|e] n1]; simpl in *; [exact Hb|].
  etransitivity; [exact Hb | apply Hh].
Qed.

#[local] Hint Resolve grows_ret grows_throw grows_bind grows_try_catch grows_if
  silent_grows silent_console_write silent_sleep silent_randomBytes
  starts_with_grows starts_with_query grows_getDeploymentStatus
  grows_waitForDeployment : requests.

Ltac grows_tac :=
  repeat first
    [ solve [auto with requests]
    | apply grows_bind; [|intros]
    | apply grows_try_catch; [|intros]
    | apply grows_if ].

Lemma grows_query {A} r (answer : Platform -> Outcome A) : grows (query r answer).
Proof. eauto with requests. Qed.

#[local] Hint Resolve grows_query : requests.

Lemma grows_setEnvironmentVariables c projectId serviceId variables :
  grows (setEnvironmentVariables c projectId serviceId variables).
Proof. unfold setEnvironmentVariables. auto with requests. Qed.

#[local] Hint Resolve grows_setEnvironmentVariables : requests.

Lemma grows_createMySQLService c projectId name :
  grows (createMySQLService c projectId name).
Proof.
  unfold createMySQLService, generatePassword. grows_tac.
Qed.

Lemma grows_createService c projectId name source :
  grows (createService c projectId name source).
Proof. unfold createService. apply grows_bind; intros; auto with requests. Qed.

Lemma grows_triggerDeployment c projectId serviceId :
  grows (triggerDeployment c projectId serviceId).
Proof. unfold triggerDeployment. apply grows_bind; intros; auto with requests. Qed.

Lemma grows_getServiceDomain c serviceId : grows (getServiceDomain c serviceId).
Proof. unfold getServiceDomain. apply grows_bind; intros; auto with requests. Qed.

Lemma grows_addCustomDomain c serviceId domain :
  grows (addCustomDomain c serviceId domain).
Proof. unfold addCustomDomain. auto with requests. Qed.

#[local] Hint Resolve grows_createMySQLService grows_createService
  grows_triggerDeployment grows_getServiceDomain grows_addCustomDomain : requests.

Lemma deployClient_starts_with d config :
  starts_with (ProjectCreate (project_name (ClientConfig.name config)))
    (deployClient d config).
Proof.
  unfold deployClient.
  apply starts_with_after_silent; [apply silent_console_write | intros _].
  apply starts_with_try_catch.
  - apply starts_with_after_silent; [apply silent_console_write | intros _].
    apply starts_with_bind.
    + unfold createProject. apply starts_with_bind; [|intros; auto with requests].
      apply starts_with_query.
    + intros project. grows_tac.
  - intros e. grows_tac.
Qed.

End RequestLog.

(* ===================================================================== *)
(** * The name of the remote project *)
(* ===================================================================== *)

Section ProjectName.

Import ClientDeployer.


Lemma lower_char_space c : Js.is_space (Js.lower_char c) = Js.is_space c.
Proof. destruct c as [[] [] [] [] [] [] [] []]; reflexivity. Qed.








End ProjectName.


(* ===================================================================== *)
(** * Completion polling *)
(* ===================================================================== *)

Section Polling.

Import RailwayApi ClientDeployer.

Variable d : ClientDeployer.
Variable deploymentId : string.

Lemma getDeploymentStatus_answered n latency reply :
  deployment (platform n) deploymentId (polls n) = (latency, Return reply) ->
  getDeploymentStatus (railwayClient d) deploymentId n =
  (Return reply,
   with_clock (clock n + Z.of_N latency)
     (with_polls (S (polls n))
        (with_requests (requests n ++ [DeploymentQuery deploymentId]) n))).
Proof.
  intros H. unfold getDeploymentStatus, try_catch, bind, modify. simpl.
  rewrite H. reflexivity.
Qed.

Lemma eqb_of_in_progress s :
  in_progress s ->
  (String.eqb s "SUCCESS" || String.eqb s "ACTIVE") = false /\
  (String.eqb s "FAILED" || String.eqb s "CRASHED") = false.
Proof.
  intros [Hs Hf]. unfold ends_in_success, ends_in_failure in *.
  split; apply orb_false_intro; apply String.eqb_neq; tauto.
Qed.

Lemma ends_in_success_eqb s :
  ends_in_success s <-> (String.eqb s "SUCCESS" || String.eqb s "ACTIVE") = true.
Proof.
  unfold ends_in_success. rewrite orb_true_iff, !String.eqb_eq. reflexivity.
Qed.

Lemma ends_in_failure_eqb s :
  ends_in_failure s <-> (String.eqb s "FAILED" || String.eqb s "CRASHED") = true.
Proof.
  unfold ends_in_failure. rewrite orb_true_iff, !String.eqb_eq. reflexivity.
Qed.

Lemma success_is_not_failure s : ends_in_success s -> ~ ends_in_failure s.
Proof. intros [-> | ->] [H | H]; discriminate. Qed.

Ltac case_status :=
  match goal with
  | |- context [if (String.eqb ?s ?a || String.eqb ?s ?b) then _ else _] =>
      let Hs := fresh "Hs" in
      destruct (String.eqb s a || String.eqb s b) eqn:Hs
  end.

(** One round of the loop, by the class of the status that was answered. *)
Lemma wait_loop_round fuel startTime timeout n latency reply :
  clock n - startTime < timeout ->
  deployment (platform n) deploymentId (polls n) = (latency, Return reply) ->
  wait_loop (S fuel) d deploymentId startTime timeout n =
  let s := DeploymentStatus.status reply in
  let n1 := polled deploymentId latency reply n in
  if String.eqb s "SUCCESS" || String.eqb s "ACTIVE" then Some (Return reply, n1)
  else if String.eqb s "FAILED" || String.eqb s "CRASHED"
       then Some (Throw (failed_with s), n1)
       else wait_loop fuel d deploymentId startTime timeout (slept n1).
Proof.
  intros Hlt Hans. cbn [wait_loop].
  apply Z.ltb_lt in Hlt. rewrite Hlt.
  rewrite (getDeploymentStatus_answered _ _ _ Hans). reflexivity.
Qed.

(** The loop never runs out of the fuel [waitForDeployment] gives it:
    whatever the platform answers, each round that goes on moves the clock
    by at least [pollInterval]. *)
Lemma wait_loop_enough fuel startTime timeout n :
  timeout - (clock n - startTime) <= Z.of_nat fuel * pollInterval ->
  wait_loop fuel d deploymentId startTime timeout n <> None.
Proof.
  revert n. induction fuel as [|fuel IH]; intros n Hfuel; cbn [wait_loop].
  - destruct (Z.ltb_spec (clock n - startTime) timeout); [lia | discriminate].
  - destruct (Z.ltb_spec (clock n - startTime) timeout); [|discriminate].
    unfold getDeploymentStatus, try_catch, bind, modify. simpl.
    destruct (deployment (platform n) deploymentId (polls n)) as [lat [reply|e]];
      simpl; [|discriminate].
    case_status; [discriminate|].
    case_status; [discriminate|].
    apply IH. simpl. unfold pollInterval in *. lia.
Qed.

Lemma enough_fuel_enough timeout :
  timeout <= Z.of_nat (enough_fuel timeout) * pollInterval.
Proof.
  unfold enough_fuel, pollInterval.
  destruct (Z.le_gt_cases 0 timeout) as [Hpos|Hneg].
  - rewrite Nat2Z.inj_succ, Z2Nat.id by (apply Z.div_pos; lia).
    pose proof (Z.mod_pos_bound timeout 5000 ltac:(lia)).
    pose proof (Z.div_mod timeout 5000 ltac:(lia)). lia.
  - lia.
Qed.

Lemma waitForDeployment_run timeout n :
  exists r,
    wait_loop (enough_fuel timeout) d deploymentId (clock n) timeout n = Some r /\
    waitForDeployment d deploymentId timeout n = r.
Proof.
  unfold waitForDeployment.
  destruct (wait_loop _ _ _ _ _ n) as [r|] eqn:H; [eauto|].
  exfalso. revert H. apply wait_loop_enough.
  pose proof (enough_fuel_enough timeout). lia.
Qed.

(** What the loop returns was answered with a success status. *)
Lemma wait_loop_returns fuel startTime timeout n reply n' :
  wait_loop fuel d deploymentId startTime timeout n = Some (Return reply, n') ->
  ends_in_success (DeploymentStatus.status reply).
Proof.
  revert n. induction fuel as [|fuel IH]; intros n; cbn [wait_loop];
    destruct (clock n - startTime <? timeout); try discriminate.
  destruct (getDeploymentStatus _ _ n) as [[status|e] n1]; [|discriminate].
  simpl.
  case_status.
  - intros [= <- _]. by apply ends_in_success_eqb.
  - case_status; [discriminate | apply IH].
Qed.

(** With in-progress answers only, the loop ends by the timeout, after at
    most [fuel] polls, each followed by one sleep of [pollInterval]. *)
Lemma wait_loop_in_progress fuel startTime timeout n :
  (forall k, exists latency reply,
      deployment (platform n) deploymentId k = (latency, Return reply) /\
      in_progress (DeploymentStatus.status reply)) ->
  timeout - (clock n - startTime) <= Z.of_nat fuel * pollInterval ->
  exists n',
    wait_loop fuel d deploymentId startTime timeout n
      = Some (Throw (timed_out timeout), n') /\
    timeout <= clock n' - startTime /\
    (polls n <= polls n' <= polls n + fuel)%nat /\
    sleeps n' = (sleeps n ++ repeat pollInterval (polls n' - polls n))%list.
Proof.
  revert n. induction fuel as [|fuel IH]; intros n Hans Hfuel.
  - cbn [wait_loop].
    destruct (Z.ltb_spec (clock n - startTime) timeout); [lia|].
    exists n. rewrite Nat.sub_diag, app_nil_r. repeat split; auto; lia.
  - destruct (Z.ltb_spec (clock n - startTime) timeout) as [Hlt|Hge].
    + destruct (Hans (polls n)) as (lat & reply & Hk & Hprog).
      rewrite (wait_loop_round _ _ _ _ _ _ Hlt Hk). cbv zeta.
      destruct (eqb_of_in_progress _ Hprog) as [-> ->].
      destruct (IH (slept (polled deploymentId lat reply n))) as (n' & Hrun & Hc & Hp & Hs).
      * exact Hans.
      * simpl. unfold pollInterval in *. lia.
      * exists n'. simpl in Hp, Hs. repeat split; try lia; auto.
        rewrite Hs, <- app_assoc. f_equal.
        replace (polls n' - polls n)%nat with (S (polls n' - S (polls n)))
          by lia.
        reflexivity.
    + cbn [wait_loop]. apply Z.ltb_ge in Hge. rewrite Hge.
      exists n. rewrite Nat.sub_diag, app_nil_r.
      apply Z.ltb_ge in Hge. repeat split; auto; lia.
Qed.

End Polling.

Section PollingClaims.

Import RailwayApi ClientDeployer.

(** With in-progress answers only, [waitForDeployment] ends by the
    timeout. *)
Lemma waitForDeployment_in_progress d deploymentId timeout n :
  (forall k, exists latency reply,
      deployment (platform n) deploymentId k = (latency, Return reply) /\
      in_progress (DeploymentStatus.status reply)) ->
  exists n',
    waitForDeployment d deploymentId timeout n = (Throw (timed_out timeout), n') /\
    timeout <= clock n' - clock n /\
    (polls n' - polls n <= Z.to_nat (timeout / pollInterval) + 1)%nat /\
    sleeps n' = (sleeps n ++ repeat pollInterval (polls n' - polls n))%list.
Proof.
  intros Hans.
  destruct (wait_loop_in_progress d deploymentId (enough_fuel timeout)
              (clock n) timeout n Hans) as (n' & Hrun & Hc & Hp & Hs).
  { pose proof (enough_fuel_enough timeout). lia. }
  exists n'.
  destruct (waitForDeployment_run d deploymentId timeout n) as (r & Hr & ->).
  rewrite Hrun in Hr. injection Hr as <-.
  split; [reflexivity|]. split; [exact Hc|]. split; [|exact Hs].
  unfold enough_fuel in Hp. lia.
Qed.

(** C5. If every poll is answered with a status that is not terminal,
    [waitForDeployment] throws the time-out error, which is none of the
    failure errors; by then the elapsed time has reached the timeout; it
    has polled at most [timeout / pollInterval + 1] times; and after each
    poll it slept for the same [pollInterval]: the interval never grows. *)
Theorem waitForDeployment_times_out d deploymentId timeout n :
  (forall k, exists latency reply,
      deployment (platform n) deploymentId k = (latency, Return reply) /\
      in_progress (DeploymentStatus.status reply)) ->
  exists n',
    waitForDeployment d deploymentId timeout n = (Throw (timed_out timeout), n') /\
    (forall s, timed_out timeout <> failed_with s) /\
    timeout <= clock n' - clock n /\
    (polls n' - polls n <= Z.to_nat (timeout / pollInterval) + 1)%nat /\
    sleeps n' = (sleeps n ++ repeat pollInterval (polls n' - polls n))%list.
Proof.
  intros Hans.
  destruct (waitForDeployment_in_progress d deploymentId timeout n Hans)
    as (n' & Hrun & Hc & Hp & Hs).
  exists n'. split; [exact Hrun|]. split; [|auto].
  intros s. unfold timed_out, failed_with. simpl. discriminate.
Qed.

(** A platform that always answers [BUILDING], and a timeout of twelve
    seconds. *)
Lemma waitForDeployment_times_out_witness :
  let n := Sample.process None (Sample.railway (Throw "unused") [] (Return tt)) in
  let d := new {| apiToken := "token" |} None None in
  exists n',
    waitForDeployment d "dep-1" 12000 n = (Throw (timed_out 12000), n') /\
    (forall s, timed_out 12000 <> failed_with s) /\
    12000 <= clock n' - clock n /\
    (polls n' - polls n <= Z.to_nat (12000 / pollInterval) + 1)%nat /\
    sleeps n' = (sleeps n ++ repeat pollInterval (polls n' - polls n))%list.
Proof.
  intros n d. apply (waitForDeployment_times_out d "dep-1" 12000 n).
  intros k. exists 1000%N. eexists. split.
  - reflexivity.
  - simpl. destruct k as [|k]; split; intros [H|H]; discriminate H.
Defined.

(** C10. In a round of the polling loop whose poll is answered with
    status [s]: if [s] is [SUCCESS] or [ACTIVE] the wait returns the answer;
    if [s] is [FAILED] or [CRASHED] it throws the failure error with [s];
    for every other string, lower-case and unknown ones included, it
    sleeps and goes round again, the loop condition deciding whether the
    timeout has elapsed.  Every string is in one of the three classes;
    whatever [waitForDeployment] returns carries [SUCCESS] or [ACTIVE];
    and with other statuses only it polls until the timeout. *)
Theorem waitForDeployment_status_classes d deploymentId fuel startTime timeout
    n latency reply :
  clock n - startTime < timeout ->
  deployment (platform n) deploymentId (polls n) = (latency, Return reply) ->
  let s := DeploymentStatus.status reply in
  let n1 := polled deploymentId latency reply n in
  (ends_in_success s \/ ends_in_failure s \/ in_progress s) /\
  (ends_in_success s ->
   wait_loop (S fuel) d deploymentId startTime timeout n = Some (Return reply, n1)) /\
  (ends_in_failure s ->
   wait_loop (S fuel) d deploymentId startTime timeout n
     = Some (Throw (failed_with s), n1)) /\
  (in_progress s ->
   wait_loop (S fuel) d deploymentId startTime timeout n
     = wait_loop fuel d deploymentId startTime timeout (slept n1)) /\
  (forall limit m answer m',
      waitForDeployment d deploymentId limit m = (Return answer, m') ->
      ends_in_success (DeploymentStatus.status answer)) /\
  (forall limit m,
      (forall k, exists latency' reply',
          deployment (platform m) deploymentId k = (latency', Return reply') /\
          in_progress (DeploymentStatus.status reply')) ->
      fst (waitForDeployment d deploymentId limit m) = Throw (timed_out limit)).
Proof.
  intros Hlt Hans s n1.
  pose proof (wait_loop_round d deploymentId fuel _ _ _ _ _ Hlt Hans) as Hround.
  cbv zeta in Hround. fold s n1 in Hround.
  split; [|split; [|split; [|split; [|split]]]].
  - destruct (String.eqb s "SUCCESS" || String.eqb s "ACTIVE") eqn:H1.
    { left. by apply ends_in_success_eqb. }
    destruct (String.eqb s "FAILED" || String.eqb s "CRASHED") eqn:H2.
    { right. left. by apply ends_in_failure_eqb. }
    right. right. split.
    + intros H. apply ends_in_success_eqb in H. congruence.
    + intros H. apply ends_in_failure_eqb in H. congruence.
  - intros H. apply ends_in_success_eqb in H. rewrite Hround, H. reflexivity.
  - intros H. pose proof (success_is_not_failure s) as Hns.
    destruct (String.eqb s "SUCCESS" || String.eqb s "ACTIVE") eqn:H1.
    { apply ends_in_success_eqb in H1. tauto. }
    apply ends_in_failure_eqb in H. rewrite Hround, H. reflexivity.
  - intros H. destruct (eqb_of_in_progress _ H) as [H1 H2].
    rewrite Hround, H1, H2. reflexivity.
  - intros limit m answer m' Hrun.
    destruct (waitForDeployment_run d deploymentId limit m) as (r & Hr & Hw).
    rewrite Hrun in Hw. subst r. eapply wait_loop_returns, Hr.
  - intros limit m Hall.
    destruct (waitForDeployment_in_progress d deploymentId limit m Hall)
      as (m' & -> & _). reflexivity.
Qed.

(** A poll answered with lower-case [success] is polled again. *)
Lemma waitForDeployment_status_classes_witness :
  let n := Sample.process None
             (Sample.railway (Throw "unused") ["success"] (Return tt)) in
  let d := new {| apiToken := "token" |} None None in
  let reply := {| DeploymentStatus.status := "success";
                  DeploymentStatus.url := None |} in
  clock n - clock n < 300000 /\
  deployment (platform n) "dep-1" (polls n) = (1000%N, Return reply) /\
  in_progress "success" /\
  wait_loop 2 d "dep-1" (clock n) 300000 n
    = wait_loop 1 d "dep-1" (clock n) 300000 (slept (polled "dep-1" 1000 reply n)).
Proof.
  intros n d reply.
  assert (Hlt : clock n - clock n < 300000) by (vm_compute; reflexivity).
  assert (Hans : deployment (platform n) "dep-1" (polls n) = (1000%N, Return reply))
    by reflexivity.
  assert (Hprog : in_progress "success")
    by (split; intros [H|H]; discriminate H).
  split; [exact Hlt|]. split; [exact Hans|]. split; [exact Hprog|].
  exact (proj1 (proj2 (proj2 (proj2
           (waitForDeployment_status_classes d "dep-1" 1 (clock n) 300000 n
              1000%N reply Hlt Hans)))) Hprog).
Defined.

End PollingClaims.

(* ===================================================================== *)
(** * The password codec *)
(* ===================================================================== *)

Section Hex.

Lemma from_hex_byte x s :
  Buffer.from_hex
    (String (Buffer.hex_char (Byte.to_N x / 16))
       (String (Buffer.hex_char (Byte.to_N x mod 16)) s))
  = x :: Buffer.from_hex s.
Proof. destruct x; reflexivity. Qed.

Lemma from_hex_to_hex b : Buffer.from_hex (Buffer.to_hex b) = b.
Proof.
  induction b as [|x b IH]; [reflexivity|].
  cbn [Buffer.to_hex]. rewrite from_hex_byte, IH. reflexivity.
Qed.

Lemma flip_byte_changes bit x : (bit < 8)%nat -> flip_byte bit x <> x.
Proof.
  intros Hbit.
  do 8 (destruct bit as [|bit]; [destruct x; discriminate|]).
  lia.
Qed.

End Hex.

Section Slices.

Variables salt iv tag data : Buffer.t.
Hypothesis salt_length : length salt = Crypto.SALT_LENGTH.
Hypothesis iv_length : length iv = Crypto.IV_LENGTH.
Hypothesis tag_length : length tag = Crypto.TAG_LENGTH.

Let buffer : Buffer.t := Buffer.concat [salt; iv; tag; data].

Lemma buffer_app : buffer = (salt ++ iv ++ tag ++ data)%list.
Proof. unfold buffer, Buffer.concat. simpl. by rewrite app_nil_r. Qed.

Lemma salt_of_buffer : salt_of buffer = salt.
Proof.
  rewrite buffer_app. unfold salt_of, Buffer.slice. simpl skipn.
  rewrite Nat.sub_0_r, <- salt_length. apply take_app_length.
Qed.

Lemma iv_of_buffer : iv_of buffer = iv.
Proof.
  rewrite buffer_app. unfold iv_of, Buffer.slice.
  rewrite <- salt_length, drop_app_length.
  replace (length salt + Crypto.IV_LENGTH - length salt)%nat with (length iv) by lia.
  apply take_app_length.
Qed.

Lemma tag_of_buffer : tag_of buffer = tag.
Proof.
  rewrite buffer_app. unfold tag_of, Buffer.slice.
  rewrite <- salt_length, <- iv_length, <- length_app, app_assoc, drop_app_length.
  replace (length (salt ++ iv) + Crypto.TAG_LENGTH - length (salt ++ iv))%nat
    with (length tag) by lia.
  apply take_app_length.
Qed.

Lemma data_of_buffer : data_of buffer = data.
Proof.
  rewrite buffer_app. unfold data_of, Buffer.slice_from.
  rewrite <- salt_length, <- iv_length, <- tag_length, <- !length_app.
  rewrite !app_assoc. rewrite <- (app_assoc salt iv tag). apply drop_app_length.
Qed.

End Slices.

Section Text.

Ltac to_arith :=
  unfold Js.continuation, Js.second_of_three, Js.second_of_four in *;
  repeat match goal with
         | H : _ && _ = true |- _ => apply andb_true_iff in H as [? ?]
         | H : _ && _ = false |- _ => apply andb_false_iff in H
         | H : (_ <=? _)%nat = true |- _ => apply Nat.leb_le in H
         | H : (_ <=? _)%nat = false |- _ => apply Nat.leb_gt in H
         | H : (_ =? _)%nat = true |- _ => apply Nat.eqb_eq in H
         | H : (_ =? _)%nat = false |- _ => apply Nat.eqb_neq in H
         | H : context [if (?x =? ?y)%nat then _ else _] |- _ =>
             destruct (Nat.eqb_spec x y)
         end.

(** The encoder copies a byte that does not begin a lone surrogate. *)
Lemma toWellFormed_cons a r :
  match r with
  | String b _ => Js.code a <> 237%nat \/ (Js.code b < 160)%nat
  | EmptyString => True
  end ->
  Js.toWellFormed (String a r) = String a (Js.toWellFormed r).
Proof.
  intros H. destruct r as [|b [|c r]]; try reflexivity.
  change (Js.toWellFormed (String a (String b (String c r)))) with
    (if (Js.code a =? 237)%nat && (160 <=? Js.code b)%nat &&
        Js.continuation b && Js.continuation c
     then Js.replacement ++ Js.toWellFormed r
     else String a (Js.toWellFormed (String b (String c r)))).
  replace ((Js.code a =? 237)%nat && (160 <=? Js.code b)%nat) with false;
    [reflexivity|].
  symmetry. apply andb_false_iff.
  destruct H as [H|H]; [left; by apply Nat.eqb_neq | right; by apply Nat.leb_gt].
Qed.

Lemma toWellFormed_other a r :
  Js.code a <> 237%nat ->
  Js.toWellFormed (String a r) = String a (Js.toWellFormed r).
Proof. intros H. apply toWellFormed_cons. destruct r; auto. Qed.

Lemma well_formed_fixed n : forall s,
  (String.length s <= n)%nat -> Js.isWellFormed s = true ->
  Js.toWellFormed s = s /\ Buffer.decode_utf8 s = s.
Proof.
  induction n as [|n IH]; intros [|a r] Hlen Hv; simpl in Hlen;
    try (split; reflexivity); try lia.
  cbn [Js.isWellFormed] in Hv. cbn [Buffer.decode_utf8]. cbv zeta in *.
  destruct (Js.code a <=? 127)%nat eqn:H1.
  { rewrite toWellFormed_other by (to_arith; lia).
    destruct (IH r) as [-> ->]; [lia|exact Hv|done]. }
  destruct ((194 <=? Js.code a)%nat && (Js.code a <=? 223)%nat) eqn:H2.
  { destruct r as [|b r1]; [discriminate|].
    apply andb_true_iff in Hv as [Hb Hv]. rewrite Hb.
    simpl in Hlen. rewrite !toWellFormed_other by (to_arith; lia).
    destruct (IH r1) as [-> ->]; [lia|exact Hv|done]. }
  destruct ((224 <=? Js.code a)%nat && (Js.code a <=? 239)%nat) eqn:H3.
  { destruct r as [|b [|c r2]]; try discriminate.
    apply andb_true_iff in Hv as [Hv Hr]. apply andb_true_iff in Hv as [Hb Hc].
    rewrite Hb, Hc. simpl in Hlen.
    rewrite toWellFormed_cons by (to_arith; lia).
    rewrite !toWellFormed_other by (to_arith; lia).
    destruct (IH r2) as [-> ->]; [lia|exact Hr|done]. }
  destruct ((240 <=? Js.code a)%nat && (Js.code a <=? 244)%nat) eqn:H4;
    [|discriminate].
  destruct r as [|b [|c [|d r3]]]; try discriminate.
  apply andb_true_iff in Hv as [Hv Hr]. apply andb_true_iff in Hv as [Hv Hd].
  apply andb_true_iff in Hv as [Hb Hc].
  rewrite Hb, Hc, Hd. simpl in Hlen.
  rewrite !toWellFormed_other by (to_arith; lia).
  destruct (IH r3) as [-> ->]; [lia|exact Hr|done].
Qed.

Lemma toWellFormed_well_formed s :
  Js.isWellFormed s = true -> Js.toWellFormed s = s.
Proof. intros H. by apply (well_formed_fixed (String.length s) s). Qed.

Lemma decode_well_formed s :
  Js.isWellFormed s = true -> Buffer.decode_utf8 s = s.
Proof. intros H. by apply (well_formed_fixed (String.length s) s). Qed.

(** Text that stands for a string comes back from its bytes with U+FFFD
    for every lone surrogate; well-formed text comes back as it is. *)
Lemma to_utf8_from_utf8 s :
  Js.is_string s = true -> Buffer.to_utf8 (Buffer.from_utf8 s) = Js.toWellFormed s.
Proof.
  intros H. unfold Buffer.to_utf8, Buffer.from_utf8.
  rewrite string_of_list_byte_of_string. by apply decode_well_formed.
Qed.

Lemma well_formed_is_string s : Js.isWellFormed s = true -> Js.is_string s = true.
Proof. intros H. unfold Js.is_string. by rewrite toWellFormed_well_formed. Qed.

Lemma to_utf8_from_utf8_well_formed s :
  Js.isWellFormed s = true -> Buffer.to_utf8 (Buffer.from_utf8 s) = s.
Proof.
  intros H. rewrite to_utf8_from_utf8 by by apply well_formed_is_string.
  by apply toWellFormed_well_formed.
Qed.

Lemma ascii_well_formed s : Js.is_ascii s = true -> Js.isWellFormed s = true.
Proof.
  induction s as [|a r IH]; [done|]. simpl. intros [Ha Hr]%andb_true_iff.
  rewrite Ha. by apply IH.
Qed.

End Text.

Section Codec.

Context {L : NodeCrypto}.
Hypothesis laws : NodeCryptoLaws L.

Lemma returned_value {A S} (a b : A) (s t : S) :
  (Return a, s) = (Return b, t) -> b = a.
Proof. congruence. Qed.

Lemma truthy_key K : K <> "" -> Js.truthy (Some K) = true.
Proof. intros H. simpl. apply negb_true_iff, String.eqb_neq, H. Qed.

(** What [encryptPassword] does when the master key is set. *)
Lemma encryptPassword_run plaintext K n :
  ENCRYPTION_KEY (env n) = Some K -> K <> "" ->
  let salt := map (entropy n) (seq (drawn n) Crypto.SALT_LENGTH) in
  let iv := map (entropy n) (seq (drawn n + Crypto.SALT_LENGTH) Crypto.IV_LENGTH) in
  let sealed := gcm_encrypt (Crypto.deriveKey salt K) iv (Buffer.from_utf8 plaintext) in
  Crypto.encryptPassword plaintext n =
  (Return (to_base64 (Buffer.concat [salt; iv; snd sealed; fst sealed])),
   with_drawn (drawn n + Crypto.SALT_LENGTH + Crypto.IV_LENGTH) n).
Proof.
  intros HK Hne. unfold Crypto.encryptPassword, Crypto.getEncryptionKey,
    try_catch, bind, gets, randomBytes, ret.
  rewrite HK, (truthy_key K Hne). cbn [default with_drawn drawn entropy fst snd].
  rewrite from_hex_to_hex. reflexivity.
Qed.

(** What [decryptPassword] does when the master key is set: it returns
    what the cipher authenticates and otherwise throws its one error. *)
Lemma decryptPassword_run token K n :
  ENCRYPTION_KEY (env n) = Some K -> K <> "" ->
  let b := from_base64 token in
  Crypto.decryptPassword token n =
  match gcm_decrypt (Crypto.deriveKey (salt_of b) K) (iv_of b) (tag_of b) (data_of b) with
  | Some decrypted => (Return (Buffer.to_utf8 decrypted), n)
  | None =>
      (Throw "Failed to decrypt password",
       with_console
         (console n ++ ["[Crypto] Decryption failed: " ++
                        "Unsupported state or unable to authenticate data"]) n)
  end.
Proof.
  intros HK Hne. unfold Crypto.decryptPassword, Crypto.getEncryptionKey,
    try_catch, bind, gets, ret.
  rewrite HK, (truthy_key K Hne). cbn [default].
  rewrite from_hex_to_hex.
  fold (salt_of (from_base64 token)) (iv_of (from_base64 token))
    (tag_of (from_base64 token)) (data_of (from_base64 token)).
  destruct (gcm_decrypt _ _ _ _); reflexivity.
Qed.

Lemma deriveKey_length salt K : length (Crypto.deriveKey salt K) = 32%nat.
Proof. unfold Crypto.deriveKey. apply (pbkdf2Sync_length L laws). Qed.

(** A token of the right shape decrypts by its four fields. *)
Lemma decryptPassword_fields salt iv tag data K n :
  ENCRYPTION_KEY (env n) = Some K -> K <> "" ->
  length salt = Crypto.SALT_LENGTH -> length iv = Crypto.IV_LENGTH ->
  length tag = Crypto.TAG_LENGTH ->
  Crypto.decryptPassword (to_base64 (Buffer.concat [salt; iv; tag; data])) n =
  match gcm_decrypt (Crypto.deriveKey salt K) iv tag data with
  | Some decrypted => (Return (Buffer.to_utf8 decrypted), n)
  | None =>
      (Throw "Failed to decrypt password",
       with_console
         (console n ++ ["[Crypto] Decryption failed: " ++
                        "Unsupported state or unable to authenticate data"]) n)
  end.
Proof.
  intros HK Hne Hs Hi Ht.
  rewrite (decryptPassword_run _ K n HK Hne). cbv zeta.
  rewrite (from_to_base64 L laws).
  rewrite salt_of_buffer, iv_of_buffer, tag_of_buffer, data_of_buffer by assumption.
  reflexivity.
Qed.

Lemma random_length (n : Node) from k : length (map (entropy n) (seq from k)) = k.
Proof. by rewrite length_map, length_seq. Qed.

(** Round trip, for the key the token was made with or any key with the
    same hexadecimal value: the text comes back with U+FFFD for every
    lone surrogate. *)
Lemma decrypt_encrypt_text plaintext K K' n token n1 n2 :
  Js.is_string plaintext = true ->
  ENCRYPTION_KEY (env n) = Some K -> K <> "" ->
  ENCRYPTION_KEY (env n2) = Some K' -> K' <> "" ->
  Buffer.from_hex K' = Buffer.from_hex K ->
  Crypto.encryptPassword plaintext n = (Return token, n1) ->
  Crypto.decryptPassword token n2 = (Return (Js.toWellFormed plaintext), n2).
Proof.
  intros Htext HK Hne HK' Hne' Hhex Henc.
  rewrite (encryptPassword_run plaintext K n HK Hne) in Henc. cbv zeta in Henc.
  apply returned_value in Henc. subst token.
  rewrite (decryptPassword_fields _ _ _ _ K' n2 HK' Hne');
    try apply random_length; [|apply (gcm_tag_length L laws)].
  unfold Crypto.deriveKey at 1. rewrite Hhex. fold (Crypto.deriveKey
    (map (entropy n) (seq (drawn n) Crypto.SALT_LENGTH)) K).
  rewrite (gcm_decrypt_encrypt L laws);
    [|apply deriveKey_length|apply random_length].
  by rewrite to_utf8_from_utf8.
Qed.

(** Well-formed text comes back as it is. *)
Lemma decrypt_encrypt_same_hex plaintext K K' n token n1 n2 :
  Js.isWellFormed plaintext = true ->
  ENCRYPTION_KEY (env n) = Some K -> K <> "" ->
  ENCRYPTION_KEY (env n2) = Some K' -> K' <> "" ->
  Buffer.from_hex K' = Buffer.from_hex K ->
  Crypto.encryptPassword plaintext n = (Return token, n1) ->
  Crypto.decryptPassword token n2 = (Return plaintext, n2).
Proof.
  intros Htext HK Hne HK' Hne' Hhex Henc.
  rewrite (decrypt_encrypt_text plaintext K K' n token n1 n2);
    try assumption; [|by apply well_formed_is_string].
  by rewrite toWellFormed_well_formed.
Qed.

End Codec.

Section FakeCrypto.

Lemma buffer_eqb_eq a b : Fake.buffer_eqb a b = true <-> a = b.
Proof.
  revert b. induction a as [|x a IH]; intros [|y b]; simpl;
    try (split; [discriminate | discriminate]); [tauto|].
  rewrite andb_true_iff, IH. split.
  - intros [Hx ->]. f_equal. by apply Byte.byte_dec_bl.
  - intros [= -> ->]. split; [by apply Byte.byte_dec_lb | reflexivity].
Qed.

Lemma padded_length k (l : Buffer.t) :
  length (firstn k (l ++ repeat x00 k)) = k.
Proof. rewrite length_take, length_app, repeat_length. lia. Qed.

Lemma fake_laws : NodeCryptoLaws Fake.crypto.
Proof.
  constructor; simpl.
  - intros password salt iterations keylen. unfold Fake.derive.
    rewrite app_assoc. apply padded_length.
  - intros key iv plaintext _ _. unfold Fake.unseal.
    replace (Fake.buffer_eqb _ _) with true
      by (symmetry; by apply buffer_eqb_eq).
    by rewrite rev_involutive.
  - intros key iv plaintext. unfold Fake.tag_of. simpl. f_equal.
    rewrite !app_assoc. apply padded_length.
  - intros key iv tag ciphertext decrypted plaintext Hdec _ <-.
    unfold Fake.unseal in Hdec.
    destruct (Fake.buffer_eqb _ _) eqn:Heq; [|discriminate].
    apply buffer_eqb_eq in Heq. by rewrite Heq.
  - apply from_hex_to_hex.
Qed.

Lemma byte_sum_alter (f : byte -> byte) (c : list byte) : forall pos old,
  c !! pos = Some old ->
  (Fake.byte_sum (alter f pos c) + Byte.to_N old =
   Fake.byte_sum c + Byte.to_N (f old))%N.
Proof.
  induction c as [|x c IH]; intros [|pos] old Hc; try discriminate.
  - injection Hc as ->.
    change (alter f 0%nat (old :: c)) with (f old :: c).
    unfold Fake.byte_sum. cbn [fold_right]. lia.
  - specialize (IH pos old Hc).
    change (alter f (S pos) (x :: c)) with (x :: alter f pos c).
    unfold Fake.byte_sum in *. cbn [fold_right]. lia.
Qed.

Lemma byte_of_small n :
  (n < 256)%N -> Byte.to_N (default x00 (Byte.of_N n)) = n.
Proof.
  intros Hn. destruct (Byte.of_N n) as [y|] eqn:Hy.
  - by apply Byte.to_of_N.
  - apply Byte.of_N_None_iff in Hy. lia.
Qed.

Lemma byte_to_N_inj x y : Byte.to_N x = Byte.to_N y -> x = y.
Proof.
  intros H. pose proof (Byte.of_to_N x) as Hx. rewrite H, Byte.of_to_N in Hx.
  congruence.
Qed.

(** The check byte changes with any one byte of the text. *)
Lemma checksum_alter (f : byte -> byte) (c : list byte) pos old :
  c !! pos = Some old -> f old <> old ->
  Fake.checksum (alter f pos c) <> Fake.checksum c.
Proof.
  intros Hc Hf Heq. apply Hf, byte_to_N_inj.
  pose proof (byte_sum_alter f c pos old Hc) as Hsum.
  apply (f_equal Byte.to_N) in Heq. unfold Fake.checksum in Heq.
  rewrite !byte_of_small in Heq by (apply N.mod_upper_bound; discriminate).
  pose proof (Byte.to_N_bounded old). pose proof (Byte.to_N_bounded (f old)).
  pose proof (N.Div0.div_mod (Fake.byte_sum c) 256).
  pose proof (N.Div0.div_mod (Fake.byte_sum (alter f pos c)) 256).
  lia.
Qed.

Lemma fake_authenticates : NodeCryptoAuthenticates Fake.crypto.
Proof.
  constructor.
  - intros key iv tag ciphertext decrypted Hdec _.
    change (Fake.unseal key iv tag ciphertext = Some decrypted) in Hdec.
    change (Fake.seal key iv decrypted = (ciphertext, tag)).
    unfold Fake.unseal in Hdec.
    destruct (Fake.buffer_eqb _ _) eqn:Heq; [|discriminate].
    apply buffer_eqb_eq in Heq. injection Hdec as <-.
    unfold Fake.seal. by rewrite rev_involutive, Heq.
  - intros key iv plaintext f pos old Hold Hf.
    change (rev plaintext !! pos = Some old) in Hold.
    change (Fake.unseal key iv (Fake.tag_of key iv (rev plaintext))
              (alter f pos (rev plaintext)) = None).
    unfold Fake.unseal.
    destruct (Fake.buffer_eqb _ _) eqn:Heq; [|reflexivity].
    apply buffer_eqb_eq in Heq. unfold Fake.tag_of in Heq.
    injection Heq as Heq. symmetry in Heq.
    by apply (checksum_alter f _ pos old Hold Hf) in Heq.
Qed.

End FakeCrypto.

Section CodecClaims.

Context {L : NodeCrypto}.

(** C3, as the code has it.  With a master key set and not empty,
    [encryptPassword] returns the base64 text of salt (64 random bytes),
    iv (16 random bytes), tag and ciphertext, in this order, and
    [decryptPassword] under the same key gives a well-formed plaintext
    back as it is, and any other with U+FFFD in the place of every lone
    surrogate. *)
Theorem decrypt_encrypt_roundtrip (laws : NodeCryptoLaws L) plaintext K n :
  Js.is_string plaintext = true ->
  ENCRYPTION_KEY (env n) = Some K -> K <> "" ->
  exists salt iv n1,
    length salt = 64%nat /\ length iv = 16%nat /\
    let sealed := gcm_encrypt (Crypto.deriveKey salt K) iv
                    (Buffer.from_utf8 plaintext) in
    let token := to_base64 (salt ++ iv ++ snd sealed ++ fst sealed)%list in
    Crypto.encryptPassword plaintext n = (Return token, n1) /\
    forall n2, ENCRYPTION_KEY (env n2) = Some K ->
               Crypto.decryptPassword token n2 =
               (Return (if Js.isWellFormed plaintext then plaintext
                        else Js.toWellFormed plaintext), n2).
Proof.
  intros Htext HK Hne.
  pose proof (encryptPassword_run plaintext K n HK Hne) as Henc. cbv zeta in Henc.
  eexists _, _, _. split; [apply (random_length n)|].
  split; [apply (random_length n)|]. cbv zeta.
  rewrite <- buffer_app. split; [exact Henc|].
  intros n2 HK2.
  pose proof (decrypt_encrypt_text laws plaintext K K n _ _ n2 Htext HK Hne
                HK2 Hne eq_refl Henc) as Hdec.
  destruct (Js.isWellFormed plaintext) eqn:Hw; [|exact Hdec].
  rewrite toWellFormed_well_formed in Hdec by exact Hw. exact Hdec.
Qed.

End CodecClaims.

(** Round trip of the password ["p"] under the sample master key. *)
Lemma decrypt_encrypt_roundtrip_witness :
  let n := Sample.process (Some Sample.master_key)
             (Sample.railway (Throw "unused") [] (Return tt)) in
  Js.is_string "p" = true /\
  ENCRYPTION_KEY (env n) = Some Sample.master_key /\
  Sample.master_key <> "" /\
  exists token n1,
    Crypto.encryptPassword (L := Fake.crypto) "p" n = (Return token, n1) /\
    Crypto.decryptPassword (L := Fake.crypto) token n1 = (Return "p", n1).
Proof.
  intros n.
  assert (HK : ENCRYPTION_KEY (env n) = Some Sample.master_key) by reflexivity.
  assert (Hne : Sample.master_key <> "") by discriminate.
  split; [reflexivity|]. split; [exact HK|]. split; [exact Hne|].
  destruct (decrypt_encrypt_roundtrip (L := Fake.crypto) fake_laws "p"
              Sample.master_key n eq_refl HK Hne)
    as (salt & iv & n1 & _ & _ & Henc & Hdec).
  eexists _, n1. split; [exact Henc|].
  apply Hdec.
  rewrite (encryptPassword_run (L := Fake.crypto) "p" _ n HK Hne) in Henc.
  apply (f_equal snd) in Henc. simpl in Henc. subst n1. reflexivity.
Defined.

(** C3, as stated, fails for a plaintext with a lone surrogate: under the
    sample master key the token of the string U+D800 decrypts to U+FFFD. *)
Lemma roundtrip_loses_lone_surrogate :
  let n := Sample.process (Some Sample.master_key)
             (Sample.railway (Throw "unused") [] (Return tt)) in
  Js.is_string lone_surrogate = true /\
  exists token n1,
    Crypto.encryptPassword (L := Fake.crypto) lone_surrogate n =
      (Return token, n1) /\
    Crypto.decryptPassword (L := Fake.crypto) token n1 =
      (Return Js.replacement, n1) /\
    Js.replacement <> lone_surrogate.
Proof.
  intros n. split; [reflexivity|].
  eexists _, _. split; [reflexivity|]. split; [reflexivity|discriminate].
Qed.

Section Tampering.

Context {L : NodeCrypto}.
Hypothesis laws : NodeCryptoLaws L.
Hypothesis authenticates : NodeCryptoAuthenticates L.

Lemma flip_bit_changes pos bit (b : Buffer.t) :
  (pos < length b)%nat -> (bit < 8)%nat -> flip_bit pos bit b <> b.
Proof.
  intros Hpos Hbit Heq.
  destruct (lookup_lt_is_Some_2 b pos Hpos) as [x Hx].
  pose proof (list_lookup_alter_eq (flip_byte bit) b pos) as Hl.
  change (alter (flip_byte bit) pos b) with (flip_bit pos bit b) in Hl.
  rewrite Heq, Hx in Hl.
  injection Hl as Hl. symmetry in Hl. by apply flip_byte_changes in Hl.
Qed.

Lemma flip_bit_in_tag salt iv tag data pos bit :
  length salt = Crypto.SALT_LENGTH -> length iv = Crypto.IV_LENGTH ->
  length tag = Crypto.TAG_LENGTH ->
  (80 <= pos < 96)%nat ->
  flip_bit pos bit (Buffer.concat [salt; iv; tag; data]) =
  Buffer.concat [salt; iv; flip_bit (pos - 80) bit tag; data].
Proof.
  intros Hs Hi Ht Hpos. rewrite !buffer_app. unfold flip_bit.
  unfold Crypto.SALT_LENGTH, Crypto.IV_LENGTH, Crypto.TAG_LENGTH in *.
  rewrite alter_app_r_alt by lia. f_equal.
  rewrite alter_app_r_alt by lia. f_equal.
  rewrite alter_app_l by lia. do 2 f_equal. lia.
Qed.

Lemma flip_bit_in_data salt iv tag data pos bit :
  length salt = Crypto.SALT_LENGTH -> length iv = Crypto.IV_LENGTH ->
  length tag = Crypto.TAG_LENGTH ->
  (96 <= pos)%nat ->
  flip_bit pos bit (Buffer.concat [salt; iv; tag; data]) =
  Buffer.concat [salt; iv; tag; flip_bit (pos - 96) bit data].
Proof.
  intros Hs Hi Ht Hpos. rewrite !buffer_app. unfold flip_bit.
  unfold Crypto.SALT_LENGTH, Crypto.IV_LENGTH, Crypto.TAG_LENGTH in *.
  rewrite alter_app_r_alt by lia. f_equal.
  rewrite alter_app_r_alt by lia. f_equal.
  rewrite alter_app_r_alt by lia. do 2 f_equal. lia.
Qed.

(** A token whose tag is not the one encryption computed is rejected. *)
Lemma wrong_tag_rejected plaintext K n salt iv tag :
  ENCRYPTION_KEY (env n) = Some K -> K <> "" ->
  length salt = Crypto.SALT_LENGTH -> length iv = Crypto.IV_LENGTH ->
  length tag = Crypto.TAG_LENGTH ->
  let sealed := gcm_encrypt (Crypto.deriveKey salt K) iv
                  (Buffer.from_utf8 plaintext) in
  tag <> snd sealed ->
  fst (Crypto.decryptPassword
         (to_base64 (Buffer.concat [salt; iv; tag; fst sealed])) n)
  = Throw "Failed to decrypt password".
Proof.
  intros HK Hne Hs Hi Ht sealed Hneq.
  rewrite (decryptPassword_fields laws _ _ _ _ K n HK Hne Hs Hi Ht).
  destruct (gcm_decrypt _ _ _ _) as [decrypted|] eqn:Hdec; [|reflexivity].
  exfalso. apply Hneq. symmetry.
  exact (gcm_tag_verified L laws _ _ _ _ _ _ Hdec Ht eq_refl).
Qed.

(** A token whose ciphertext has one bit flipped is rejected. *)
Lemma flipped_data_rejected plaintext K n salt iv pos bit :
  ENCRYPTION_KEY (env n) = Some K -> K <> "" ->
  length salt = Crypto.SALT_LENGTH -> length iv = Crypto.IV_LENGTH ->
  let sealed := gcm_encrypt (Crypto.deriveKey salt K) iv
                  (Buffer.from_utf8 plaintext) in
  (pos < length (fst sealed))%nat -> (bit < 8)%nat ->
  fst (Crypto.decryptPassword
         (to_base64 (Buffer.concat
                       [salt; iv; snd sealed; flip_bit pos bit (fst sealed)])) n)
  = Throw "Failed to decrypt password".
Proof.
  intros HK Hne Hs Hi sealed Hpos Hbit. subst sealed.
  rewrite (decryptPassword_fields laws _ _ _ _ K n HK Hne Hs Hi
             (gcm_tag_length L laws _ _ _)).
  destruct (lookup_lt_is_Some_2 _ _ Hpos) as [old Hold].
  pose proof (gcm_change_detected L authenticates _ _ _ (flip_byte bit) pos old
                Hold (flip_byte_changes bit old Hbit)) as Hrej.
  destruct (gcm_decrypt _ _ _ _) as [decrypted|] eqn:Hdec; [|reflexivity].
  discriminate Hrej.
Qed.

(** What a token decrypts to was encrypted to it. *)
Lemma decryptPassword_sound token K n returned :
  ENCRYPTION_KEY (env n) = Some K -> K <> "" ->
  fst (Crypto.decryptPassword token n) = Return returned ->
  let b := from_base64 token in
  (96 <= length b)%nat ->
  exists decrypted,
    returned = Buffer.to_utf8 decrypted /\
    gcm_encrypt (Crypto.deriveKey (salt_of b) K) (iv_of b) decrypted =
    (data_of b, tag_of b).
Proof.
  intros HK Hne Hret b Hlen.
  rewrite (decryptPassword_run token K n HK Hne) in Hret. fold b in Hret.
  destruct (gcm_decrypt _ _ _ _) as [decrypted|] eqn:Hdec; [|discriminate].
  exists decrypted. split; [simpl in Hret; congruence|].
  apply (gcm_decrypt_sound L authenticates _ _ _ _ _ Hdec).
  clearbody b. unfold tag_of, Buffer.slice. rewrite length_take, length_drop.
  unfold Crypto.SALT_LENGTH, Crypto.IV_LENGTH, Crypto.TAG_LENGTH. lia.
Qed.

(** With the master key set, [decryptPassword] returns or throws its one
    error. *)
Lemma decryptPassword_outcome token K n :
  ENCRYPTION_KEY (env n) = Some K -> K <> "" ->
  fst (Crypto.decryptPassword token n) = Throw "Failed to decrypt password" \/
  exists returned, fst (Crypto.decryptPassword token n) = Return returned.
Proof.
  intros HK Hne. rewrite (decryptPassword_run token K n HK Hne). cbv zeta.
  destruct (gcm_decrypt _ _ _ _); [right; eexists|left]; reflexivity.
Qed.

(** C4, as the code has it.  Under a master key that is set:
    a token made under the key is rejected, with the one error of
    [decryptPassword], once any one bit of its tag or of its ciphertext
    is flipped; every token of 96 bytes or more is rejected unless its
    ciphertext and tag are those that encryption gives, for the plaintext
    returned, under the key derived from the master key and the salt of
    the token; so a token made under another master key is rejected
    unless the two derived keys give the same ciphertext and the same
    tag. *)
Theorem decryptPassword_rejects K n :
  ENCRYPTION_KEY (env n) = Some K -> K <> "" ->
  (forall plaintext m token m1 pos bit,
      ENCRYPTION_KEY (env m) = Some K ->
      Crypto.encryptPassword plaintext m = (Return token, m1) ->
      (80 <= pos < length (from_base64 token))%nat -> (bit < 8)%nat ->
      fst (Crypto.decryptPassword
             (to_base64 (flip_bit pos bit (from_base64 token))) n)
      = Throw "Failed to decrypt password") /\
  (forall token,
      let b := from_base64 token in
      (96 <= length b)%nat ->
      fst (Crypto.decryptPassword token n) = Throw "Failed to decrypt password" \/
      exists decrypted,
        fst (Crypto.decryptPassword token n) = Return (Buffer.to_utf8 decrypted) /\
        gcm_encrypt (Crypto.deriveKey (salt_of b) K) (iv_of b) decrypted =
        (data_of b, tag_of b)) /\
  (forall K' plaintext m token m1,
      ENCRYPTION_KEY (env m) = Some K' -> K' <> "" ->
      Crypto.encryptPassword plaintext m = (Return token, m1) ->
      let salt := salt_of (from_base64 token) in
      let iv := iv_of (from_base64 token) in
      fst (Crypto.decryptPassword token n) = Throw "Failed to decrypt password" \/
      exists decrypted,
        fst (Crypto.decryptPassword token n) = Return (Buffer.to_utf8 decrypted) /\
        gcm_encrypt (Crypto.deriveKey salt K) iv decrypted =
        gcm_encrypt (Crypto.deriveKey salt K') iv (Buffer.from_utf8 plaintext)).
Proof.
  intros HK Hne. split; [|split].
  - intros plaintext m token m1 pos bit HKm Henc Hpos Hbit.
    rewrite (encryptPassword_run plaintext K m HKm Hne) in Henc.
    cbv zeta in Henc. apply returned_value in Henc. subst token.
    rewrite (from_to_base64 L laws) in *.
    destruct (decide (pos < 96)%nat) as [Htag|Hdata].
    + rewrite flip_bit_in_tag; try apply random_length;
        [|apply (gcm_tag_length L laws) | lia].
      apply wrong_tag_rejected; try assumption; try apply random_length.
      * unfold flip_bit. rewrite length_alter. apply (gcm_tag_length L laws).
      * apply flip_bit_changes; [|exact Hbit].
        rewrite (gcm_tag_length L laws). lia.
    + rewrite flip_bit_in_data; try apply random_length;
        [|apply (gcm_tag_length L laws) | lia].
      apply flipped_data_rejected; try assumption; try apply random_length.
      rewrite buffer_app, !length_app, !random_length,
        (gcm_tag_length L laws) in Hpos.
      unfold Crypto.SALT_LENGTH, Crypto.IV_LENGTH in *. lia.
  - intros token b Hlen.
    destruct (decryptPassword_outcome token K n HK Hne) as [Hrej|[returned Hret]];
      [left; exact Hrej | right].
    destruct (decryptPassword_sound token K n returned HK Hne Hret Hlen)
      as (decrypted & -> & Hsealed).
    exists decrypted. split; [exact Hret | exact Hsealed].
  - intros K' plaintext m token m1 HKm Hne' Henc salt iv.
    destruct (decryptPassword_outcome token K n HK Hne) as [Hrej|[returned Hret]];
      [left; exact Hrej | right].
    rewrite (encryptPassword_run plaintext K' m HKm Hne') in Henc.
    cbv zeta in Henc. apply returned_value in Henc.
    destruct (decryptPassword_sound token K n returned HK Hne Hret)
      as (decrypted & -> & Hsealed).
    { subst token. rewrite (from_to_base64 L laws), buffer_app, !length_app,
        !random_length, (gcm_tag_length L laws).
      unfold Crypto.SALT_LENGTH, Crypto.IV_LENGTH. lia. }
    exists decrypted. split; [exact Hret|].
    subst salt iv. rewrite Hsealed. subst token.
    rewrite (from_to_base64 L laws).
    rewrite salt_of_buffer, iv_of_buffer, tag_of_buffer, data_of_buffer;
      try apply random_length; try apply (gcm_tag_length L laws).
    symmetry. apply surjective_pairing.
Qed.

(** Master keys that differ as strings but not as hexadecimal numbers are
    the same key: each decrypts the tokens of the other. *)
Lemma decrypt_under_same_hex plaintext K K' n token n1 n2 :
  Js.isWellFormed plaintext = true ->
  ENCRYPTION_KEY (env n) = Some K -> K <> "" ->
  ENCRYPTION_KEY (env n2) = Some K' -> K' <> "" ->
  Buffer.from_hex K' = Buffer.from_hex K ->
  Crypto.encryptPassword plaintext n = (Return token, n1) ->
  fst (Crypto.decryptPassword token n2) = Return plaintext.
Proof.
  intros Htext HK Hne HK' Hne' Hhex Henc.
  by rewrite (decrypt_encrypt_same_hex laws plaintext K K' n token n1 n2).
Qed.

End Tampering.

(** The stored sample password is rejected with the lowest bit of the
    first byte of its ciphertext flipped. *)
Lemma decryptPassword_rejects_witness :
  let n := Sample.process (Some Sample.master_key)
             (Sample.railway (Throw "unused") [] (Return tt)) in
  ENCRYPTION_KEY (env n) = Some Sample.master_key /\
  Sample.master_key <> "" /\
  fst (Crypto.decryptPassword (L := Fake.crypto)
         (to_base64 (NodeCrypto := Fake.crypto)
            (flip_bit 96 0 (from_base64 (NodeCrypto := Fake.crypto)
                              Sample.stored_password))) n)
  = Throw "Failed to decrypt password".
Proof.
  intros n.
  assert (HK : ENCRYPTION_KEY (env n) = Some Sample.master_key) by reflexivity.
  assert (Hne : Sample.master_key <> "") by discriminate.
  split; [exact HK|]. split; [exact Hne|].
  refine (proj1 (decryptPassword_rejects (L := Fake.crypto) fake_laws
                   fake_authenticates Sample.master_key n HK Hne)
            "p" n Sample.stored_password
            (with_drawn (drawn n + Crypto.SALT_LENGTH + Crypto.IV_LENGTH) n)
            96%nat 0%nat HK _ _ _); [|vm_compute; lia|lia].
  vm_compute. reflexivity.
Defined.

(** C4, as stated, fails.  The master key is read as hexadecimal digits
    up to the first pair of characters that is not one.  Of a key that is
    the base64 text of 32 bytes, which the specification allows, this
    keeps a few bytes or none: the two keys below, base64 texts of
    different bytes, are one key, and the token made under the first is
    decrypted under the second, without an error. *)
Lemma decrypt_accepts_other_key :
  let first := "dpLDrTVAu4A8Ags67mbNiIcSMjTqDG5xQ8Ct1z/0Me0=" in
  let second := "P8TM/nRYcOLA2Z9x8w/wZWyN7dQcwdfT03aw2+aF4vM=" in
  let made := Sample.process (Some first)
                (Sample.railway (Throw "unused") [] (Return tt)) in
  let read := Sample.process (Some second)
                (Sample.railway (Throw "unused") [] (Return tt)) in
  first <> second /\
  exists token made',
    Crypto.encryptPassword (L := Fake.crypto) "p" made = (Return token, made') /\
    fst (Crypto.decryptPassword (L := Fake.crypto) token read) = Return "p".
Proof.
  split; [discriminate|].
  eexists _, _. split; vm_compute; reflexivity.
Qed.

(* ===================================================================== *)
(** * The ledger during [deploy] *)
(* ===================================================================== *)

Section Runs.

Import Database Router.

Lemma returns_with_bind {S A B} (P : B -> Prop) (m : M S A) (k : A -> M S B) :
  (forall a, returns_with P (k a)) -> returns_with P (bind m k).
Proof.
  intros Hk s b s'. unfold bind.
  destruct (m s) as [[a|e] s1]; [apply Hk | discriminate].
Qed.

Lemma returns_with_ret {S A} (P : A -> Prop) (a : A) :
  P a -> returns_with P (@ret S A a).
Proof. intros H s b s' [= <- _]. exact H. Qed.

Lemma returns_with_try_catch {S A} (P : A -> Prop) (body : M S A) handler :
  returns_with P body -> (forall e, returns_with P (handler e)) ->
  returns_with P (try_catch body handler).
Proof.
  intros Hb Hh s a s'. unfold try_catch.
  destruct (body s) as [[b|e] s1] eqn:Hrun.
  - intros [= <- <-]. eapply Hb, Hrun.
  - apply Hh.
Qed.

Lemma deployClient_result d config :
  returns_with
    (fun result =>
       DeploymentResult.success result = true \/
       DeploymentResult.success result = false /\
       exists message, DeploymentResult.error result = Some message)
    (ClientDeployer.deployClient d config).
Proof.
  unfold ClientDeployer.deployClient.
  apply returns_with_bind; intros _. apply returns_with_try_catch.
  - repeat (apply returns_with_bind; intros).
    apply returns_with_ret. left. reflexivity.
  - intros e. apply returns_with_bind; intros _.
    apply returns_with_ret. right. simpl. eauto.
Qed.

(** No exception leaves [deployClient]: it returns a result, which either
    reports success or carries the message of the error that was caught. *)
Lemma deployClient_returns d config n :
  exists result n',
    ClientDeployer.deployClient d config n = (Return result, n') /\
    (DeploymentResult.success result = true \/
     DeploymentResult.success result = false /\
     exists message, DeploymentResult.error result = Some message).
Proof.
  assert (exists result n',
             ClientDeployer.deployClient d config n = (Return result, n'))
    as (result & n' & Hrun).
  { unfold ClientDeployer.deployClient, bind at 1, console_write at 1, modify at 1.
    unfold try_catch at 1.
    match goal with
    | |- context [match ?m ?s with | pair _ _ => _ end] =>
        destruct (m s) as [[result|e] n1]
    end; eexists _, _; reflexivity. }
  exists result, n'. split; [exact Hrun|].
  eapply deployClient_result, Hrun.
Qed.

Lemma in_node_run {A} (m : M Node A) w :
  in_node m w = (fst (m (node w)), with_node (snd (m (node w))) w).
Proof. unfold in_node, lift. destruct (m (node w)); reflexivity. Qed.

Lemma with_node_node w : with_node (node w) w = w.
Proof. destruct w; reflexivity. Qed.

Lemma getClient_found cid w c :
  clients (db w) !! cid = Some c ->
  getClient cid w = (Return (Some (with_config c cid (db w))), w).
Proof. intros H. unfold getClient, bind, gets. rewrite H. reflexivity. Qed.

Lemma createDeployment_fresh ins w c :
  deployments (db w) !! Database.id ins = None ->
  clients (db w) !! Database.clientId ins = Some c ->
  createDeployment ins w =
  (Return (new_row ins (clock (node w))),
   wrote (inserted (new_row ins (clock (node w)))) w).
Proof.
  intros Hf Hc. unfold createDeployment, bind, gets. rewrite in_node_run. simpl.
  rewrite Hf, Hc. destruct w; reflexivity.
Qed.

Lemma createRailwayApiClient_node n :
  snd (RailwayApi.createRailwayApiClient n) = n.
Proof.
  unfold RailwayApi.createRailwayApiClient, bind, gets.
  destruct (Js.truthy _); reflexivity.
Qed.

Context {L : NodeCrypto}.

(** [decryptPassword] sends nothing and takes no time. *)
Lemma decryptPassword_quiet token n :
  requests (snd (Crypto.decryptPassword token n)) = requests n /\
  clock (snd (Crypto.decryptPassword token n)) = clock n.
Proof.
  unfold Crypto.decryptPassword, Crypto.getEncryptionKey, try_catch, bind, gets.
  destruct (Js.truthy _); simpl; [|auto].
  destruct (gcm_decrypt _ _ _ _); simpl; auto.
Qed.

Lemma clientConfig_of_run client w :
  exists o n, clientConfig_of client w = (o, with_node n w) /\
              requests n = requests (node w) /\ clock n = clock (node w).
Proof.
  unfold clientConfig_of. destruct (lendpro client) as [l|].
  - unfold bind. rewrite in_node_run.
    destruct (decryptPassword_quiet (ClientLendproConfig.password l) (node w))
      as [Hr Hc].
    destruct (Crypto.decryptPassword _ (node w)) as [[p|e] n]; simpl in *;
      eexists _, n; (split; [reflexivity | split; assumption]).
  - eexists _, (node w). rewrite with_node_node.
    split; [reflexivity | split; reflexivity].
Qed.

Lemma updateClient_status cid s w :
  updateClient cid (Client.only_status s) w =
  (Return tt, wrote (client_set cid (Client.only_status s)) w).
Proof. reflexivity. Qed.

Lemma updateDeployment_building nid w :
  updateDeployment nid mark_building w =
  (Return tt, wrote (deployment_set nid mark_building) w).
Proof. reflexivity. Qed.






(** How [deploy] runs for a client that exists, with a new identifier. *)
Lemma deploy_run cid nid w c :
  clients (db w) !! cid = Some c ->
  deployments (db w) !! nid = None ->
  exists r w', Router.deploy cid nid w = (r, w') /\
               attempt_ends cid nid (attempt_started cid nid c w) r w'.
Proof.
  intros Hc Hf. unfold Router.deploy.
  unfold bind at 1. rewrite (getClient_found _ _ _ Hc).
  unfold bind at 1.
  rewrite (createDeployment_fresh
             (new_attempt nid cid (Database.client (with_config c cid (db w))))
             w c Hf Hc).
  unfold try_catch.
  unfold bind at 1. rewrite updateClient_status.
  unfold bind at 1. rewrite updateDeployment_building.
  change (client (with_config c cid (db w))) with c.
  fold (attempt_started cid nid c w). set (w3 := attempt_started cid nid c w).
  unfold bind at 1.
  rewrite in_node_run, createRailwayApiClient_node, with_node_node.
  destruct (fst (RailwayApi.createRailwayApiClient (node w3))) as [rc|e].
  2:{ eexists _, _. split; [reflexivity|].
      rewrite <- (with_node_node w3) at 2 3.
      apply ends_aborted; reflexivity. }
  unfold bind at 1.
  destruct (clientConfig_of_run (with_config c cid (db w)) w3)
    as (o & n & -> & Hreq & Hclk).
  destruct o as [config|e].
  2:{ eexists _, _. split; [reflexivity|].
      exact (ends_aborted cid nid w3 n e Hreq Hclk). }
  unfold bind at 1. rewrite in_node_run.
  destruct (deployClient_returns (ClientDeployer.new rc None None) config
              (node (with_node n w3))) as (result & n4 & Hd & _).
  rewrite Hd. cbn [fst snd].
  destruct (DeploymentResult.success result) eqn:Hs.
  - eexists _, _. split; [reflexivity|].
    exact (ends_succeeded cid nid w3 _ _ _ n4 result Hd Hs).
  - eexists _, _. split; [reflexivity|].
    exact (ends_failed cid nid w3 _ _ _ n4 result Hd Hs).
Qed.

(** Reading the tables after a statement. *)
Lemma lookup_deployment_set nid u d :
  deployments (deployment_set nid u d) !! nid
  = Deployment.apply u <$> deployments d !! nid.
Proof. unfold deployment_set. simpl. apply lookup_alter_eq. Qed.

Lemma lookup_deployment_set_ne nid id0 u d :
  nid <> id0 ->
  deployments (deployment_set nid u d) !! id0 = deployments d !! id0.
Proof. intros H. unfold deployment_set. simpl. by apply lookup_alter_ne. Qed.

Lemma lookup_new_row nid cid c t d :
  deployments (inserted (new_row (new_attempt nid cid c) t) d) !! nid
  = Some (new_row (new_attempt nid cid c) t).
Proof. unfold inserted. simpl. apply lookup_insert_eq. Qed.

Lemma lookup_new_row_ne nid cid c t id0 d :
  nid <> id0 ->
  deployments (inserted (new_row (new_attempt nid cid c) t) d) !! id0
  = deployments d !! id0.
Proof. intros H. unfold inserted. simpl. by apply lookup_insert_ne. Qed.

Lemma deployments_client_set cid u d :
  deployments (client_set cid u d) = deployments d.
Proof. reflexivity. Qed.

Lemma deployments_logged l d : deployments (logged l d) = deployments d.
Proof. reflexivity. Qed.

Lemma lookup_client_set cid u d :
  clients (client_set cid u d) !! cid = Client.apply u <$> clients d !! cid.
Proof. unfold client_set. simpl. apply lookup_alter_eq. Qed.

Lemma clients_deployment_set nid u d :
  clients (deployment_set nid u d) = clients d.
Proof. reflexivity. Qed.

Lemma clients_inserted r d : clients (inserted r d) = clients d.
Proof. reflexivity. Qed.

Lemma clients_logged l d : clients (logged l d) = clients d.
Proof. reflexivity. Qed.

End Runs.

Ltac ledger :=
  cbn [history db node Database.wrote with_node attempt_started];
  repeat first
    [ rewrite deployments_client_set
    | rewrite deployments_logged
    | rewrite clients_deployment_set
    | rewrite clients_inserted
    | rewrite clients_logged
    | rewrite lookup_deployment_set
    | rewrite lookup_client_set
    | rewrite lookup_new_row
    | rewrite lookup_deployment_set_ne by assumption
    | rewrite lookup_new_row_ne by assumption ].

Section LedgerClaims.

Import Database Router.
Context {L : NodeCrypto}.

Ltac consistent :=
  eexists; split; [reflexivity|];
  unfold completion_consistent; simpl; split; intros; solve [reflexivity | discriminate].

(** C6, as the code has it.  Over one attempt the ledger row takes the
    status values [pending], [building], then [success] if [deploy]
    returns and [failed] if it throws: the row is never set to
    [deploying], which is a status of the client only.  In every state
    of the database during the attempt, [completedAt] of the row is null
    exactly when its status is not terminal. *)
Theorem ledger_status_sequence cid nid w c :
  clients (db w) !! cid = Some c ->
  deployments (db w) !! nid = None ->
  exists r w' new,
    Router.deploy cid nid w = (r, w') /\
    history w' = (history w ++ new)%list /\
    values_taken (statuses_of nid new) =
      [Some Deployment.pending; Some Deployment.building;
       Some (match r with
             | Return _ => Deployment.success
             | Throw _ => Deployment.failed
             end)] /\
    Forall (fun d => exists row,
                deployments d !! nid = Some row /\ completion_consistent row) new.
Proof.
  intros Hc Hf.
  destruct (deploy_run cid nid w c Hc Hf) as (r & w' & Hrun & Hends).
  exists r, w'. inversion Hends; subst; clear Hends;
    (eexists; split; [exact Hrun|]; split;
     [cbn [history db node wrote with_node attempt_started];
      rewrite <- ?app_assoc; reflexivity|]);
    (split;
     [unfold statuses_of; cbn [map app]; ledger; reflexivity
     |cbn [app]; repeat (apply List.Forall_cons; [ledger; consistent|]);
      apply List.Forall_nil]).
Qed.


(** C1, as the code has it.  [deploy] does not look at the attempts
    already in the ledger: with another row [id0] there, in whatever
    status, it inserts its own row as [pending] and takes it to
    [building]; no state of the database during the call changes the row
    [id0], which is the same at the end. *)
Theorem deploy_leaves_other_attempts cid nid w c id0 row0 :
  clients (db w) !! cid = Some c ->
  deployments (db w) !! nid = None ->
  deployments (db w) !! id0 = Some row0 ->
  exists r w' d1 d2 d3 rest,
    Router.deploy cid nid w = (r, w') /\
    history w' = (history w ++ d1 :: d2 :: d3 :: rest)%list /\
    Deployment.status_ <$> deployments d1 !! nid = Some Deployment.pending /\
    Deployment.status_ <$> deployments d3 !! nid = Some Deployment.building /\
    Forall (fun d => deployments d !! id0 = Some row0) (d1 :: d2 :: d3 :: rest) /\
    deployments (db w') !! id0 = Some row0.
Proof.
  intros Hc Hf H0.
  assert (Hne : nid <> id0) by congruence.
  destruct (deploy_run cid nid w c Hc Hf) as (r & w' & Hrun & Hends).
  exists r, w'. inversion Hends; subst; clear Hends;
    (eexists _, _, _, _; split; [exact Hrun|]; split;
     [cbn [history db node wrote with_node attempt_started];
      rewrite <- ?app_assoc; reflexivity|]);
    (split; [ledger; reflexivity|]); (split; [ledger; reflexivity|]);
    (split; [repeat (apply List.Forall_cons; [ledger; exact H0|]);
             apply List.Forall_nil
            | ledger; exact H0]).
Qed.

End LedgerClaims.

(* ===================================================================== *)
(** * Deleting a client *)
(* ===================================================================== *)

Section Delete.

Import Database Router.

Lemma filter_not_of {R} (clientId_of : R -> string) cid (table : list R) :
  List.filter (fun r => String.eqb (clientId_of r) cid)
    (not_of clientId_of cid table) = [].
Proof.
  unfold not_of. induction table as [|r table IH]; [reflexivity|].
  simpl. destruct (String.eqb (clientId_of r) cid) eqn:Hr; simpl; [exact IH|].
  rewrite Hr. exact IH.
Qed.

Lemma related_rows_without_client cid d :
  related_rows cid (without_client cid d) = 0%nat.
Proof.
  unfold related_rows, without_client. simpl.
  rewrite !filter_not_of. simpl.
  apply map_size_empty_iff, map_empty. intros i.
  apply map_lookup_filter_None. right. intros x Hx Hp.
  apply map_lookup_filter_Some in Hx as [_ Hnot]. exact (Hnot Hp).
Qed.

(** C9.  For a client with a remote project whose deletion fails,
    [delete] still returns [{ success: true }]: the error is written to
    the console and goes no further; the client row is deleted, no row of
    a child table is left for the client, and the deletion is logged. *)
Theorem delete_survives_remote_failure cid w c pid token e :
  clients (db w) !! cid = Some c ->
  Client.railwayProjectId c = Some pid -> pid <> "" ->
  RAILWAY_API_TOKEN (env (node w)) = Some token -> token <> "" ->
  projectDelete (platform (node w)) pid = Throw e ->
  exists w',
    Router.delete cid w = (Return true, w') /\
    clients (db w') !! cid = None /\
    related_rows cid (db w') = 0%nat /\
    requests (node w') = (requests (node w) ++ [ProjectDelete pid])%list /\
    console (node w') =
      (console (node w) ++
       [ ("[Deployer] Deleting project: " ++ pid)%string;
         ("[Railway API] Query failed: " ++ e)%string;
         ("Failed to delete Railway project: " ++ e)%string ])%list /\
    auditLog (db w') = (auditLog (db w) ++ [delete_log cid c])%list.
Proof.
  intros Hc Hpid Hne Htoken Hnet Hdel.
  unfold Router.delete. unfold bind at 1. rewrite (getClient_found _ _ _ Hc).
  cbn [client with_config]. rewrite Hpid, (truthy_key pid Hne).
  unfold bind at 1, try_catch at 1, bind at 1.
  rewrite in_node_run.
  unfold RailwayApi.createRailwayApiClient at 1 2, bind at 1 2, gets at 1 2.
  rewrite Htoken, (truthy_key token Hnet). cbn [fst snd ret default].
  rewrite with_node_node, in_node_run.
  unfold ClientDeployer.deleteClient, RailwayApi.deleteProject, RailwayApi.query,
    try_catch, bind, console_write, modify, throw.
  cbn [fst snd with_console with_requests platform ClientDeployer.railwayClient
       ClientDeployer.new].
  unfold Datatypes.id. rewrite Hdel. cbn [fst snd].
  eexists. split; [reflexivity|].
  cbn [snd db node wrote with_node write modify deleteClient logAdminAction].
  split; [apply lookup_delete_eq|].
  split; [apply related_rows_without_client|].
  split; [reflexivity|]. split; [|reflexivity].
  cbn [console with_console with_requests]. rewrite <- !app_assoc. reflexivity.
Qed.

End Delete.

(* ===================================================================== *)
(** * Runs on the sample world *)
(* ===================================================================== *)

Lemma ledger_status_sequence_witness :
  let w := Sample.world Sample.succeeding Sample.idle in
  clients (db w) !! "c1" = Some (Sample.acme Client.inactive None) /\
  deployments (db w) !! "d2" = None /\
  exists r w' new,
    Router.deploy (L := Fake.crypto) "c1" "d2" w = (r, w') /\
    history w' = (history w ++ new)%list /\
    values_taken (statuses_of "d2" new) =
      [Some Deployment.pending; Some Deployment.building;
       Some (match r with
             | Return _ => Deployment.success
             | Throw _ => Deployment.failed
             end)] /\
    Forall (fun d => exists row,
                deployments d !! "d2" = Some row /\ completion_consistent row) new.
Proof.
  intros w.
  assert (Hc : clients (db w) !! "c1" = Some (Sample.acme Client.inactive None))
    by (vm_compute; reflexivity).
  assert (Hf : deployments (db w) !! "d2" = None) by (vm_compute; reflexivity).
  split; [exact Hc|]. split; [exact Hf|].
  exact (ledger_status_sequence (L := Fake.crypto) "c1" "d2" w _ Hc Hf).
Defined.

(** C6, as stated, fails: in scenario B of the specification the row goes
    from [building] to [success]; the values it takes are a prefix of
    neither sequence of the specification, which pass through
    [deploying]. *)
Lemma ledger_skips_deploying :
  let w' := snd (Router.deploy (L := Fake.crypto) "c1" "d2"
                   (Sample.world Sample.succeeding Sample.idle)) in
  values_taken (statuses_of "d2" (history w')) =
    [Some Deployment.pending; Some Deployment.building; Some Deployment.success] /\
  Forall (fun allowed =>
            ~ values_taken (statuses_of "d2" (history w')) `prefix_of` allowed)
    spec_sequences.
Proof.
  intros w'.
  assert (H : values_taken (statuses_of "d2" (history w')) =
    [Some Deployment.pending; Some Deployment.building; Some Deployment.success])
    by (vm_compute; reflexivity).
  split; [exact H|]. rewrite H.
  repeat (apply List.Forall_cons; [intros [k Hk]; simpl in Hk; discriminate Hk|]).
  apply List.Forall_nil.
Qed.



Lemma deploy_leaves_other_attempts_witness :
  let w := Sample.world Sample.succeeding Sample.busy in
  clients (db w) !! "c1" = Some (Sample.acme Client.deploying None) /\
  deployments (db w) !! "d2" = None /\
  deployments (db w) !! "d1" = Some Sample.first_attempt /\
  exists r w' d1 d2 d3 rest,
    Router.deploy (L := Fake.crypto) "c1" "d2" w = (r, w') /\
    history w' = (history w ++ d1 :: d2 :: d3 :: rest)%list /\
    Deployment.status_ <$> deployments d1 !! "d2" = Some Deployment.pending /\
    Deployment.status_ <$> deployments d3 !! "d2" = Some Deployment.building /\
    Forall (fun d => deployments d !! "d1" = Some Sample.first_attempt)
      (d1 :: d2 :: d3 :: rest) /\
    deployments (db w') !! "d1" = Some Sample.first_attempt.
Proof.
  intros w.
  assert (Hc : clients (db w) !! "c1" = Some (Sample.acme Client.deploying None))
    by (vm_compute; reflexivity).
  assert (Hf : deployments (db w) !! "d2" = None) by (vm_compute; reflexivity).
  assert (H0 : deployments (db w) !! "d1" = Some Sample.first_attempt)
    by (vm_compute; reflexivity).
  split; [exact Hc|]. split; [exact Hf|]. split; [exact H0|].
  exact (deploy_leaves_other_attempts (L := Fake.crypto) "c1" "d2" w _ "d1" _
           Hc Hf H0).
Defined.

(** C1, as stated, fails: with the first attempt of the client still
    [building], a second [deploy] is not rejected; it runs to the end and
    returns success, and on the way both rows are in flight. *)
Lemma second_deploy_is_not_rejected :
  let w := Sample.world Sample.succeeding Sample.busy in
  let run := Router.deploy (L := Fake.crypto) "c1" "d2" w in
  Deployment.status_ <$> deployments (db w) !! "d1" = Some Deployment.building /\
  (exists result, fst run = Return result /\
                  DeploymentResult.success result = true) /\
  Exists (fun d =>
            Deployment.status_ <$> deployments d !! "d1" = Some Deployment.building /\
            Deployment.status_ <$> deployments d !! "d2" = Some Deployment.building)
    (history (snd run)).
Proof.
  intros w run. split; [vm_compute; reflexivity|]. split.
  - eexists. split; vm_compute; reflexivity.
  - apply List.Exists_exists.
    exists (nth 2 (history (snd run)) (db w)).
    split; [|split; vm_compute; reflexivity].
    apply nth_In. vm_compute. lia.
Qed.

Lemma delete_survives_remote_failure_witness :
  let p := Sample.railway (Return ("prj-1", "lendpro-acme")) []
             (Throw "Railway API Error: project not found") in
  let w := Sample.world p
             (Sample.database (Sample.acme Client.active (Some "prj-1"))
                {[ "d1" := Sample.first_attempt ]}) in
  exists w',
    Router.delete "c1" w = (Return true, w') /\
    clients (db w') !! "c1" = None /\
    related_rows "c1" (db w') = 0%nat /\
    requests (node w') = (requests (node w) ++ [ProjectDelete "prj-1"])%list /\
    console (node w') =
      (console (node w) ++
       [ "[Deployer] Deleting project: prj-1";
         "[Railway API] Query failed: Railway API Error: project not found";
         "Failed to delete Railway project: Railway API Error: project not found" ])%list /\
    auditLog (db w') =
      (auditLog (db w) ++
       [Router.delete_log "c1" (Sample.acme Client.active (Some "prj-1"))])%list.
Proof.
  intros p w.
  refine (delete_survives_remote_failure "c1" w
            (Sample.acme Client.active (Some "prj-1")) "prj-1" "token"
            "Railway API Error: project not found" _ _ _ _ _ _);
    solve [reflexivity | discriminate].
Defined.


(* ===================================================================== *)
(** * More on the variable list *)
(* ===================================================================== *)

Section VariableList.

Import ClientDeployer.

Lemma push_if_app b v vars :
  push_if b v vars = (vars ++ (if b then [v] else []))%list.
Proof. destruct b; simpl; [reflexivity | by rewrite app_nil_r]. Qed.

(** The list is the ten fixed entries followed by the three groups. *)
Lemma buildEnvironmentVariables_parts config mysqlServiceId :
  buildEnvironmentVariables config mysqlServiceId =
  (base_entries config mysqlServiceId ++ visualizer_entries config
   ++ cart_entries config ++ branding_entries config)%list.
Proof.
  unfold buildEnvironmentVariables, visualizer_entries, cart_entries,
    branding_entries, cart_only, entry_if.
  fold (base_entries config mysqlServiceId).
  generalize (base_entries config mysqlServiceId). intros base.
  destruct (ClientConfig.visualizer config) as [v|],
           (ClientConfig.features config) as [f|],
           (ClientConfig.branding config) as [b|];
    rewrite ?push_if_app; cbn [app]; rewrite <- ?app_assoc, ?app_nil_r;
    reflexivity.
Qed.

Lemma keys_app a b : keys (a ++ b) = (keys a ++ keys b)%list.
Proof. apply map_app. Qed.

Lemma keys_entry_if k setting : keys (entry_if k setting) `sublist_of` [k].
Proof.
  unfold entry_if. destruct (Js.truthy setting); simpl;
    [reflexivity | apply sublist_nil_l].
Qed.

Lemma keys_sublist config mysqlServiceId :
  keys (buildEnvironmentVariables config mysqlServiceId) `sublist_of` all_keys.
Proof.
  rewrite buildEnvironmentVariables_parts, !keys_app.
  unfold all_keys, conditional_keys.
  apply (sublist_app _ _ _
           ["VISUALIZER_ENABLED"; "VISUALIZER_EMBED_CODE"; "AUTOSYNC_API_KEY";
            "CART_ONLY_MODE"; "VITE_PRIMARY_COLOR"; "VITE_SECONDARY_COLOR";
            "VITE_COMPANY_NAME"; "VITE_LOGO_URL"]); [reflexivity|].
  apply (sublist_app _ ["VISUALIZER_ENABLED"; "VISUALIZER_EMBED_CODE";
                         "AUTOSYNC_API_KEY"]).
  { unfold visualizer_entries.
    destruct (ClientConfig.visualizer config) as [v|]; [|apply sublist_nil_l].
    rewrite !keys_app.
    apply (sublist_app _ ["VISUALIZER_ENABLED"]); [reflexivity|].
    apply (sublist_app _ ["VISUALIZER_EMBED_CODE"]); apply keys_entry_if. }
  apply (sublist_app _ ["CART_ONLY_MODE"]).
  { unfold cart_entries. destruct (cart_only config);
      [reflexivity | apply sublist_nil_l]. }
  unfold branding_entries.
  destruct (ClientConfig.branding config) as [b|]; [|apply sublist_nil_l].
  rewrite !keys_app.
  apply (sublist_app _ ["VITE_PRIMARY_COLOR"]); [apply keys_entry_if|].
  apply (sublist_app _ ["VITE_SECONDARY_COLOR"]); [apply keys_entry_if|].
  apply (sublist_app _ ["VITE_COMPANY_NAME"]); apply keys_entry_if.
Qed.

Lemma distinct_NoDup l : distinct l = true -> List.NoDup l.
Proof.
  induction l as [|x r IH]; simpl; [constructor|].
  intros H. apply andb_true_iff in H as [Hx Hr]. constructor; [|auto].
  intros Hin. apply negb_true_iff in Hx.
  assert (existsb (String.eqb x) r = true) as Hex; [|congruence].
  apply existsb_exists. exists x. split; [exact Hin | apply String.eqb_refl].
Qed.

(** X1.  For every configuration the list starts with the same ten entries,
    no key occurs twice in it, and it has at most eighteen entries. *)
Theorem buildEnvironmentVariables_keys_distinct config mysqlServiceId :
  let vars := buildEnvironmentVariables config mysqlServiceId in
  (exists appended, vars = (base_entries config mysqlServiceId ++ appended)%list) /\
  List.NoDup (keys vars) /\
  (10 <= length vars <= 18)%nat.
Proof.
  cbv zeta. pose proof (keys_sublist config mysqlServiceId) as Hsub.
  split; [rewrite buildEnvironmentVariables_parts; eauto|].
  split.
  - apply NoDup_ListNoDup. eapply sublist_NoDup; [|exact Hsub].
    apply NoDup_ListNoDup, distinct_NoDup. vm_compute. reflexivity.
  - split.
    + rewrite buildEnvironmentVariables_parts, length_app. simpl. lia.
    + apply sublist_length in Hsub. unfold keys in Hsub.
      rewrite length_map in Hsub. exact Hsub.
Qed.

Lemma entries_for_app k a b :
  entries_for k (a ++ b) = (entries_for k a ++ entries_for k b)%list.
Proof. apply List.filter_app. Qed.

Lemma entries_for_entry_if k k' setting :
  entries_for k (entry_if k' setting) =
  if String.eqb k' k then entry_if k' setting else [].
Proof.
  unfold entry_if, entries_for. destruct (Js.truthy setting); simpl;
    destruct (String.eqb k' k); reflexivity.
Qed.

Ltac entries_of_parts config :=
  cbv zeta; rewrite buildEnvironmentVariables_parts, !entries_for_app;
  unfold visualizer_entries, cart_entries, branding_entries;
  destruct (ClientConfig.visualizer config) as [v|];
  destruct (cart_only config);
  destruct (ClientConfig.branding config) as [b|];
  rewrite ?entries_for_app, ?entries_for_entry_if;
  simpl; rewrite ?app_nil_r; reflexivity.

Lemma entries_visualizer config mysqlServiceId :
  let vars := buildEnvironmentVariables config mysqlServiceId in
  entries_for "VISUALIZER_ENABLED" vars =
    match ClientConfig.visualizer config with
    | Some v => [var "VISUALIZER_ENABLED"
                   (if ClientConfig.enabled v then "true" else "false")]
    | None => []
    end /\
  entries_for "VISUALIZER_EMBED_CODE" vars =
    match ClientConfig.visualizer config with
    | Some v => entry_if "VISUALIZER_EMBED_CODE" (ClientConfig.embedCode v)
    | None => []
    end /\
  entries_for "AUTOSYNC_API_KEY" vars =
    match ClientConfig.visualizer config with
    | Some v => entry_if "AUTOSYNC_API_KEY" (ClientConfig.autoSyncApiKey v)
    | None => []
    end.
Proof. split; [|split]; entries_of_parts config. Qed.

Lemma entries_branding config mysqlServiceId :
  let vars := buildEnvironmentVariables config mysqlServiceId in
  entries_for "VITE_PRIMARY_COLOR" vars =
    match ClientConfig.branding config with
    | Some b => entry_if "VITE_PRIMARY_COLOR" (ClientConfig.primaryColor b)
    | None => []
    end /\
  entries_for "VITE_SECONDARY_COLOR" vars =
    match ClientConfig.branding config with
    | Some b => entry_if "VITE_SECONDARY_COLOR" (ClientConfig.secondaryColor b)
    | None => []
    end /\
  entries_for "VITE_COMPANY_NAME" vars =
    match ClientConfig.branding config with
    | Some b => entry_if "VITE_COMPANY_NAME" (ClientConfig.companyName b)
    | None => []
    end /\
  entries_for "VITE_LOGO_URL" vars =
    match ClientConfig.branding config with
    | Some b => entry_if "VITE_LOGO_URL" (ClientConfig.logoUrl b)
    | None => []
    end.
Proof. split; [|split; [|split]]; entries_of_parts config. Qed.

(** X2.  Each conditional key is in the list exactly when its setting is
    given: the visualizer flag when a visualizer is configured, embed code,
    sync key and the branding fields when they are not empty, the
    cart-only flag when the mode is on; and it carries the setting. *)
Theorem buildEnvironmentVariables_conditional config mysqlServiceId :
  let vars := buildEnvironmentVariables config mysqlServiceId in
  (entries_for "VISUALIZER_ENABLED" vars =
     match ClientConfig.visualizer config with
     | Some v => [var "VISUALIZER_ENABLED"
                    (if ClientConfig.enabled v then "true" else "false")]
     | None => []
     end /\
   entries_for "VISUALIZER_EMBED_CODE" vars =
     match ClientConfig.visualizer config with
     | Some v => entry_if "VISUALIZER_EMBED_CODE" (ClientConfig.embedCode v)
     | None => []
     end /\
   entries_for "AUTOSYNC_API_KEY" vars =
     match ClientConfig.visualizer config with
     | Some v => entry_if "AUTOSYNC_API_KEY" (ClientConfig.autoSyncApiKey v)
     | None => []
     end) /\
  entries_for "CART_ONLY_MODE" vars =
    (if cart_only config then [var "CART_ONLY_MODE" "true"] else []) /\
  (entries_for "VITE_PRIMARY_COLOR" vars =
     match ClientConfig.branding config with
     | Some b => entry_if "VITE_PRIMARY_COLOR" (ClientConfig.primaryColor b)
     | None => []
     end /\
   entries_for "VITE_SECONDARY_COLOR" vars =
     match ClientConfig.branding config with
     | Some b => entry_if "VITE_SECONDARY_COLOR" (ClientConfig.secondaryColor b)
     | None => []
     end /\
   entries_for "VITE_COMPANY_NAME" vars =
     match ClientConfig.branding config with
     | Some b => entry_if "VITE_COMPANY_NAME" (ClientConfig.companyName b)
     | None => []
     end /\
   entries_for "VITE_LOGO_URL" vars =
     match ClientConfig.branding config with
     | Some b => entry_if "VITE_LOGO_URL" (ClientConfig.logoUrl b)
     | None => []
     end).
Proof.
  split; [apply entries_visualizer|]. split; [|apply entries_branding].
  entries_of_parts config.
Qed.

End VariableList.

(* ===================================================================== *)
(** * More on completion polling *)
(* ===================================================================== *)

Section PollingTrace.

Import RailwayApi ClientDeployer.

Variable d : ClientDeployer.
Variable deploymentId : string.

Ltac trace_end :=
  simpl; rewrite ?app_nil_r;
  repeat (split; [solve [lia | reflexivity | intros; discriminate
                        | intros; reflexivity]|]);
  solve [lia | reflexivity | intros; discriminate | intros; reflexivity].

(** What a run of the loop leaves behind: [p] polls and [s] sleeps. *)
Lemma wait_loop_trace fuel startTime timeout n r n' :
  wait_loop fuel d deploymentId startTime timeout n = Some (r, n') ->
  exists p s : nat,
    (p <= fuel)%nat /\ (s <= p <= S s)%nat /\
    polls n' = (polls n + p)%nat /\
    requests n' = (requests n ++ repeat (DeploymentQuery deploymentId) p)%list /\
    sleeps n' = (sleeps n ++ repeat pollInterval s)%list /\
    clock n + Z.of_nat s * pollInterval <= clock n' /\
    (forall reply, r = Return reply -> p = S s) /\
    drawn n' = drawn n.
Proof.
  revert n. induction fuel as [|fuel IH]; intros n; cbn [wait_loop].
  - destruct (clock n - startTime <? timeout); [discriminate|].
    intros [= <- <-]. exists 0%nat, 0%nat. trace_end.
  - destruct (clock n - startTime <? timeout).
    2:{ intros [= <- <-]. exists 0%nat, 0%nat. trace_end. }
    unfold getDeploymentStatus, try_catch, bind, modify, console_write, throw.
    simpl.
    destruct (deployment (platform n) deploymentId (polls n)) as [lat [reply|e]];
      simpl; pose proof (N2Z.is_nonneg lat) as Hlat.
    + destruct (_ || _).
      { intros [= <- <-]. exists 1%nat, 0%nat. trace_end. }
      destruct (_ || _).
      { intros [= <- <-]. exists 1%nat, 0%nat. trace_end. }
      intros H.
      apply IH in H as (p & s & Hp & Hs & Hpolls & Hreq & Hsl & Hclk & Hret & Hdr).
      simpl in *. exists (S p), (S s).
      split; [lia|]. split; [lia|]. split; [lia|].
      split; [rewrite Hreq, <- app_assoc; reflexivity|].
      split; [rewrite Hsl, <- app_assoc; reflexivity|].
      split; [unfold pollInterval in *; lia|].
      split; [|exact Hdr].
      intros reply' Hr. f_equal. eapply Hret, Hr.
    + intros [= <- <-]. exists 1%nat, 0%nat. trace_end.
Qed.

(** X3.  Whatever the platform answers, [waitForDeployment] ends; it has sent
    nothing but status queries for its deployment, at most
    [timeout / pollInterval + 1] of them; it has slept [pollInterval] after
    each of them, the last apart when that one ended the wait; the clock
    has moved on by the time slept at least; what it returns was answered
    to its last query, with a status of success; and it has drawn no
    random byte. *)
Theorem waitForDeployment_trace timeout n :
  exists r n' (p s : nat),
    waitForDeployment d deploymentId timeout n = (r, n') /\
    (p <= Z.to_nat (timeout / pollInterval) + 1)%nat /\
    (s <= p <= S s)%nat /\
    polls n' = (polls n + p)%nat /\
    requests n' = (requests n ++ repeat (DeploymentQuery deploymentId) p)%list /\
    sleeps n' = (sleeps n ++ repeat pollInterval s)%list /\
    clock n + Z.of_nat s * pollInterval <= clock n' /\
    (forall reply, r = Return reply ->
                   p = S s /\ ends_in_success (DeploymentStatus.status reply)) /\
    drawn n' = drawn n.
Proof.
  destruct (waitForDeployment_run d deploymentId timeout n) as ([r n'] & Hr & Hw).
  destruct (wait_loop_trace _ _ _ _ _ _ Hr)
    as (p & s & Hp & Hs & Hpolls & Hreq & Hsl & Hclk & Hret & Hdrawn).
  exists r, n', p, s. split; [exact Hw|].
  split; [unfold enough_fuel in Hp; lia|].
  do 5 (split; [assumption|]). split; [|exact Hdrawn].
  intros reply ->. split; [eapply Hret; reflexivity|].
  eapply wait_loop_returns, Hr.
Qed.

(** X4.  With no time to wait, [waitForDeployment] throws the time-out error at
    once: it sends no query and changes nothing. *)
Theorem waitForDeployment_no_time timeout n :
  timeout <= 0 ->
  waitForDeployment d deploymentId timeout n = (Throw (timed_out timeout), n).
Proof.
  intros H. unfold waitForDeployment, enough_fuel. cbn [wait_loop].
  rewrite Z.sub_diag. destruct (Z.ltb_spec 0 timeout); [lia | reflexivity].
Qed.

(** X5.  A status query that fails is not tried again: the error of the first
    one leaves [waitForDeployment] as it is, after one query and no
    sleep, with one line on the console. *)
Theorem waitForDeployment_query_fails timeout n latency e :
  0 < timeout ->
  deployment (platform n) deploymentId (polls n) = (latency, Throw e) ->
  exists n',
    waitForDeployment d deploymentId timeout n = (Throw e, n') /\
    requests n' = (requests n ++ [DeploymentQuery deploymentId])%list /\
    polls n' = S (polls n) /\
    sleeps n' = sleeps n /\
    console n' = (console n ++ [("[Railway API] Query failed: " ++ e)%string])%list.
Proof.
  intros Hpos Hans. unfold waitForDeployment, enough_fuel. cbn [wait_loop].
  rewrite Z.sub_diag. destruct (Z.ltb_spec 0 timeout); [|lia].
  unfold getDeploymentStatus, try_catch, bind, modify, console_write, throw.
  simpl. rewrite Hans. simpl. eexists. split; [reflexivity|].
  repeat split.
Qed.

End PollingTrace.

(** A wait of no length for a build of the sample platform. *)
Lemma waitForDeployment_no_time_witness :
  let n := Sample.process None Sample.succeeding in
  0 <= 0 /\
  ClientDeployer.waitForDeployment Scenario.deployer "dep-1" 0 n
  = (Throw (ClientDeployer.timed_out 0), n).
Proof.
  intros n. assert (H : 0 <= 0) by lia. split; [exact H|].
  exact (waitForDeployment_no_time Scenario.deployer "dep-1" 0 n H).
Defined.

(** The platform cannot be reached for the status of the build. *)
Lemma waitForDeployment_query_fails_witness :
  let n := Sample.process None (Scenario.unreachable "socket hang up") in
  0 < 300000 /\
  deployment (platform n) "dep-1" (polls n) = (30000%N, Throw "socket hang up") /\
  exists n',
    ClientDeployer.waitForDeployment Scenario.deployer "dep-1" 300000 n
      = (Throw "socket hang up", n') /\
    requests n' = (requests n ++ [DeploymentQuery "dep-1"])%list /\
    polls n' = S (polls n) /\
    sleeps n' = sleeps n /\
    console n' = (console n ++ ["[Railway API] Query failed: socket hang up"])%list.
Proof.
  intros n. assert (H : 0 < 300000) by lia.
  split; [exact H|]. split; [reflexivity|].
  exact (waitForDeployment_query_fails Scenario.deployer "dep-1" 300000 n
           30000%N "socket hang up" H eq_refl).
Defined.

(* ===================================================================== *)
(** * The requests that the deployer sends *)
(* ===================================================================== *)

Section RequestKinds.

Import RailwayApi ClientDeployer.

Variable P : Request -> Prop.

Lemma silent_sends {A} (m : M Node A) : silent m -> sends P m.
Proof.
  intros H n. destruct (H n) as [_ Hreq]. exists [].
  rewrite Hreq, app_nil_r. split; [reflexivity | constructor].
Qed.

Lemma sends_ret {A} (a : A) : sends P (ret a).
Proof. intros n. exists []. simpl. rewrite app_nil_r. split; [reflexivity | constructor]. Qed.

Lemma sends_throw {A} e : sends P (@throw Node A e).
Proof. intros n. exists []. simpl. rewrite app_nil_r. split; [reflexivity | constructor]. Qed.

Lemma sends_bind {A B} (m : M Node A) (k : A -> M Node B) :
  sends P m -> (forall a, sends P (k a)) -> sends P (bind m k).
Proof.
  intros Hm Hk n. unfold bind. destruct (Hm n) as (l & Hl & HP).
  destruct (m n) as [[a|e] n1]; simpl in *; [|eauto].
  destruct (Hk a n1) as (l' & Hl' & HP'). exists (l ++ l')%list.
  rewrite Hl', Hl, <- app_assoc. split; [reflexivity|].
  apply Forall_app; auto.
Qed.

Lemma sends_try_catch {A} (body : M Node A) handler :
  sends P body -> (forall e, sends P (handler e)) ->
  sends P (try_catch body handler).
Proof.
  intros Hb Hh n. unfold try_catch. destruct (Hb n) as (l & Hl & HP).
  destruct (body n) as [[a|e] n1]; simpl in *; [eauto|].
  destruct (Hh e n1) as (l' & Hl' & HP'). exists (l ++ l')%list.
  rewrite Hl', Hl, <- app_assoc. split; [reflexivity|].
  apply Forall_app; auto.
Qed.

Lemma sends_if {A} (b : bool) (m1 m2 : M Node A) :
  sends P m1 -> sends P m2 -> sends P (if b then m1 else m2).
Proof. destruct b; auto. Qed.

Lemma sends_query {A} r (answer : Platform -> Outcome A) :
  P r -> sends P (query r answer).
Proof.
  intros Hr n. exists [r].
  unfold query, try_catch, bind, modify, console_write, throw. simpl.
  destruct (answer (platform n)); simpl; (split; [reflexivity|]);
    repeat constructor; exact Hr.
Qed.

Lemma sends_waitForDeployment d deploymentId timeout :
  P (DeploymentQuery deploymentId) ->
  sends P (waitForDeployment d deploymentId timeout).
Proof.
  intros HP n.
  destruct (waitForDeployment_run d deploymentId timeout n) as ([r n'] & Hr & ->).
  destruct (wait_loop_trace _ _ _ _ _ _ _ _ Hr)
    as (p & s & _ & _ & _ & Hreq & _).
  eexists. split; [exact Hreq|].
  apply List.Forall_forall. intros x Hx. apply repeat_spec in Hx. by subst x.
Qed.

End RequestKinds.

Create HintDb kinds discriminated.

#[local] Hint Resolve sends_ret sends_throw sends_bind sends_try_catch sends_if
  silent_sends silent_console_write silent_sleep silent_randomBytes : kinds.

Ltac sends_tac :=
  repeat first
    [ solve [auto with kinds]
    | apply sends_query; simpl
    | apply sends_waitForDeployment; simpl
    | apply sends_bind; [|intros]
    | apply sends_try_catch; [|intros]
    | apply sends_if ].

Section DeployerRequests.

Import RailwayApi ClientDeployer.

Variable d : ClientDeployer.
Variable config : ClientConfig.t.

Lemma updateClient_result projectId serviceId :
  returns_with
    (fun result =>
       DeploymentResult.clientId result = ClientConfig.id config /\
       DeploymentResult.projectUrl result = None /\
       DeploymentResult.serviceUrl result = None /\
       if DeploymentResult.success result
       then DeploymentResult.projectId result = Some projectId /\
            DeploymentResult.error result = None
       else DeploymentResult.projectId result = None /\
            exists e, DeploymentResult.error result = Some e)
    (updateClient d config projectId serviceId).
Proof.
  unfold updateClient.
  apply returns_with_bind; intros _. apply returns_with_try_catch.
  - repeat (apply returns_with_bind; intros).
    apply returns_with_ret. simpl. auto.
  - intros e. apply returns_with_bind; intros _.
    apply returns_with_ret. simpl. eauto 6.
Qed.

(** X6.  An update of a deployed client never throws: it returns a result that
    either reports success, with the project it was given and no URL, or
    carries the message of the error.  It sends the variables first, built
    for a database service named [mysql] whatever the identifier of the
    service is, and to the service it was given; then it sends nothing but
    the request for a new build of that service and status queries: it
    creates and deletes nothing. *)
Theorem updateClient_requests projectId serviceId :
  (forall n, exists result n',
      updateClient d config projectId serviceId n = (Return result, n') /\
      DeploymentResult.clientId result = ClientConfig.id config /\
      DeploymentResult.projectUrl result = None /\
      DeploymentResult.serviceUrl result = None /\
      if DeploymentResult.success result
      then DeploymentResult.projectId result = Some projectId /\
           DeploymentResult.error result = None
      else DeploymentResult.projectId result = None /\
           exists e, DeploymentResult.error result = Some e) /\
  starts_with
    (VariableCollectionUpsert projectId serviceId
       (map (fun v => (EnvironmentVariable.key v, EnvironmentVariable.value v))
          (buildEnvironmentVariables config "mysql")))
    (updateClient d config projectId serviceId) /\
  entries_for "DATABASE_URL" (buildEnvironmentVariables config "mysql")
    = [var "DATABASE_URL" "${{mysql.MYSQL_URL}}"] /\
  sends (update_request projectId serviceId)
    (updateClient d config projectId serviceId).
Proof.
  split; [|split; [|split]].
  - intros n.
    assert (exists result n',
               updateClient d config projectId serviceId n = (Return result, n'))
      as (result & n' & Hrun).
    { unfold updateClient, bind at 1, console_write at 1, modify at 1.
      unfold try_catch at 1.
      match goal with
      | |- context [match ?m ?s with | pair _ _ => _ end] =>
          destruct (m s) as [[result|e] n1]
      end; eexists _, _; reflexivity. }
    exists result, n'. split; [exact Hrun|].
    eapply updateClient_result, Hrun.
  - unfold updateClient.
    apply starts_with_after_silent; [apply silent_console_write | intros _].
    apply starts_with_try_catch.
    + apply starts_with_after_silent; [apply silent_console_write | intros _].
      apply starts_with_bind.
      * unfold setEnvironmentVariables. apply starts_with_query.
      * intros _. apply grows_bind; [apply silent_grows, silent_console_write|].
        intros _. apply grows_bind; [apply grows_triggerDeployment|].
        intros dep. apply grows_bind; [apply grows_waitForDeployment|].
        intros _. apply grows_bind; [apply silent_grows, silent_console_write|].
        intros _. apply grows_ret.
    + intros e. apply grows_bind; [apply silent_grows, silent_console_write|].
      intros _. apply grows_ret.
  - rewrite buildEnvironmentVariables_parts, !entries_for_app.
    unfold visualizer_entries, cart_entries, branding_entries.
    destruct (ClientConfig.visualizer config) as [v|];
      destruct (cart_only config);
      destruct (ClientConfig.branding config) as [b|];
      rewrite ?entries_for_app, ?entries_for_entry_if; reflexivity.
  - unfold updateClient, setEnvironmentVariables, triggerDeployment.
    sends_tac; auto.
Qed.

(** X7.  Whatever happens, [deployClient] deletes nothing on the platform: a
    deployment that fails at some step leaves in place what the steps
    before it have created. *)
Theorem deployClient_never_deletes :
  sends (fun r => is_delete r = false) (deployClient d config) /\
  forall n, exists result n',
    deployClient d config n = (Return result, n') /\
    Forall (fun r => is_delete r = false)
      (skipn (length (requests n)) (requests n')) /\
    (DeploymentResult.success result = false ->
     DeploymentResult.projectId result = None).
Proof.
  assert (Hsends : sends (fun r => is_delete r = false) (deployClient d config)).
  { unfold deployClient, createProject, createMySQLService, createService,
      setEnvironmentVariables, triggerDeployment, getServiceDomain,
      addCustomDomain, generatePassword.
    sends_tac; auto. }
  split; [exact Hsends|]. intros n.
  destruct (deployClient_returns d config n) as (result & n' & Hrun & _).
  exists result, n'. split; [exact Hrun|]. split.
  - destruct (Hsends n) as (l & Hl & HP). rewrite Hrun in Hl. simpl in Hl.
    rewrite Hl, drop_app_length. exact HP.
  - revert Hrun. revert n result n'.
    change (returns_with
              (fun result => DeploymentResult.success result = false ->
                             DeploymentResult.projectId result = None)
              (deployClient d config)).
    unfold deployClient.
    apply returns_with_bind; intros _. apply returns_with_try_catch.
    + repeat (apply returns_with_bind; intros).
      apply returns_with_ret. simpl. discriminate.
    + intros e. apply returns_with_bind; intros _.
      apply returns_with_ret. reflexivity.
Qed.

(** X8.  When the platform rejects the project of a client whose display name
    is of the ASCII range, [deployClient] stops there: it returns the
    failure with the message of the platform, after that one request,
    without sleeping, polling or generating a password. *)
Theorem deployClient_stops_at_first_failure n e :
  Js.is_ascii (ClientConfig.name config) = true ->
  projectCreate (platform n) (project_name (ClientConfig.name config)) = Throw e ->
  exists n',
    deployClient d config n =
      (Return {| DeploymentResult.success := false;
                 DeploymentResult.clientId := ClientConfig.id config;
                 DeploymentResult.projectId := None;
                 DeploymentResult.projectUrl := None;
                 DeploymentResult.serviceUrl := None;
                 DeploymentResult.error := Some e |}, n') /\
    requests n' =
      (requests n ++ [ProjectCreate (project_name (ClientConfig.name config))])%list /\
    sleeps n' = sleeps n /\ polls n' = polls n /\ clock n' = clock n /\
    drawn n' = drawn n.
Proof.
  intros _ H. unfold deployClient, createProject, query, try_catch, bind,
    console_write, modify, throw, ret.
  cbn [fst snd platform with_console with_requests]. rewrite H.
  eexists. split; [reflexivity|]. cbn. repeat split.
Qed.

End DeployerRequests.

(** The sample platform rejects the project. *)
Lemma deployClient_stops_at_first_failure_witness :
  let n := Sample.process None Sample.rejecting in
  Js.is_ascii (ClientConfig.name Sample.acme_config) = true /\
  projectCreate (platform n)
    (ClientDeployer.project_name (ClientConfig.name Sample.acme_config))
    = Throw "Railway API Error: name rejected" /\
  exists n',
    fst (ClientDeployer.deployClient Scenario.deployer Sample.acme_config n) =
      Return {| DeploymentResult.success := false;
                DeploymentResult.clientId := "c1";
                DeploymentResult.projectId := None;
                DeploymentResult.projectUrl := None;
                DeploymentResult.serviceUrl := None;
                DeploymentResult.error := Some "Railway API Error: name rejected" |} /\
    snd (ClientDeployer.deployClient Scenario.deployer Sample.acme_config n) = n' /\
    requests n' = [ProjectCreate "lendpro-acme"].
Proof.
  intros n. split; [reflexivity|]. split; [reflexivity|].
  destruct (deployClient_stops_at_first_failure Scenario.deployer Sample.acme_config
              n "Railway API Error: name rejected" eq_refl eq_refl)
    as (n' & Hrun & Hreq & _).
  exists n'. rewrite Hrun. split; [reflexivity|]. split; [reflexivity|].
  exact Hreq.
Defined.

(* ===================================================================== *)
(** * The custom domain *)
(* ===================================================================== *)

Section CustomDomain.

Import RailwayApi ClientDeployer.

Lemma agree_ret {A} (a : A) : agree (ret a).
Proof. intros n1 n2 H. auto. Qed.

Lemma agree_throw {A} e : agree (@throw Node A e).
Proof. intros n1 n2 H. auto. Qed.

Lemma agree_bind {A B} (m : M Node A) (k : A -> M Node B) :
  agree m -> (forall a, agree (k a)) -> agree (bind m k).
Proof.
  intros Hm Hk n1 n2 H. unfold bind. destruct (Hm n1 n2 H) as [Hf Hs].
  destruct (m n1) as [[a|e] m1], (m n2) as [[a'|e'] m2]; simpl in *;
    try discriminate; injection Hf as <-; [exact (Hk a m1 m2 Hs) | auto].
Qed.

Lemma agree_try_catch {A} (body : M Node A) handler :
  agree body -> (forall e, agree (handler e)) -> agree (try_catch body handler).
Proof.
  intros Hb Hh n1 n2 H. unfold try_catch. destruct (Hb n1 n2 H) as [Hf Hs].
  destruct (body n1) as [[a|e] m1], (body n2) as [[a'|e'] m2]; simpl in *;
    try discriminate; injection Hf as <-; [auto | exact (Hh e m1 m2 Hs)].
Qed.

Lemma agree_if {A} (b : bool) (m1 m2 : M Node A) :
  agree m1 -> agree m2 -> agree (if b then m1 else m2).
Proof. destruct b; auto. Qed.

Lemma agree_console_write line : agree (console_write line).
Proof. intros n1 n2 H. split; [reflexivity | exact H]. Qed.

Lemma agree_sleep ms : agree (sleep ms).
Proof.
  intros n1 n2 (He & Hp & Hc & Hen & Hd & Hr & Hs & Hpo).
  split; [reflexivity|]. unfold same_but_domains. simpl.
  rewrite Hc, Hs. auto 10.
Qed.

Lemma agree_randomBytes k : agree (randomBytes k).
Proof.
  intros n1 n2 (He & Hp & Hc & Hen & Hd & Hr & Hs & Hpo).
  unfold randomBytes, same_but_domains. simpl. rewrite Hen, Hd. auto 10.
Qed.

Lemma agree_query {A} r (answer : Platform -> Outcome A) :
  (forall p1 p2, same_platform_but_domains p1 p2 -> answer p1 = answer p2) ->
  agree (query r answer).
Proof.
  intros Hans n1 n2 (He & Hp & Hc & Hen & Hd & Hr & Hs & Hpo).
  unfold query, try_catch, bind, modify, console_write, throw. simpl.
  rewrite (Hans _ _ Hp). destruct (answer (platform n2)); simpl;
    (split; [reflexivity|]); unfold same_but_domains; simpl; rewrite Hr; auto 10.
Qed.

Lemma agree_getDeploymentStatus c deploymentId :
  agree (getDeploymentStatus c deploymentId).
Proof.
  intros n1 n2 (He & Hp & Hc & Hen & Hd & Hr & Hs & Hpo).
  unfold getDeploymentStatus, try_catch, bind, modify, console_write, throw.
  simpl. pose proof Hp as (_ & _ & _ & _ & Hdep & _).
  rewrite Hdep, Hpo.
  destruct (deployment (platform n2) deploymentId (polls n2)) as [lat [a|err]];
    simpl; (split; [reflexivity|]); unfold same_but_domains; simpl;
    rewrite Hr, Hc; auto 20.
Qed.

Lemma agree_wait_loop fuel d deploymentId startTime timeout n1 n2 :
  same_but_domains n1 n2 ->
  match wait_loop fuel d deploymentId startTime timeout n1,
        wait_loop fuel d deploymentId startTime timeout n2 with
  | Some (r1, m1), Some (r2, m2) => r1 = r2 /\ same_but_domains m1 m2
  | None, None => True
  | _, _ => False
  end.
Proof.
  revert n1 n2. induction fuel as [|fuel IH]; intros n1 n2 H; cbn [wait_loop];
    pose proof H as (_ & _ & Hc & _); rewrite Hc;
    destruct (clock n2 - startTime <? timeout); auto.
  destruct (agree_getDeploymentStatus (railwayClient d) deploymentId n1 n2 H)
    as [Hf Hs].
  destruct (getDeploymentStatus _ _ n1) as [[a|e] m1],
           (getDeploymentStatus _ _ n2) as [[a'|e'] m2]; simpl in *;
    try discriminate; injection Hf as <-; [|auto].
  destruct (_ || _); [auto|]. destruct (_ || _); [auto|].
  apply IH.
  pose proof (agree_console_write
                ("[Deployer] Deployment status: " ++ DeploymentStatus.status a)
                m1 m2 Hs) as [_ Hw].
  exact (proj2 (agree_sleep pollInterval _ _ Hw)).
Qed.

Lemma agree_waitForDeployment d deploymentId timeout :
  agree (waitForDeployment d deploymentId timeout).
Proof.
  intros n1 n2 H. unfold waitForDeployment.
  pose proof H as (_ & _ & Hc & _). rewrite Hc.
  pose proof (agree_wait_loop (enough_fuel timeout) d deploymentId (clock n2)
                timeout n1 n2 H) as Hw.
  destruct (wait_loop _ _ _ _ _ n1) as [[r1 m1]|],
           (wait_loop _ _ _ _ _ n2) as [[r2 m2]|]; try contradiction; auto.
Qed.

(** The step of the custom domain: whatever the platform answers, it
    returns. *)
Lemma agree_custom_domain c serviceId domain :
  agree (try_catch
           (addCustomDomain c serviceId domain ;;
            console_write "[Deployer] Custom domain added successfully")
           (fun error =>
              console_write ("[Deployer] Failed to add custom domain: " ++ error))).
Proof.
  intros n1 n2 (He & Hp & Hc & Hen & Hd & Hr & Hs & Hpo).
  unfold addCustomDomain, query, try_catch, bind, console_write, modify, throw.
  simpl.
  destruct (customDomainCreate (platform n1) serviceId domain),
           (customDomainCreate (platform n2) serviceId domain); simpl;
    (split; [reflexivity|]); unfold same_but_domains; simpl; rewrite Hr; auto 10.
Qed.

End CustomDomain.

Create HintDb domains discriminated.

#[local] Hint Resolve agree_ret agree_throw agree_console_write agree_sleep
  agree_randomBytes agree_getDeploymentStatus agree_waitForDeployment
  agree_custom_domain : domains.

Ltac agree_tac :=
  repeat first
    [ solve [auto with domains]
    | apply agree_query; intros ? ? (? & ? & ? & ? & ? & ? & ?); congruence
    | apply agree_bind; [|intros]
    | apply agree_if
    | apply agree_try_catch; [|intros] ].

Section CustomDomainClaims.

Import RailwayApi ClientDeployer.

Lemma agree_deployClient d config : agree (deployClient d config).
Proof.
  unfold deployClient, createProject, createMySQLService, createService,
    setEnvironmentVariables, triggerDeployment, getServiceDomain,
    generatePassword.
  agree_tac.
Qed.

(** X9.  The result of a deployment does not depend on what the platform
    answers to the request for the custom domain: with any other answer,
    [deployClient] returns the same result, has sent the same requests and
    has taken the same time. *)
Theorem deployClient_whatever_custom_domain d config f n :
  let n2 := with_platform (Scenario.with_customDomainCreate f (platform n)) n in
  fst (deployClient d config n2) = fst (deployClient d config n) /\
  requests (snd (deployClient d config n2))
    = requests (snd (deployClient d config n)) /\
  clock (snd (deployClient d config n2))
    = clock (snd (deployClient d config n)).
Proof.
  intros n2.
  assert (H : same_but_domains n2 n).
  { unfold same_but_domains, same_platform_but_domains. simpl. auto 20. }
  destruct (agree_deployClient d config n2 n H)
    as (Hf & _ & _ & Hc & _ & _ & Hr & _).
  auto.
Qed.

End CustomDomainClaims.

(* ===================================================================== *)
(** * The database service *)
(* ===================================================================== *)

Section MySQLService.

Import RailwayApi.

Lemma length_string_of_list_ascii l :
  String.length (string_of_list_ascii l) = length l.
Proof. induction l as [|c l IH]; simpl; congruence. Qed.

Lemma generatePassword_run n :
  generatePassword 32 n = (Return (generated 32 n), with_drawn (drawn n + 32) n).
Proof. reflexivity. Qed.

Lemma generated_with_requests len l n :
  generated len (with_requests l n) = generated len n.
Proof.
  unfold generated, generatePassword, getRandomValues, bind.
  destruct (65536 <? N.of_nat len)%N; reflexivity.
Qed.

Lemma generated_length n : String.length (generated 32 n) = 32%nat.
Proof.
  unfold generated, generatePassword, getRandomValues, bind.
  change (65536 <? N.of_nat 32)%N with false. cbv iota.
  unfold randomBytes, ret. cbn [fst].
  by rewrite length_string_of_list_ascii, !length_map, length_seq.
Qed.

(** X10.  For a length of at most 65536, [generatePassword] returns a password
    of the length asked for, made of characters of its character set
    only, and takes one random byte for each of them.  For a greater
    length it throws, the random generator refusing the request, and
    takes no random byte. *)
Theorem generatePassword_charset len n :
  if (65536 <? N.of_nat len)%N
  then exists e, generatePassword len n = (Throw e, n)
  else exists password,
      generatePassword len n = (Return password, with_drawn (drawn n + len) n) /\
      String.length password = len /\
      Forall (fun c => In c (chars charset)) (chars password).
Proof.
  unfold generatePassword, getRandomValues, bind.
  destruct (65536 <? N.of_nat len)%N; [eexists; reflexivity|].
  unfold randomBytes, ret. eexists.
  split; [reflexivity|]. split.
  - by rewrite length_string_of_list_ascii, !length_map, length_seq.
  - unfold chars at 1. rewrite list_ascii_of_string_of_list_ascii.
    apply List.Forall_forall. intros c Hc.
    apply in_map_iff in Hc as (b & <- & _).
    apply nth_In. change (length (list_ascii_of_string charset)) with 70%nat.
    change (String.length charset) with 70%nat.
    apply Nat.mod_upper_bound. discriminate.
Qed.

(** X11.  Once the platform has created the database service,
    [createMySQLService] sends its two variables, the root password being
    32 characters generated for the purpose from 32 random bytes.  If the
    platform does not take them, the error is thrown although the service
    exists.  The password goes out in that one request: it is not in what
    is returned, and when the platform takes the variables nothing is
    written to the console. *)
Theorem createMySQLService_password c projectId name n sid sname :
  serviceCreate (platform n) projectId name (Some (SourceImage "mysql:8.0"))
    = Return (sid, sname) ->
  let variables :=
    [("MYSQL_ROOT_PASSWORD", generated 32 n); ("MYSQL_DATABASE", "lendpro")] in
  String.length (generated 32 n) = 32%nat /\
  exists n',
    createMySQLService c projectId name n =
      (match variableCollectionUpsert (platform n) projectId sid variables with
       | Return _ => Return {| CreateServiceResponse.serviceId := sid;
                               CreateServiceResponse.serviceName := sname |}
       | Throw e => Throw e
       end, n') /\
    requests n' =
      (requests n ++
       [ServiceCreate projectId name (Some (SourceImage "mysql:8.0"));
        VariableCollectionUpsert projectId sid variables])%list /\
    drawn n' = (drawn n + 32)%nat /\
    (variableCollectionUpsert (platform n) projectId sid variables = Return tt ->
     console n' = console n).
Proof.
  intros H variables. split; [apply generated_length|].
  unfold createMySQLService.
  unfold bind at 1. unfold query at 1, try_catch at 1, bind at 1, modify at 1.
  cbn [fst snd platform with_requests]. rewrite H.
  unfold bind at 1. rewrite generatePassword_run, generated_with_requests.
  unfold setEnvironmentVariables, query, try_catch, bind, modify, console_write,
    throw, ret.
  cbn [map fst snd platform with_requests with_drawn with_console requests
       console EnvironmentVariable.key EnvironmentVariable.value].
  fold variables.
  destruct (variableCollectionUpsert (platform n) projectId sid variables);
    cbn [fst snd requests console drawn with_console with_requests with_drawn];
    rewrite <- ?app_assoc; eexists; repeat split; try discriminate.
Qed.

End MySQLService.

(** The database service of the sample platform, which takes the
    variables. *)
Lemma createMySQLService_password_witness :
  let n := Sample.process None Sample.succeeding in
  serviceCreate (platform n) "prj-1" "mysql" (Some (SourceImage "mysql:8.0"))
    = Return ("svc-mysql", "mysql") /\
  String.length (generated 32 n) = 32%nat /\
  exists n',
    RailwayApi.createMySQLService {| RailwayApi.apiToken := "token" |}
      "prj-1" "mysql" n =
      (Return {| CreateServiceResponse.serviceId := "svc-mysql";
                 CreateServiceResponse.serviceName := "mysql" |}, n') /\
    requests n' =
      [ServiceCreate "prj-1" "mysql" (Some (SourceImage "mysql:8.0"));
       VariableCollectionUpsert "prj-1" "svc-mysql"
         [("MYSQL_ROOT_PASSWORD", generated 32 n); ("MYSQL_DATABASE", "lendpro")]] /\
    drawn n' = 32%nat /\
    console n' = [].
Proof.
  intros n. split; [reflexivity|].
  destruct (createMySQLService_password {| RailwayApi.apiToken := "token" |}
              "prj-1" "mysql" n "svc-mysql" "mysql" eq_refl)
    as (Hlen & n' & Hrun & Hreq & Hdrawn & Hconsole).
  split; [exact Hlen|]. exists n'.
  split; [exact Hrun|]. split; [exact Hreq|]. split; [exact Hdrawn|].
  exact (Hconsole eq_refl).
Defined.

(* ===================================================================== *)
(** * More on the codec: keys and password hashes *)
(* ===================================================================== *)

Section Split.

Lemma split_at_first sep a b :
  Forall (fun c => c <> sep) (chars a) ->
  Js.split sep (a ++ String sep b) = a :: Js.split sep b.
Proof.
  induction a as [|c a IH]; intros Ha; simpl.
  - by rewrite Ascii.eqb_refl.
  - inversion Ha as [|? ? Hc Ha']; subst.
    apply Ascii.eqb_neq in Hc. rewrite Hc, (IH Ha'). reflexivity.
Qed.

Lemma split_without sep a :
  Forall (fun c => c <> sep) (chars a) -> Js.split sep a = [a].
Proof.
  induction a as [|c a IH]; intros Ha; simpl; [reflexivity|].
  inversion Ha as [|? ? Hc Ha']; subst.
  apply Ascii.eqb_neq in Hc. rewrite Hc, (IH Ha'). reflexivity.
Qed.

Lemma hex_chars_of_byte x :
  Buffer.hex_char (Byte.to_N x / 16) <> ":"%char /\
  Buffer.hex_char (Byte.to_N x mod 16) <> ":"%char.
Proof. destruct x; split; discriminate. Qed.

Lemma to_hex_no_colon b : Forall (fun c => c <> ":"%char) (chars (Buffer.to_hex b)).
Proof.
  induction b as [|x b IH]; simpl; [constructor|].
  destruct (hex_chars_of_byte x). repeat constructor; assumption.
Qed.


Lemma to_hex_inj a b : Buffer.to_hex a = Buffer.to_hex b -> a = b.
Proof.
  intros H. apply (f_equal Buffer.from_hex) in H.
  by rewrite !from_hex_to_hex in H.
Qed.

End Split.

Section Hashes.

Context {L : NodeCrypto}.

(** X12.  A hash made by [hashPassword] is the hexadecimal text of 16 random
    bytes, a colon, and the hexadecimal text of the key derived from the
    password with that text as salt.  [verifyPassword] accepts it for the
    password it was made from, and for another password exactly when
    that one derives the same key under the salt. *)
Theorem verifyPassword_hashPassword password n :
  exists bytes,
    length bytes = 16%nat /\
    let salt := Buffer.to_hex bytes in
    let derived p := pbkdf2Sync (Buffer.from_utf8 p) (Buffer.from_utf8 salt) 100000 64 in
    let stored := salt ++ ":" ++ Buffer.to_hex (derived password) in
    Crypto.hashPassword password n =
      (Return stored, with_drawn (drawn n + 16) n) /\
    Crypto.verifyPassword password stored = true /\
    forall other,
      Crypto.verifyPassword other stored = true <-> derived other = derived password.
Proof.
  exists (map (entropy n) (seq (drawn n) 16)).
  split; [apply random_length|]. cbv zeta.
  split; [reflexivity|].
  assert (Hsplit : forall h,
             Js.split ":" (Buffer.to_hex (map (entropy n) (seq (drawn n) 16))
                           ++ ":" ++ Buffer.to_hex h)
             = [Buffer.to_hex (map (entropy n) (seq (drawn n) 16));
                Buffer.to_hex h]).
  { intros h. change (":" ++ Buffer.to_hex h) with (String ":" (Buffer.to_hex h)).
    rewrite split_at_first by apply to_hex_no_colon.
    by rewrite split_without by apply to_hex_no_colon. }
  unfold Crypto.verifyPassword. rewrite Hsplit.
  split; [apply String.eqb_refl|].
  intros other. rewrite String.eqb_eq. split.
  - intros H. symmetry. by apply to_hex_inj.
  - intros ->. reflexivity.
Qed.

(** X13.  A stored hash without a colon is accepted for no password. *)
Theorem verifyPassword_malformed password storedHash :
  Forall (fun c => c <> ":"%char) (chars storedHash) ->
  Crypto.verifyPassword password storedHash = false.
Proof.
  intros H. unfold Crypto.verifyPassword. by rewrite (split_without _ _ H).
Qed.

(** X14.  Without a master key, or with an empty one, the codec refuses every
    input: [encryptPassword] and [decryptPassword] throw their errors,
    and neither draws a random byte nor sends anything. *)
Theorem codec_needs_key n :
  Js.truthy (ENCRYPTION_KEY (env n)) = false ->
  (forall plaintext, exists n',
      Crypto.encryptPassword plaintext n = (Throw "Failed to encrypt password", n') /\
      drawn n' = drawn n /\ requests n' = requests n) /\
  (forall token, exists n',
      Crypto.decryptPassword token n = (Throw "Failed to decrypt password", n') /\
      drawn n' = drawn n /\ requests n' = requests n).
Proof.
  intros H. split; intros x;
    unfold Crypto.encryptPassword, Crypto.decryptPassword, Crypto.getEncryptionKey,
      try_catch, bind, gets, throw, console_write, modify;
    rewrite H; simpl; eexists; repeat split.
Qed.

Hypothesis laws : NodeCryptoLaws L.


End Hashes.

(** The text [plain], which was never hashed. *)
Lemma verifyPassword_malformed_witness :
  Forall (fun c => c <> ":"%char) (chars "plain") /\
  Crypto.verifyPassword (L := Fake.crypto) "secret" "plain" = false.
Proof.
  assert (H : Forall (fun c => c <> ":"%char) (chars "plain"))
    by (repeat constructor; discriminate).
  split; [exact H|].
  exact (verifyPassword_malformed (L := Fake.crypto) "secret" "plain" H).
Defined.

(** A process whose master key is the empty string. *)
Lemma codec_needs_key_witness :
  let n := Sample.process (Some "") Sample.succeeding in
  Js.truthy (ENCRYPTION_KEY (env n)) = false /\
  fst (Crypto.encryptPassword (L := Fake.crypto) "p" n)
    = Throw "Failed to encrypt password" /\
  fst (Crypto.decryptPassword (L := Fake.crypto) Sample.stored_password n)
    = Throw "Failed to decrypt password".
Proof.
  intros n. split; [reflexivity|].
  destruct (codec_needs_key (L := Fake.crypto) n eq_refl) as [Henc Hdec].
  destruct (Henc "p") as (n1 & -> & _).
  destruct (Hdec Sample.stored_password) as (n2 & -> & _).
  split; reflexivity.
Defined.


(* ===================================================================== *)
(** * The tables *)
(* ===================================================================== *)

Section Tables.

Import Database.

Lemma first_of_new {R} (clientId_of : R -> string) cid table r :
  first_of clientId_of cid table = None ->
  clientId_of r = cid ->
  first_of clientId_of cid (table ++ [r]) = Some r.
Proof.
  unfold first_of. intros Hnone Hr.
  induction table as [|x table IH]; simpl in *.
  - by rewrite Hr, String.eqb_refl.
  - destruct (String.eqb (clientId_of x) cid); [discriminate | auto].
Qed.

Lemma first_of_other {R} (clientId_of : R -> string) cid id' table r :
  clientId_of r = cid -> id' <> cid ->
  first_of clientId_of id' (table ++ [r]) = first_of clientId_of id' table.
Proof.
  unfold first_of. intros Hr Hne.
  induction table as [|x table IH]; simpl.
  - rewrite Hr. apply not_eq_sym, String.eqb_neq in Hne. by rewrite Hne.
  - destruct (String.eqb (clientId_of x) id'); auto.
Qed.

Lemma first_of_not_of {R} (clientId_of : R -> string) cid id' table :
  id' <> cid ->
  first_of clientId_of id' (not_of clientId_of cid table)
  = first_of clientId_of id' table.
Proof.
  unfold first_of, not_of. intros Hne.
  induction table as [|x table IH]; simpl; [reflexivity|].
  destruct (String.eqb (clientId_of x) cid) eqn:Hx; simpl.
  - apply String.eqb_eq in Hx.
    assert (String.eqb (clientId_of x) id' = false) as ->; [|exact IH].
    apply String.eqb_neq. congruence.
  - destruct (String.eqb (clientId_of x) id'); auto.
Qed.

Lemma first_of_none {R} (clientId_of : R -> string) cid table :
  first_of clientId_of cid table = None ->
  Forall (fun r => String.eqb (clientId_of r) cid = false) table.
Proof.
  unfold first_of. intros H. apply List.Forall_forall. intros r Hr.
  exact (find_none _ _ H r Hr).
Qed.

Lemma map_unless {R} (p : R -> bool) (f : R -> R) table :
  Forall (fun r => p r = false) table ->
  map (fun r => if p r then f r else r) table = table.
Proof.
  induction 1 as [|r table Hr _ IH]; simpl; [reflexivity|].
  by rewrite Hr, IH.
Qed.

Lemma alter_unknown {R} (f : R -> R) (k : string) (m : gmap string R) :
  m !! k = None -> alter f k m = m.
Proof.
  intros H. apply map_eq. intros i. destruct (decide (k = i)) as [<-|Hne].
  - by rewrite lookup_alter_eq, H.
  - by rewrite lookup_alter_ne.
Qed.

Ltac tables :=
  cbn [fst snd db node wrote client_added lendpro_added branding_added
       features_added visualizer_added with_clients with_clientLendproConfig
       with_clientBranding with_clientFeatures with_clientVisualizer
       with_auditLog logged clients clientLendproConfig clientBranding
       clientFeatures clientVisualizer auditLog client_row Client.id
       option_map ret].

Lemma createClient_read_back c l b f v w :
  clients (db w) !! new_id c = None ->
  childless (new_id c) (db w) ->
  exists w',
    createClient c l b f v w = (Return (Some (client_row c)), w') /\
    getClient (new_id c) w' =
      (Return (Some {| client := client_row c;
                       lendpro := Some (lendpro_for (new_id c) l);
                       branding := option_map (branding_for (new_id c)) b;
                       features := option_map (features_for (new_id c)) f;
                       visualizer := option_map (visualizer_for (new_id c)) v |}),
       w') /\
    (forall id', id' <> new_id c ->
                 fst (getClient id' w') = fst (getClient id' w)) /\
    node w' = node w.
Proof.
  intros Hnew (Hl & Hb & Hf & Hv).
  unfold createClient, bind at 1, gets at 1. rewrite Hnew.
  destruct b as [b|], f as [f|], v as [v|];
    unfold write_if, bind, write, modify, gets, ret; tables;
    rewrite lookup_insert_eq;
    (eexists; split; [reflexivity|]);
    unfold getClient, bind, gets; tables;
    (split; [|split; [|reflexivity]]).
  all: try (rewrite lookup_insert_eq; unfold with_config; tables;
            rewrite ?Hb, ?Hf, ?Hv, ?(first_of_new _ _ _ _ Hl),
              ?(first_of_new _ _ _ _ Hb), ?(first_of_new _ _ _ _ Hf),
              ?(first_of_new _ _ _ _ Hv) by reflexivity;
            reflexivity).
  all: intros id' Hne; rewrite lookup_insert_ne by congruence;
    (destruct (clients (db w) !! id'); [|reflexivity]);
    unfold with_config; tables;
    rewrite ?(first_of_other ClientLendproConfig.clientId (new_id c)),
      ?(first_of_other ClientBranding.clientId (new_id c)),
      ?(first_of_other ClientFeatures.clientId (new_id c)),
      ?(first_of_other ClientVisualizer.clientId (new_id c)) by done;
    reflexivity.
Qed.

(** X16.  A client that is created can be read back: for a new identifier with
    no rows of settings left under it, [createClient] returns the client
    row, with null columns where nothing is given, and [getClient] then
    gives that row with the settings that were passed, under the
    identifier of the client; the rows of the other clients are as
    before, and the process is not touched. *)
Theorem createClient_getClient c l b f v w :
  clients (db w) !! new_id c = None ->
  childless (new_id c) (db w) ->
  exists w',
    createClient c l b f v w = (Return (Some (client_row c)), w') /\
    getClient (new_id c) w' =
      (Return (Some {| client := client_row c;
                       lendpro := Some (lendpro_for (new_id c) l);
                       branding := option_map (branding_for (new_id c)) b;
                       features := option_map (features_for (new_id c)) f;
                       visualizer := option_map (visualizer_for (new_id c)) v |}),
       w') /\
    (forall id', id' <> new_id c ->
                 fst (getClient id' w') = fst (getClient id' w)) /\
    node w' = node w.
Proof. apply createClient_read_back. Qed.

(** X17.  Deleting a client leaves the others as they were: what [getClient]
    gives for another client is the same before and after, attempts of
    other clients stay in the ledger, and the audit log is kept. *)
Theorem deleteClient_leaves_others cid w :
  let w' := snd (deleteClient cid w) in
  (forall id', id' <> cid -> fst (getClient id' w') = fst (getClient id' w)) /\
  (forall k row, deployments (db w) !! k = Some row ->
                 Deployment.clientId row <> cid ->
                 deployments (db w') !! k = Some row) /\
  (forall k row, deployments (db w') !! k = Some row ->
                 deployments (db w) !! k = Some row /\
                 Deployment.clientId row <> cid) /\
  auditLog (db w') = auditLog (db w) /\
  node w' = node w.
Proof.
  cbv zeta. unfold deleteClient, write, modify. simpl.
  split; [|split; [|split; [|split; reflexivity]]].
  - intros id' Hne. unfold getClient, bind, gets. simpl.
    rewrite lookup_delete_ne by congruence.
    destruct (clients (db w) !! id'); [|reflexivity].
    unfold with_config. simpl. rewrite !first_of_not_of by exact Hne.
    reflexivity.
  - intros k row Hk Hrow. apply map_lookup_filter_Some. split; assumption.
  - intros k row Hk. by apply map_lookup_filter_Some in Hk.
Qed.

(** X18.  An update under an identifier that no row has changes no table:
    [updateClient] and [updateClientLendpro] for an unknown client, and
    [updateDeployment] for an unknown attempt. *)
Theorem updates_of_unknown_rows cid k cu lu du w :
  clients (db w) !! cid = None ->
  first_of ClientLendproConfig.clientId cid (clientLendproConfig (db w)) = None ->
  deployments (db w) !! k = None ->
  db (snd (updateClient cid cu w)) = db w /\
  db (snd (updateClientLendpro cid lu w)) = db w /\
  db (snd (updateDeployment k du w)) = db w.
Proof.
  intros Hc Hl Hk.
  unfold updateClient, updateClientLendpro, updateDeployment.
  destruct (Client.no_values cu), (lendpro_no_values lu),
    (Deployment.no_values du);
    unfold write, modify, throw, client_set, lendpro_set, deployment_set; simpl;
    rewrite ?(alter_unknown _ _ _ Hc), ?(alter_unknown _ _ _ Hk),
      ?(map_unless _ _ _ (first_of_none _ _ _ Hl));
    destruct (db w); repeat split.
Qed.


Lemma first_of_map {R} (clientId_of : R -> string) cid (f : R -> R) table r :
  (forall x, clientId_of (f x) = clientId_of x) ->
  first_of clientId_of cid table = Some r ->
  first_of clientId_of cid
    (map (fun x => if String.eqb (clientId_of x) cid then f x else x) table)
  = Some (f r).
Proof.
  unfold first_of. intros Hf.
  induction table as [|x table IH]; simpl; [discriminate|].
  destruct (String.eqb (clientId_of x) cid) eqn:Hx.
  - intros [= <-]. by rewrite Hf, Hx.
  - rewrite Hx. exact IH.
Qed.




End Tables.

(** A second client for the sample database. *)
Lemma createClient_getClient_witness :
  let w := Sample.world Sample.succeeding Sample.idle in
  let c := {| Database.new_id := "c2"; Database.new_name := "Bolt";
              Database.new_domain := Some "bolt.test";
              Database.new_status := Client.inactive |} in
  clients (db w) !! "c2" = None /\
  childless "c2" (db w) /\
  exists w',
    Database.createClient c Sample.acme_lendpro None None None w
      = (Return (Some (Database.client_row c)), w') /\
    fst (Database.getClient "c1" w') = fst (Database.getClient "c1" w).
Proof.
  intros w c.
  assert (Hnew : clients (db w) !! Database.new_id c = None)
    by (vm_compute; reflexivity).
  assert (Hch : childless (Database.new_id c) (db w))
    by (repeat split; reflexivity).
  split; [exact Hnew|]. split; [exact Hch|].
  destruct (createClient_getClient c Sample.acme_lendpro None None None w Hnew Hch)
    as (w' & Hrun & _ & Hothers & _).
  exists w'. split; [exact Hrun|]. apply Hothers. discriminate.
Defined.

(** Updates for a client and an attempt that the sample database does not
    have. *)
Lemma updates_of_unknown_rows_witness :
  let w := Sample.world Sample.succeeding Sample.busy in
  clients (db w) !! "c9" = None /\
  deployments (db w) !! "d9" = None /\
  db (snd (Database.updateClient "c9" (Client.only_status Client.active) w)) = db w /\
  db (snd (Database.updateDeployment "d9" Router.mark_building w)) = db w.
Proof.
  intros w.
  assert (Hc : clients (db w) !! "c9" = None) by (vm_compute; reflexivity).
  assert (Hk : deployments (db w) !! "d9" = None) by (vm_compute; reflexivity).
  split; [exact Hc|]. split; [exact Hk|].
  destruct (updates_of_unknown_rows "c9" "d9" (Client.only_status Client.active)
              {| Database.set_username := None; Database.set_password := None;
                 Database.set_storeId := None; Database.set_salesId := None;
                 Database.set_salesName := None; Database.set_apiUrl := None |}
              Router.mark_building w Hc eq_refl Hk) as (H1 & _ & H3).
  split; [exact H1 | exact H3].
Defined.

(* ===================================================================== *)
(** * More on the procedures of the router *)
(* ===================================================================== *)

Section Procedures.

Import Database Router.
Context {L : NodeCrypto}.

Lemma getClient_missing cid w :
  clients (db w) !! cid = None -> getClient cid w = (Return None, w).
Proof. intros H. unfold getClient, bind, gets. rewrite H. reflexivity. Qed.

(** X20.  For an identifier that no client has, [get], [deploy] and [delete]
    throw their error and change nothing: no row is inserted in the
    ledger, nothing is logged, no request is sent. *)
Theorem unknown_client_changes_nothing cid nid w :
  clients (db w) !! cid = None ->
  Router.get cid w = (Throw ("Client not found: " ++ cid), w) /\
  Router.deploy cid nid w = (Throw ("Client not found: " ++ cid), w) /\
  Router.delete cid w = (Throw "Client not found", w).
Proof.
  intros H. unfold Router.get, Router.deploy, Router.delete, bind.
  rewrite !(getClient_missing _ _ H). repeat split.
Qed.

(** X21.  A client that was never deployed is deleted without a word to the
    platform: [delete] returns, the process is as before, the client and
    its rows are gone, and the deletion is logged. *)
Theorem delete_without_project cid w c :
  clients (db w) !! cid = Some c ->
  Js.truthy (Client.railwayProjectId c) = false ->
  exists w',
    Router.delete cid w = (Return true, w') /\
    node w' = node w /\
    clients (db w') !! cid = None /\
    related_rows cid (db w') = 0%nat /\
    auditLog (db w') = (auditLog (db w) ++ [delete_log cid c])%list.
Proof.
  intros Hc Hp. unfold Router.delete. unfold bind at 1.
  rewrite (getClient_found _ _ _ Hc). cbn [client with_config]. rewrite Hp.
  eexists. split; [reflexivity|].
  cbn [snd db node wrote with_node write modify deleteClient logAdminAction
       bind ret fst logged with_auditLog auditLog clients].
  split; [reflexivity|]. split; [apply lookup_delete_eq|].
  split; [apply related_rows_without_client | reflexivity].
Qed.

Lemma clientConfig_of_config client w config w' :
  clientConfig_of client w = (Return config, w') ->
  ClientConfig.id config = Client.id (Database.client client) /\
  ClientConfig.name config = Client.name (Database.client client) /\
  ClientConfig.visualizer config = None.
Proof.
  unfold clientConfig_of. destruct (lendpro client) as [l|]; [|discriminate].
  unfold bind. rewrite in_node_run.
  destruct (fst (Crypto.decryptPassword _ _)); [|discriminate].
  intros [= <- _]. auto.
Qed.

(** [deploy] either sends nothing or hands over to the deployer, with a
    configuration made from the client row and without a visualizer. *)
Lemma deploy_reaches_deployer cid nid w c :
  clients (db w) !! cid = Some c ->
  deployments (db w) !! nid = None ->
  exists r w',
    Router.deploy cid nid w = (r, w') /\
    (requests (node w') = requests (node w) \/
     exists rc config n0,
       requests n0 = requests (node w) /\
       ClientConfig.name config = Client.name c /\
       ClientConfig.visualizer config = None /\
       node w' =
         snd (ClientDeployer.deployClient (ClientDeployer.new rc None None)
                config n0)).
Proof.
  intros Hc Hf. unfold Router.deploy.
  unfold bind at 1. rewrite (getClient_found _ _ _ Hc).
  unfold bind at 1.
  rewrite (createDeployment_fresh
             (new_attempt nid cid (Database.client (with_config c cid (db w))))
             w c Hf Hc).
  unfold try_catch.
  unfold bind at 1. rewrite updateClient_status.
  unfold bind at 1. rewrite updateDeployment_building.
  change (client (with_config c cid (db w))) with c.
  fold (attempt_started cid nid c w). set (w3 := attempt_started cid nid c w).
  assert (Hw3 : requests (node w3) = requests (node w)) by reflexivity.
  unfold bind at 1.
  rewrite in_node_run, createRailwayApiClient_node, with_node_node.
  destruct (fst (RailwayApi.createRailwayApiClient (node w3))) as [rc|e].
  2:{ eexists _, _. split; [reflexivity|]. left. exact Hw3. }
  unfold bind at 1.
  destruct (clientConfig_of_run (with_config c cid (db w)) w3)
    as (o & n & Heq & Hreq & Hclk).
  destruct o as [config|e]; rewrite Heq.
  2:{ eexists _, _. split; [reflexivity|]. left.
      cbn [snd node with_node wrote bind updateClient updateDeployment write
           modify in_node lift Date_now gets throw fst].
      congruence. }
  apply clientConfig_of_config in Heq as (_ & Hname & Hvis).
  unfold bind at 1. rewrite in_node_run.
  destruct (deployClient_returns (ClientDeployer.new rc None None) config
              (node (with_node n w3))) as (result & n4 & Hd & _).
  rewrite Hd. cbn [fst snd]. cbn [node with_node] in Hd.
  destruct (DeploymentResult.success result);
    (eexists _, _; split; [reflexivity|]); right;
    exists rc, config, n; rewrite Hd;
    (split; [congruence|]); (split; [exact Hname|]); (split; [exact Hvis|]);
    reflexivity.
Qed.

End Procedures.

Section DeployRequests.

Import RailwayApi ClientDeployer.

Lemma no_visualizer_variables config mysqlServiceId :
  ClientConfig.visualizer config = None ->
  Forall (fun kv => ~ In (fst kv) visualizer_keys)
    (map (fun v => (EnvironmentVariable.key v, EnvironmentVariable.value v))
       (buildEnvironmentVariables config mysqlServiceId)).
Proof.
  intros Hvis. apply List.Forall_forall. intros kv Hkv.
  apply in_map_iff in Hkv as (v & <- & Hv). cbn [fst].
  rewrite buildEnvironmentVariables_parts in Hv.
  unfold visualizer_entries, cart_entries, branding_entries, entry_if in Hv.
  rewrite Hvis in Hv. cbn [app] in Hv.
  apply in_app_or in Hv as [Hv|Hv].
  { unfold base_entries in Hv.
    repeat (destruct Hv as [<-|Hv]; [simpl; intuition discriminate|]).
    destruct Hv. }
  apply in_app_or in Hv as [Hv|Hv].
  { destruct (cart_only config);
      repeat (destruct Hv as [<-|Hv]; [simpl; intuition discriminate|]);
      destruct Hv. }
  destruct (ClientConfig.branding config) as [b|]; [|destruct Hv].
  repeat (apply in_app_or in Hv as [Hv|Hv];
          [destruct (Js.truthy _);
           repeat (destruct Hv as [<-|Hv]; [simpl; intuition discriminate|]);
           destruct Hv|]).
  destruct (Js.truthy _);
    repeat (destruct Hv as [<-|Hv]; [simpl; intuition discriminate|]);
    destruct Hv.
Qed.

Lemma deployClient_sends d config :
  ClientConfig.visualizer config = None ->
  sends (fun r => sets_no_visualizer r /\ is_delete r = false)
    (deployClient d config).
Proof.
  intros Hvis.
  unfold deployClient, createProject, createMySQLService, createService,
    setEnvironmentVariables, triggerDeployment, getServiceDomain,
    addCustomDomain, generatePassword.
  sends_tac; unfold sets_no_visualizer;
    try solve [split; [constructor | reflexivity]].
  - split; [|reflexivity]. simpl.
    repeat (constructor; [simpl; intuition discriminate|]). constructor.
  - split; [|reflexivity]. simpl. by apply no_visualizer_variables.
Qed.

Context {L : NodeCrypto}.

(** X22.  The requests of [deploy] for a client that exists: it sends nothing
    at all, or it starts by creating a project, also for a client that
    has a project already, which for a display name of the ASCII range is
    named after the client; no request sets a variable of the visualizer,
    whatever the tables hold for the client; and nothing is deleted. *)
Theorem deploy_requests_shape cid nid w c :
  clients (db w) !! cid = Some c ->
  deployments (db w) !! nid = None ->
  exists r w' sent,
    Router.deploy cid nid w = (r, w') /\
    requests (node w') = (requests (node w) ++ sent)%list /\
    (sent = [] \/
     exists name,
       head sent = Some (ProjectCreate name) /\
       (Js.is_ascii (Client.name c) = true ->
        name = project_name (Client.name c))) /\
    Forall sets_no_visualizer sent /\
    Forall (fun r => is_delete r = false) sent.
Proof.
  intros Hc Hf.
  destruct (deploy_reaches_deployer cid nid w c Hc Hf)
    as (r & w' & Hrun & [Hsame | (rc & config & n0 & Hreq & Hname & Hvis & Hnode)]).
  - exists r, w', []. rewrite app_nil_r. repeat split; auto.
  - destruct (deployClient_sends (new rc None None) config Hvis n0)
      as (sent & Hsent & HP).
    exists r, w', sent. split; [exact Hrun|].
    rewrite Hnode, Hsent, Hreq. split; [reflexivity|].
    split; [|split; eapply Forall_impl; try exact HP; simpl; tauto].
    right.
    pose proof (deployClient_starts_with (new rc None None) config n0) as Hstart.
    rewrite Hsent, Hname in Hstart.
    apply prefix_app_inv in Hstart. destruct Hstart as [k ->].
    eexists. split; [reflexivity|]. intros _. reflexivity.
Qed.

End DeployRequests.

(** A redeployment of the sample client, which has a project and a
    visualizer row. *)
Lemma deploy_requests_shape_witness :
  let d := Sample.database (Sample.acme Client.active (Some "prj-0")) ∅ in
  let w := Sample.world Sample.succeeding
             (Database.with_clientVisualizer
                [ {| ClientVisualizer.clientId := "c1";
                     ClientVisualizer.enabled := true;
                     ClientVisualizer.embedCode := Some "<script>";
                     ClientVisualizer.autoSyncApiKey := Some "k" |} ] d) in
  clients (db w) !! "c1" = Some (Sample.acme Client.active (Some "prj-0")) /\
  deployments (db w) !! "d2" = None /\
  exists r w' sent,
    Router.deploy (L := Fake.crypto) "c1" "d2" w = (r, w') /\
    requests (node w') = (requests (node w) ++ sent)%list /\
    (sent = [] \/
     exists name,
       head sent = Some (ProjectCreate name) /\
       (Js.is_ascii "Acme" = true -> name = "lendpro-acme")) /\
    Forall sets_no_visualizer sent /\
    Forall (fun r => is_delete r = false) sent.
Proof.
  intros d w.
  assert (Hc : clients (db w) !! "c1" = Some (Sample.acme Client.active (Some "prj-0")))
    by (vm_compute; reflexivity).
  assert (Hf : deployments (db w) !! "d2" = None) by (vm_compute; reflexivity).
  split; [exact Hc|]. split; [exact Hf|].
  exact (deploy_requests_shape (L := Fake.crypto) "c1" "d2" w _ Hc Hf).
Defined.

Section DeploySuccess.

Import Database Router.
Context {L : NodeCrypto}.

Lemma deployClient_success_shape d config :
  returns_with
    (fun result =>
       DeploymentResult.success result = true ->
       exists projectId,
         DeploymentResult.projectId result = Some projectId /\
         DeploymentResult.projectUrl result
           = Some ("https://railway.app/project/" ++ projectId) /\
         DeploymentResult.error result = None)
    (ClientDeployer.deployClient d config).
Proof.
  unfold ClientDeployer.deployClient.
  apply returns_with_bind; intros _. apply returns_with_try_catch.
  - repeat (apply returns_with_bind; intros).
    apply returns_with_ret. simpl. eauto.
  - intros e. apply returns_with_bind; intros _.
    apply returns_with_ret. simpl. discriminate.
Qed.

(** X23.  When [deploy] returns, the deployment has succeeded: the result
    carries the project and its URL; the client is [active], with the
    time of the deployment, its name and domain as before, and the
    project recorded if its identifier is not empty; the ledger row of
    the attempt is [success] with a time of completion and no error; one
    entry is added to the audit log; and the database went through six
    states. *)
Theorem deploy_success_state cid nid w c result w' :
  clients (db w) !! cid = Some c ->
  deployments (db w) !! nid = None ->
  Router.deploy cid nid w = (Return result, w') ->
  (DeploymentResult.success result = true /\
   exists projectId,
     DeploymentResult.projectId result = Some projectId /\
     DeploymentResult.projectUrl result
       = Some ("https://railway.app/project/" ++ projectId) /\
     (exists row,
         clients (db w') !! cid = Some row /\
         Client.status_ row = Client.active /\
         is_Some (Client.lastDeployedAt row) /\
         Client.name row = Client.name c /\
         Client.domain row = Client.domain c /\
         (projectId <> "" -> Client.railwayProjectId row = Some projectId))) /\
  (exists row,
      deployments (db w') !! nid = Some row /\
      Deployment.clientId row = cid /\
      Deployment.status_ row = Deployment.success /\
      is_Some (Deployment.completedAt row) /\
      Deployment.errorMessage row = None) /\
  auditLog (db w') = (auditLog (db w) ++ [deploy_log nid result])%list /\
  length (history w') = (length (history w) + 6)%nat.
Proof.
  intros Hc Hf Hrun.
  destruct (deploy_run cid nid w c Hc Hf) as (r & w2 & Hrun' & Hends).
  rewrite Hrun in Hrun'. injection Hrun' as <- <-.
  inversion Hends as [deployer config n0 n result' Hd Hs| |]; subst; clear Hends.
  destruct (deployClient_success_shape _ _ _ _ _ Hd Hs) as (pid & Hpid & Hurl & _).
  split; [split; [exact Hs|]; exists pid; split; [exact Hpid|]; split; [exact Hurl|]|].
  - eexists. split; [ledger; rewrite Hc; reflexivity|].
    cbn. rewrite Hpid. repeat split; [eauto|].
    intros Hne. apply String.eqb_neq in Hne.
    unfold Js.or_undefined, Js.truthy. by rewrite Hne.
  - split; [|split].
    + eexists. split; [ledger; reflexivity|]. cbn. repeat split; eauto.
    + reflexivity.
    + cbn [history wrote with_node attempt_started db].
      rewrite !length_app. simpl. lia.
Qed.

End DeploySuccess.

(** The first deployment of the sample client, on the platform that
    succeeds at the third poll. *)
Lemma deploy_success_state_witness :
  let w := Sample.world Sample.succeeding Sample.idle in
  let run := Router.deploy (L := Fake.crypto) "c1" "d2" w in
  clients (db w) !! "c1" = Some (Sample.acme Client.inactive None) /\
  deployments (db w) !! "d2" = None /\
  exists result,
    fst run = Return result /\
    DeploymentResult.projectId result = Some "prj-1" /\
    Client.status_ <$> clients (db (snd run)) !! "c1" = Some Client.active /\
    Deployment.status_ <$> deployments (db (snd run)) !! "d2"
      = Some Deployment.success /\
    length (history (snd run)) = 6%nat.
Proof.
  intros w run.
  assert (Hc : clients (db w) !! "c1" = Some (Sample.acme Client.inactive None))
    by (vm_compute; reflexivity).
  assert (Hf : deployments (db w) !! "d2" = None) by (vm_compute; reflexivity).
  split; [exact Hc|]. split; [exact Hf|].
  assert (Hp : match fst run with
               | Return x => DeploymentResult.projectId x
               | Throw _ => None
               end = Some "prj-1") by (vm_compute; reflexivity).
  destruct run as [[result|e] w'] eqn:Hrun; [|discriminate Hp].
  cbn [fst] in Hp. exists result. split; [reflexivity|].
  destruct (deploy_success_state (L := Fake.crypto) "c1" "d2" w _ result w' Hc Hf Hrun)
    as ((_ & pid & _ & _ & row & Hrow & Hst & _) & (row' & Hrow' & _ & Hst' & _)
        & _ & Hlen).
  cbn [snd]. rewrite Hrow, Hrow'. cbn. rewrite Hst, Hst'.
  split; [exact Hp|split; [reflexivity|split; [reflexivity|exact Hlen]]].
Defined.

(** A client the sample database does not have. *)
Lemma unknown_client_changes_nothing_witness :
  let w := Sample.world Sample.succeeding Sample.idle in
  clients (db w) !! "c9" = None /\
  Router.deploy (L := Fake.crypto) "c9" "d2" w = (Throw "Client not found: c9", w) /\
  Router.delete "c9" w = (Throw "Client not found", w).
Proof.
  intros w.
  assert (H : clients (db w) !! "c9" = None) by (vm_compute; reflexivity).
  split; [exact H|].
  destruct (unknown_client_changes_nothing (L := Fake.crypto) "c9" "d2" w H)
    as (_ & Hdeploy & Hdelete).
  split; [exact Hdeploy | exact Hdelete].
Defined.

(** The sample client before its first deployment. *)
Lemma delete_without_project_witness :
  let w := Sample.world Sample.succeeding Sample.idle in
  clients (db w) !! "c1" = Some (Sample.acme Client.inactive None) /\
  Js.truthy (Client.railwayProjectId (Sample.acme Client.inactive None)) = false /\
  exists w',
    Router.delete "c1" w = (Return true, w') /\
    node w' = node w /\
    clients (db w') !! "c1" = None /\
    related_rows "c1" (db w') = 0%nat.
Proof.
  intros w.
  assert (Hc : clients (db w) !! "c1" = Some (Sample.acme Client.inactive None))
    by (vm_compute; reflexivity).
  split; [exact Hc|]. split; [reflexivity|].
  destruct (delete_without_project "c1" w _ Hc eq_refl)
    as (w' & Hrun & Hnode & Hgone & Hrows & _).
  exists w'. auto.
Defined.

Section CreateAndUpdate.

Import Database Router.
Context {L : NodeCrypto}.

Lemma getClient_logged cid l w :
  getClient cid (wrote (logged l) w) = (fst (getClient cid w), wrote (logged l) w).
Proof.
  unfold getClient, bind, gets. cbn [fst snd db wrote logged with_auditLog clients].
  destruct (clients (db w) !! cid); reflexivity.
Qed.

Lemma createClient_audit c l b f v w :
  auditLog (db (snd (createClient c l b f v w))) = auditLog (db w).
Proof.
  unfold createClient, bind at 1, gets at 1. cbn [fst snd].
  destruct (clients (db w) !! new_id c); [reflexivity|].
  destruct b, f, v; reflexivity.
Qed.

(** X24.  Without a master key, or with an empty one, [create] throws before it
    writes anything: the tables are as they were and nothing is logged. *)
Theorem create_needs_key input nanoid w :
  Js.truthy (ENCRYPTION_KEY (env (node w))) = false ->
  exists w',
    Router.create input nanoid w = (Throw "Failed to encrypt password", w') /\
    db w' = db w /\ history w' = history w.
Proof.
  intros H. unfold Router.create. unfold bind at 1. rewrite in_node_run.
  unfold Crypto.encryptPassword, Crypto.getEncryptionKey, try_catch, bind, gets,
    throw, console_write, modify.
  rewrite H. cbn [fst snd]. eexists. repeat split.
Qed.

(** X25.  An update of the LendPro settings that gives no password, or an empty
    one, leaves the stored passwords as they are, and does not touch the
    process: nothing is encrypted. *)
Theorem updateLendpro_keeps_password input w :
  Js.truthy (up_password input) = false ->
  let w' := snd (Router.updateLendpro input w) in
  map ClientLendproConfig.password (clientLendproConfig (db w')) =
    map ClientLendproConfig.password (clientLendproConfig (db w)) /\
  node w' = node w.
Proof.
  intros H. cbv zeta. unfold Router.updateLendpro. rewrite H.
  unfold bind, ret, updateClientLendpro, logAdminAction.
  destruct (lendpro_no_values _); [split; reflexivity|].
  unfold write, modify.
  cbn [fst snd db node wrote logged with_auditLog clientLendproConfig lendpro_set
       with_clientLendproConfig].
  split; [|reflexivity].
  rewrite map_map. apply map_ext. intros r.
  destruct (String.eqb _ _); reflexivity.
Qed.

Hypothesis laws : NodeCryptoLaws L.

(** X26.  A client that [create] has made with a well-formed password is
    read back by [get] with the password that was given, while the table
    holds the token that [encryptPassword] returned for it; the client is
    [inactive], its cart-only mode is off whatever features are given,
    and it has no visualizer; the creation is logged. *)
Theorem create_then_get input nanoid w K :
  Js.isWellFormed (in_password (in_lendpro input)) = true ->
  ENCRYPTION_KEY (env (node w)) = Some K -> K <> "" ->
  clients (db w) !! nanoid = None ->
  childless nanoid (db w) ->
  exists w1 w2 token got,
    Router.create input nanoid w =
      (Return {| out_clientId := nanoid;
                 out_message := "Client created successfully. Deploy to activate." |},
       w1) /\
    fst (Crypto.encryptPassword (in_password (in_lendpro input)) (node w))
      = Return token /\
    first_of ClientLendproConfig.clientId nanoid (clientLendproConfig (db w1))
      = Some (lendproData nanoid token (in_lendpro input)) /\
    Router.get nanoid w1 = (Return got, w2) /\
    db w2 = db w1 /\
    Database.lendpro got
      = Some (lendproData nanoid (in_password (in_lendpro input)) (in_lendpro input)) /\
    Client.status_ (Database.client got) = Client.inactive /\
    Client.name (Database.client got) = in_name input /\
    Client.domain (Database.client got) = Some (in_domain input) /\
    ClientFeatures.cartOnly <$> Database.features got
      = (fun _ => false) <$> in_features input /\
    Database.visualizer got = None /\
    auditLog (db w1) = (auditLog (db w) ++ [create_log nanoid input])%list.
Proof.
  intros Htext HK Hne Hnew Hch.
  pose proof (encryptPassword_run (in_password (in_lendpro input)) K (node w) HK Hne)
    as Henc. cbv zeta in Henc.
  unfold Router.create. unfold bind at 1. rewrite in_node_run, Henc.
  cbn [fst snd].
  match type of Henc with _ = (Return ?t, ?n) => set (token := t) in *; set (n1 := n) in * end.
  set (c := {| new_id := nanoid; new_name := in_name input;
               new_domain := Some (in_domain input);
               new_status := Client.inactive |}).
  destruct (createClient_read_back c (lendproData nanoid token (in_lendpro input))
              (option_map (brandingData nanoid) (in_branding input))
              (option_map (featuresData nanoid) (in_features input))
              None (with_node n1 w) Hnew Hch)
    as (w1 & Hcr & Hget & _ & Hnode).
  unfold bind at 1. rewrite Hcr.
  unfold bind, logAdminAction, write, modify, ret. cbn [fst snd].
  eexists _, _, token, _. split; [reflexivity|].
  split; [reflexivity|].
  assert (Hrow : first_of ClientLendproConfig.clientId nanoid
                   (clientLendproConfig (db w1))
                 = Some (lendproData nanoid token (in_lendpro input))).
  { apply (f_equal (fun p => match fst p with
                             | Return (Some x) => Database.lendpro x
                             | _ => None
                             end)) in Hget.
    unfold getClient, bind, gets in Hget. cbn [fst] in Hget.
    destruct (clients (db w1) !! new_id c); [exact Hget | discriminate]. }
  split; [exact Hrow|].
  assert (Hdec : Crypto.decryptPassword token (node w1)
                 = (Return (in_password (in_lendpro input)), node w1)).
  { apply (decrypt_encrypt_same_hex laws _ K K (node w) token n1);
      try assumption; [|reflexivity]. by rewrite Hnode. }
  change (new_id c) with nanoid in Hget.
  unfold Router.get. unfold bind at 1. rewrite getClient_logged, Hget.
  cbn [fst lendpro]. unfold bind at 1. rewrite in_node_run.
  cbn [node wrote ClientLendproConfig.password lendpro_for lendproData].
  rewrite Hdec. cbn [fst snd ret].
  split; [reflexivity|]. split; [reflexivity|].
  split; [reflexivity|]. split; [reflexivity|]. split; [reflexivity|].
  split; [reflexivity|]. split; [destruct (in_features input); reflexivity|].
  split; [reflexivity|].
  cbn [db wrote logged with_auditLog auditLog].
  apply (f_equal snd) in Hcr. cbn [snd] in Hcr.
  by rewrite <- Hcr, createClient_audit.
Qed.

(** X27.  An update of the LendPro settings that gives a well-formed
    password stores a new token for it: [get] then returns the new
    password, and the other settings as given, or as they were where none
    is given; the update is logged. *)
Theorem updateLendpro_new_password input w K c row :
  Js.isWellFormed (default "" (up_password input)) = true ->
  ENCRYPTION_KEY (env (node w)) = Some K -> K <> "" ->
  Js.truthy (up_password input) = true ->
  clients (db w) !! up_clientId input = Some c ->
  first_of ClientLendproConfig.clientId (up_clientId input)
    (clientLendproConfig (db w)) = Some row ->
  exists w1 w2 got,
    Router.updateLendpro input w = (Return true, w1) /\
    Router.get (up_clientId input) w1 = (Return got, w2) /\
    ClientLendproConfig.password <$> Database.lendpro got
      = Some (default "" (up_password input)) /\
    ClientLendproConfig.username <$> Database.lendpro got
      = Some (default (ClientLendproConfig.username row) (up_username input)) /\
    ClientLendproConfig.storeId <$> Database.lendpro got
      = Some (default (ClientLendproConfig.storeId row) (up_storeId input)) /\
    Database.client got = c /\
    auditLog (db w1) = (auditLog (db w) ++ [updateLendpro_log input])%list.
Proof.
  intros Htext HK Hne Hp Hc Hrow.
  pose proof (encryptPassword_run (default "" (up_password input)) K (node w) HK Hne)
    as Henc. cbv zeta in Henc.
  unfold Router.updateLendpro. rewrite Hp.
  unfold bind at 1. unfold bind at 1. rewrite in_node_run, Henc.
  cbn [fst snd ret].
  match type of Henc with
  | _ = (Return ?t, ?n) => set (token := t) in *; set (n1 := n) in *
  end.
  unfold bind, updateClientLendpro, logAdminAction, write, modify, ret.
  cbn [fst snd].
  eexists _, _, _. split; [reflexivity|].
  unfold Router.get. unfold bind at 1. rewrite getClient_logged.
  rewrite (getClient_found (up_clientId input) _ c) by exact Hc.
  cbn [fst db wrote with_node].
  match goal with
  | |- context [with_config c (up_clientId input) ?d] =>
      assert (Hl : lendpro (with_config c (up_clientId input) d)
                   = Some (apply_lendpro
                             {| set_username := up_username input;
                                set_password := Some token;
                                set_storeId := up_storeId input;
                                set_salesId := up_salesId input;
                                set_salesName := up_salesName input;
                                set_apiUrl := up_apiUrl input |} row))
        by (apply (first_of_map ClientLendproConfig.clientId);
            [reflexivity | exact Hrow])
  end.
  rewrite Hl. unfold bind at 1. rewrite in_node_run.
  cbn [node wrote with_node ClientLendproConfig.password apply_lendpro
       set_password default].
  unfold Datatypes.id.
  rewrite (decrypt_encrypt_same_hex laws (default "" (up_password input)) K K
             (node w) token n1 n1 Htext HK Hne HK Hne eq_refl Henc).
  cbn [fst snd ret]. split; [reflexivity|].
  unfold with_password. cbn [lendpro client]. rewrite Hl. repeat split.
Qed.

End CreateAndUpdate.

(** The sample process without its master key. *)
Lemma create_needs_key_witness :
  let w := {| node := Sample.process None Sample.succeeding;
              db := Sample.idle; history := [] |} in
  let input :=
    {| Router.in_name := "Bolt"; Router.in_domain := "bolt.test";
       Router.in_lendpro :=
         {| Router.in_username := "u"; Router.in_password := "p";
            Router.in_storeId := "S"; Router.in_salesId := "X";
            Router.in_salesName := "J";
            Router.in_apiUrl := "https://apisg.mylendpro.com" |};
       Router.in_branding := None; Router.in_features := None |} in
  Js.truthy (ENCRYPTION_KEY (env (node w))) = false /\
  exists w',
    Router.create (L := Fake.crypto) input "c2" w
      = (Throw "Failed to encrypt password", w') /\
    db w' = db w /\ history w' = history w.
Proof.
  intros w input. split; [reflexivity|].
  exact (create_needs_key (L := Fake.crypto) input "c2" w eq_refl).
Defined.

(** A new user name for the sample client, with an empty password. *)
Lemma updateLendpro_keeps_password_witness :
  let w := Sample.world Sample.succeeding Sample.idle in
  let input :=
    {| Router.up_clientId := "c1"; Router.up_username := Some "v";
       Router.up_password := Some ""; Router.up_storeId := None;
       Router.up_salesId := None; Router.up_salesName := None;
       Router.up_apiUrl := None |} in
  Js.truthy (Router.up_password input) = false /\
  map ClientLendproConfig.password
    (clientLendproConfig (db (snd (Router.updateLendpro (L := Fake.crypto) input w))))
  = [Sample.stored_password] /\
  map ClientLendproConfig.username
    (clientLendproConfig (db (snd (Router.updateLendpro (L := Fake.crypto) input w))))
  = ["v"].
Proof.
  intros w input. split; [reflexivity|].
  destruct (updateLendpro_keeps_password (L := Fake.crypto) input w eq_refl)
    as [Hpw _].
  split; [exact Hpw | reflexivity].
Defined.

(** A second client, created in the sample world and read back. *)
Lemma create_then_get_witness :
  let w := Sample.world Sample.succeeding Sample.idle in
  let input :=
    {| Router.in_name := "Bolt"; Router.in_domain := "bolt.test";
       Router.in_lendpro :=
         {| Router.in_username := "u"; Router.in_password := "p";
            Router.in_storeId := "S"; Router.in_salesId := "X";
            Router.in_salesName := "J";
            Router.in_apiUrl := "https://apisg.mylendpro.com" |};
       Router.in_branding := None;
       Router.in_features :=
         Some {| Router.in_preApproval := true; Router.in_cartFinancing := true;
                 Router.in_orderTracking := true;
                 Router.in_customerAccounts := true;
                 Router.in_productComparison := true;
                 Router.in_visualizer3D := true |} |} in
  Js.isWellFormed (Router.in_password (Router.in_lendpro input)) = true /\
  ENCRYPTION_KEY (env (node w)) = Some Sample.master_key /\
  Sample.master_key <> "" /\
  clients (db w) !! "c2" = None /\
  childless "c2" (db w) /\
  exists w1 w2 got,
    fst (Router.create (L := Fake.crypto) input "c2" w)
      = Return {| Router.out_clientId := "c2";
                  Router.out_message :=
                    "Client created successfully. Deploy to activate." |} /\
    snd (Router.create (L := Fake.crypto) input "c2" w) = w1 /\
    Router.get (L := Fake.crypto) "c2" w1 = (Return got, w2) /\
    ClientLendproConfig.password <$> Database.lendpro got = Some "p" /\
    ClientFeatures.cartOnly <$> Database.features got = Some false.
Proof.
  intros w input.
  assert (HK : ENCRYPTION_KEY (env (node w)) = Some Sample.master_key)
    by reflexivity.
  assert (Hne : Sample.master_key <> "") by discriminate.
  assert (Hnew : clients (db w) !! "c2" = None) by (vm_compute; reflexivity).
  assert (Hch : childless "c2" (db w)) by (repeat split; reflexivity).
  split; [reflexivity|].
  split; [exact HK|]. split; [exact Hne|]. split; [exact Hnew|].
  split; [exact Hch|].
  destruct (create_then_get (L := Fake.crypto) fake_laws input "c2" w
              Sample.master_key eq_refl HK Hne Hnew Hch)
    as (w1 & w2 & token & got & Hcr & _ & _ & Hget & _ & Hl & _ & _ & _ & Hf & _).
  exists w1, w2, got. rewrite Hcr.
  split; [reflexivity|]. split; [reflexivity|]. split; [exact Hget|].
  rewrite Hl, Hf. split; reflexivity.
Defined.

(** A new password for the sample client. *)
Lemma updateLendpro_new_password_witness :
  let w := Sample.world Sample.succeeding Sample.idle in
  let input :=
    {| Router.up_clientId := "c1"; Router.up_username := None;
       Router.up_password := Some "q"; Router.up_storeId := None;
       Router.up_salesId := None; Router.up_salesName := None;
       Router.up_apiUrl := None |} in
  Js.isWellFormed (default "" (Router.up_password input)) = true /\
  ENCRYPTION_KEY (env (node w)) = Some Sample.master_key /\
  Sample.master_key <> "" /\
  Js.truthy (Router.up_password input) = true /\
  clients (db w) !! "c1" = Some (Sample.acme Client.inactive None) /\
  exists w1 w2 got,
    Router.updateLendpro (L := Fake.crypto) input w = (Return true, w1) /\
    Router.get (L := Fake.crypto) "c1" w1 = (Return got, w2) /\
    ClientLendproConfig.password <$> Database.lendpro got = Some "q" /\
    ClientLendproConfig.username <$> Database.lendpro got = Some "u".
Proof.
  intros w input.
  assert (HK : ENCRYPTION_KEY (env (node w)) = Some Sample.master_key)
    by reflexivity.
  assert (Hne : Sample.master_key <> "") by discriminate.
  assert (Hc : clients (db w) !! "c1" = Some (Sample.acme Client.inactive None))
    by (vm_compute; reflexivity).
  split; [reflexivity|].
  split; [exact HK|]. split; [exact Hne|]. split; [reflexivity|].
  split; [exact Hc|].
  destruct (updateLendpro_new_password (L := Fake.crypto) fake_laws input w
              Sample.master_key _ Sample.acme_lendpro eq_refl HK Hne eq_refl Hc
              eq_refl)
    as (w1 & w2 & got & Hup & Hget & Hpw & Hun & _).
  exists w1, w2, got. auto.
Defined.

(* ===================================================================== *)
(** * Roles and the context of a request *)
(* ===================================================================== *)

Section Roles.

Import Trpc.

Ltac by_role ctx :=
  unfold adminProcedure, superAdminProcedure, use, protectedProcedure,
    Auth.hasRole;
  destruct (user ctx) as [[? ? ? [] ? ?]|]; simpl;
  (split; [intros H; try discriminate H; injection H as <-; eauto
          | intros (u' & Hu & Hr & ->); try discriminate Hu;
            injection Hu as <-; simpl in Hr; try discriminate Hr; reflexivity]).

(** X28.  The three procedures admit exactly the users that [hasRole] admits
    for [viewer], [admin] and [super_admin]: every user that is logged in,
    the users that are not viewers, and the super admins.  The context
    handed on is the user and the token.  Without a user the error is
    [UNAUTHORIZED] in all three; a user who is logged in is only ever
    refused with [FORBIDDEN]. *)
Theorem procedures_follow_roles ctx :
  (forall c, protectedProcedure ctx = Next c <->
     exists u, user ctx = Some u /\ Auth.hasRole u AdminUser.viewer = true /\
               c = {| auth_user := u; auth_token := token ctx |}) /\
  (forall c, adminProcedure ctx = Next c <->
     exists u, user ctx = Some u /\ Auth.hasRole u AdminUser.admin = true /\
               c = {| auth_user := u; auth_token := token ctx |}) /\
  (forall c, superAdminProcedure ctx = Next c <->
     exists u, user ctx = Some u /\ Auth.hasRole u AdminUser.super_admin = true /\
               c = {| auth_user := u; auth_token := token ctx |}) /\
  (user ctx = None ->
   forall procedure,
     In procedure [protectedProcedure; adminProcedure; superAdminProcedure] ->
     exists e, procedure ctx = Rejected e /\ code_ e = UNAUTHORIZED) /\
  (forall u procedure e,
     user ctx = Some u ->
     In procedure [protectedProcedure; adminProcedure; superAdminProcedure] ->
     procedure ctx = Rejected e -> code_ e = FORBIDDEN).
Proof.
  split; [|split; [|split; [|split]]].
  - intros c. by_role ctx.
  - intros c. by_role ctx.
  - intros c. by_role ctx.
  - intros Hnone procedure Hin.
    destruct Hin as [<-|[<-|[<-|[]]]];
      unfold adminProcedure, superAdminProcedure, use, protectedProcedure;
      rewrite Hnone; eauto.
  - intros u procedure e Hu Hin.
    destruct Hin as [<-|[<-|[<-|[]]]];
      unfold adminProcedure, superAdminProcedure, use, protectedProcedure;
      rewrite Hu; simpl; [discriminate| |];
      destruct (AdminUser.role_ u); intros [= <-]; reflexivity.
Qed.

Lemma prefix_app p h :
  String.prefix p h = true -> h = p ++ Js.substring_from (String.length p) h.
Proof.
  revert h. induction p as [|a p IH]; intros h; [reflexivity|].
  destruct h as [|b h]; [discriminate|]. simpl.
  destruct (ascii_dec a b) as [<-|]; [|discriminate].
  intros H.
  change (String a h = String a (p ++ Js.substring_from (String.length p) h)).
  f_equal. apply IH, H.
Qed.

Lemma prefix_of_app p t : String.prefix p (p ++ t) = true.
Proof.
  induction p as [|a p IH]; [by destruct t|].
  change (String.prefix (String a p) (String a (p ++ t)) = true).
  simpl. by destruct (ascii_dec a a).
Qed.

Variable getCurrentUser : string -> M World (option AdminUser.t).

(** X29.  [createContext] never throws.  The token of the context is what
    follows ["Bearer "] in the header, and there is one only if the
    header starts so.  Without a token, or with an empty one, the user is
    null and [getCurrentUser] is not called; otherwise the user is what
    [getCurrentUser] returns for the token, and null, with a line on the
    console, if it throws. *)
Theorem createContext_token authorization w :
  (forall h t, authorization = Some h ->
               (bearer authorization = Some t <-> h = "Bearer " ++ t)) /\
  exists ctx w',
    createContext getCurrentUser authorization w = (Return ctx, w') /\
    token ctx = bearer authorization /\
    (Js.truthy (bearer authorization) = false -> user ctx = None /\ w' = w) /\
    (forall t, bearer authorization = Some t -> t <> "" ->
       match getCurrentUser t w with
       | (Return u, w1) => user ctx = u /\ w' = w1
       | (Throw e, w1) =>
           user ctx = None /\ db w' = db w1 /\
           console (node w') =
             (console (node w1) ++ [("[tRPC] Auth error: " ++ e)%string])%list
       end).
Proof.
  split.
  { intros h t ->. unfold bearer, Js.startsWith. split.
    - destruct (String.prefix "Bearer " h) eqn:Hp; [|discriminate].
      intros [= <-]. exact (prefix_app "Bearer " h Hp).
    - intros ->. rewrite (prefix_of_app "Bearer " t).
      reflexivity. }
  unfold createContext, bind.
  destruct (Js.truthy (bearer authorization)) eqn:Ht.
  - unfold try_catch.
    destruct (getCurrentUser (default "" (bearer authorization)) w)
      as [[u|e] w1] eqn:Hrun.
    + eexists _, _. split; [reflexivity|]. split; [reflexivity|].
      split; [discriminate|]. intros t Hb _. rewrite Hb in Hrun. simpl in Hrun.
      rewrite Hrun. split; reflexivity.
    + rewrite in_node_run. eexists _, _. split; [reflexivity|].
      split; [reflexivity|]. split; [discriminate|].
      intros t Hb _. rewrite Hb in Hrun. simpl in Hrun. rewrite Hrun.
      repeat split.
  - eexists _, _. split; [reflexivity|]. split; [reflexivity|].
    split; [auto|]. intros t Hb Hne. rewrite Hb in Ht.
    apply (truthy_key t) in Hne. congruence.
Qed.

End Roles.
